(** * GanttRing: layout of a radial Gantt chart

    A shallow embedding of the layout code of
    [src/Clients/Visuals/visuals/ganttRing.ts] (module [powerbi.visuals],
    class [GanttRing]): [calcPercent], [calcTaskRadians], [buildGantTasks],
    [converter], [compressLayout], [getTotalProgressLabel] and the radii of
    [draw], and of the sample data of class [ProjectData], followed by the
    properties of the layout that the specification states and by further
    properties of the code.

    Conventions of the embedding.
    - A JavaScript number is a [number]: NaN, the two infinities, or a finite
      value held as an exact rational.  Arithmetic on finite values is exact
      and zero carries no sign; every zero divisor of this program comes
      from [Math.abs] or from a difference of equal values, which is [+0].
    - The program computes in binary64, which rounds and underflows.  The
      statements on the range of a percentage and on the order of two
      angles carry the hypothesis under which binary64 agrees with them: a
      span that is zero or at least [least_span] where a value is divided
      by [total / 100], and [Date] entries over a span of at most [two53]
      where the offsets of two tasks are compared.  Module [Binary64] holds
      [calcPercent] and [calcTaskRadians] on binary64 itself, to evaluate
      them where the two arithmetics part.
    - [Math.PI] is the rational value of the binary64 constant.
    - An entry of a value series is a [Date] object or a number; [null],
      [undefined] and strings are not among the entries of [any].
    - An exception is an explicit [Throw] result.
    - [Date.now()] is read once per task and once at the end of
      [buildGantTasks]; the clock is a function from the number of the read
      to the time it returns.
    - Fields that only carry host objects to the renderer ([color],
      [tooltip]) are left out; [selector] keeps the identity it wraps. *)

From Stdlib Require Import ZArith QArith Qabs Qround List String Bool Lia Lqa.
From Stdlib Require Import DecimalString DecimalNat.
From Stdlib Require PrimFloat.
Import ListNotations.

Set Implicit Arguments.

(** ** JavaScript numbers *)

Module Number.

Inductive number : Type :=
| NaN
| NegInf
| PosInf
| Fin (q : Q).

Definition Qltb (x y : Q) : bool := negb (Qle_bool y x).

(** [x < y] *)
Definition lt (x y : number) : bool :=
  match x, y with
  | NaN, _ | _, NaN => false
  | _, NegInf => false
  | NegInf, _ => true
  | PosInf, _ => false
  | Fin _, PosInf => true
  | Fin a, Fin b => Qltb a b
  end.

(** [x <= y] *)
Definition le (x y : number) : bool :=
  match x, y with
  | NaN, _ | _, NaN => false
  | NegInf, _ => true
  | _, NegInf => false
  | _, PosInf => true
  | PosInf, Fin _ => false
  | Fin a, Fin b => Qle_bool a b
  end.

(** [x > y] and [x >= y] *)
Definition gt (x y : number) : bool := lt y x.
Definition ge (x y : number) : bool := le y x.

(** [x === y] on numbers *)
Definition eqb (x y : number) : bool :=
  match x, y with
  | NegInf, NegInf | PosInf, PosInf => true
  | Fin a, Fin b => Qeq_bool a b
  | _, _ => false
  end.

(** Sign of a number that is not NaN. *)
Definition sgn (x : number) : comparison :=
  match x with
  | NaN => Eq
  | NegInf => Lt
  | PosInf => Gt
  | Fin q => q ?= 0
  end.

Definition inf_of (s : comparison) : number :=
  match s with
  | Eq => NaN
  | Lt => NegInf
  | Gt => PosInf
  end.

Definition sgn_mul (s t : comparison) : comparison :=
  match s, t with
  | Eq, _ | _, Eq => Eq
  | Lt, Lt | Gt, Gt => Gt
  | _, _ => Lt
  end.

(** [x - y] *)
Definition sub (x y : number) : number :=
  match x, y with
  | NaN, _ | _, NaN => NaN
  | Fin a, Fin b => Fin (a - b)
  | PosInf, PosInf | NegInf, NegInf => NaN
  | PosInf, _ | _, NegInf => PosInf
  | NegInf, _ | _, PosInf => NegInf
  end.

(** [x * y] *)
Definition mul (x y : number) : number :=
  match x, y with
  | NaN, _ | _, NaN => NaN
  | Fin a, Fin b => Fin (a * b)
  | _, _ => inf_of (sgn_mul (sgn x) (sgn y))
  end.

(** [x / y]; a zero divisor is [+0]. *)
Definition div (x y : number) : number :=
  match x, y with
  | NaN, _ | _, NaN => NaN
  | Fin a, Fin b => if Qeq_bool b 0 then inf_of (a ?= 0) else Fin (a / b)
  | Fin _, _ => Fin 0
  | _, Fin b => inf_of (sgn_mul (sgn x) (if Qltb b 0 then Lt else Gt))
  | _, _ => NaN
  end.

(** [Math.abs] *)
Definition abs (x : number) : number :=
  match x with
  | NaN => NaN
  | NegInf | PosInf => PosInf
  | Fin q => Fin (Qabs q)
  end.

(** [Math.max] of two arguments *)
Definition max (x y : number) : number :=
  match x, y with
  | NaN, _ | _, NaN => NaN
  | _, _ => if lt x y then y else x
  end.

(** [Math.round]: the nearest integer, a tie going up. *)
Definition round (x : number) : number :=
  match x with
  | Fin q => Fin (inject_Z (Qfloor (q + (1 # 2))))
  | _ => x
  end.

Definition of_Z (z : Z) : number := Fin (inject_Z z).

(** The value of [Math.PI]: 884279719003555 / 2^48. *)
Definition PI : number := Fin (884279719003555 # 281474976710656).

(** Numbers that denote the same value ([Fin] holds a fraction that need
    not be reduced). *)
Definition same (x y : number) : Prop := eqb x y = true.

End Number.

Import Number.

Declare Scope js_scope.
Delimit Scope js_scope with js.
Bind Scope js_scope with number.
Infix "-" := sub : js_scope.
Infix "*" := mul : js_scope.
Infix "/" := div : js_scope.
Infix "<?" := lt : js_scope.
Infix "<=?" := le : js_scope.
Infix ">?" := gt : js_scope.
Infix ">=?" := ge : js_scope.
Infix "==" := same (at level 70, no associativity) : js_scope.

Coercion Fin : Q >-> number.

(** ** Percent and angle

    [calcPercent(value, total, overflowValue = 100)] and
    [calcTaskRadians(value, duration, defaultToZero = false)].  An omitted
    argument of the source is passed explicitly here. *)

Definition calcPercent (value total overflowValue : number) : number :=
  if (value >=? total)%js then overflowValue
  else (value / (total / Fin 100))%js.

Definition calcTaskRadians (value duration : number) (defaultToZero : bool)
  : number :=
  let percent :=
    calcPercent value duration (if defaultToZero then Fin 0 else Fin 100) in
  let degrees := (percent * Fin 3.6)%js in
  (degrees * PI / Fin 180)%js.

(** ** Percent and angle in binary64

    The same two functions on the binary64 numbers of the kernel, whose
    quotients and products round and underflow as those of the program do.
    They evaluate; the properties below use them to show where a statement
    about all numbers fails on very small ones. *)

Module Binary64.

Import PrimFloat.
Local Open Scope float_scope.

Definition Math_PI : float := 0x1.921fb54442d18p+1.

(** [value >= total] is [total <= value], false when either is NaN. *)
Definition calcPercent (value total overflowValue : float) : float :=
  if total <=? value then overflowValue
  else value / (total / 100).

(** The literal [3.6] of the source is the binary64 value nearest to it. *)
Definition calcTaskRadians (value duration : float) (defaultToZero : bool)
  : float :=
  let percent :=
    calcPercent value duration (if defaultToZero then 0 else 100) in
  let degrees := percent * 0x1.ccccccccccccdp+1 in
  degrees * Math_PI / 180.

(** [Number.MIN_VALUE], the least positive binary64 number (about 5e-324),
    and 2023 and 2024 times it (about 1e-320). *)
Definition MIN_VALUE : float := 0x1p-1074.
Definition tiny2023 : float := 0x7e7p-1074.
Definition tiny2024 : float := 0x7e8p-1074.

End Binary64.

(** ** Exceptions *)

Inductive exn : Type :=
| TypeError.

Inductive result (A : Type) : Type :=
| Ok (a : A)
| Throw (e : exn).

Arguments Ok {A} a.
Arguments Throw {A} e.

Definition bind {A B : Type} (r : result A) (k : A -> result B) : result B :=
  match r with
  | Ok a => k a
  | Throw e => Throw e
  end.

Notation "x <- r ;; k" := (bind r (fun x => k))
  (at level 61, r at next level, right associativity).
Notation "' p <- r ;; k" := (bind r (fun x => let p := x in k))
  (at level 61, p pattern, r at next level, right associativity).

(** [Array.prototype.reduce] without an initial value: a TypeError on the
    empty array, otherwise a left fold seeded with the first element. *)
Definition reduce {A : Type} (f : A -> A -> A) (l : list A) : result A :=
  match l with
  | [] => Throw TypeError
  | x :: xs => Ok (fold_left f xs x)
  end.

(** ** Values held by the data view

    The [any] entries of the two value series: a [Date] object, whose time
    value is an integer count of milliseconds or absent (an invalid date),
    or a plain number. *)

Definition Date : Type := option Z.

Inductive any : Type :=
| ADate (d : Date)
| ANumber (x : number).

Definition Date_valueOf (d : Date) : number :=
  match d with
  | Some t => of_Z t
  | None => NaN
  end.

(** [v.valueOf()], also the number that [<] and [>] compare. *)
Definition valueOf (v : any) : number :=
  match v with
  | ADate d => Date_valueOf d
  | ANumber x => x
  end.

(** [new Date(x)] for a number: the time value is [x] truncated toward zero
    when it is finite and within 8.64e15 milliseconds of the epoch. *)
Definition TimeClip (x : number) : Date :=
  match x with
  | Fin q =>
      if Qle_bool (Qabs q) 8640000000000000
      then Some (Z.quot (Qnum q) (Zpos (Qden q)))
      else None
  | _ => None
  end.

(** [v instanceof Date ? v : new Date(v)], where [v] is an array element
    or [undefined] (an index past the end of the array). *)
Definition asDate (v : option any) : Date :=
  match v with
  | Some (ADate d) => d
  | Some (ANumber x) => TimeClip x
  | None => None
  end.

(** ** The chart *)

Definition DataViewScopeIdentity : Type := nat.

(** [SelectionId.createWithId(id)] wraps the identity it is given, which is
    [undefined] when the identity array is too short. *)
Record SelectionId : Type := createWithId { id : option DataViewScopeIdentity }.

Record IGanttTask : Type := {
  name : string;
  startAngle : number;
  endAngle : number;
  layer : Z;
  progress : number;
  selector : option SelectionId
}.

(** [IGantt]; its [progress] field is [gprogress] here, the name [progress]
    being taken by the field of the task. *)
Record IGantt : Type := {
  tasks : list IGanttTask;
  layers : Z;
  compress : bool;
  gprogress : number;
  progressAngle : number
}.

Definition set_layer (task : IGanttTask) (l : Z) : IGanttTask :=
  {| name := task.(name); startAngle := task.(startAngle);
     endAngle := task.(endAngle); layer := l;
     progress := task.(progress); selector := task.(selector) |}.

Definition set_selector (task : IGanttTask) (s : SelectionId) : IGanttTask :=
  {| name := task.(name); startAngle := task.(startAngle);
     endAngle := task.(endAngle); layer := task.(layer);
     progress := task.(progress); selector := Some s |}.

(** ** Layer compaction (the [if (gantt.compress)] branch) *)

(** The test of the source for one member [t] of a row against [task]. *)
Definition clear_of (t task : IGanttTask) : bool :=
  (t.(startAngle) >=? task.(endAngle))%js
  || (t.(endAngle) <=? task.(startAngle))%js.

(** [layers[l].every(t => ...)] *)
Definition hasRoom (row : list IGanttTask) (task : IGanttTask) : bool :=
  forallb (fun t => clear_of t task) row.

(** The [for] loop over the rows from index [l] on: the first row with room
    receives the task and ends the loop. *)
Fixpoint scanLayers (rows : list (list IGanttTask)) (l : Z)
    (task : IGanttTask) : list (list IGanttTask) * IGanttTask :=
  match rows with
  | [] => ([], task)
  | row :: rest =>
      if hasRoom row task then
        let task' := set_layer task l in
        ((row ++ [task']) :: rest, task')
      else
        let '(rest', task') := scanLayers rest (l + 1) task in
        (row :: rest', task')
  end.

(** The loop followed by [if (task.layer === -1)]: a task that found no
    row opens a new one.  The pushed row holds the task object itself, so
    its member carries the layer assigned after the push. *)
Definition compact (rows : list (list IGanttTask)) (task : IGanttTask)
  : list (list IGanttTask) * IGanttTask :=
  let '(rows1, task1) := scanLayers rows 0 task in
  if (task1.(layer) =? -1)%Z then
    let task2 := set_layer task1 (Z.of_nat (List.length rows1 + 1) - 1) in
    (rows1 ++ [[task2]], task2)
  else (rows1, task1).

(** ** buildGantTasks *)

Section BuildGantTasks.

(** [now k] is what the [k]-th call of [Date.now()] returns. *)
Variable now : nat -> Z.

Variable compress_ : bool.
Variables (starts ends : list any).
Variables (start duration : number).
Variable getSelectionId : IGanttTask -> nat -> result SelectionId.

(** The task object built for [name_] at index [i], before its selector
    and its layer are assigned. *)
Definition newTask (name_ : string) (i : nat) : IGanttTask :=
  let taskStart := asDate (nth_error starts i) in
  let taskEnd := asDate (nth_error ends i) in
  let taskStartValue := Date_valueOf taskStart in
  let taskEndValue := Date_valueOf taskEnd in
  let taskDuration := (taskEndValue - taskStartValue)%js in
  let completed :=
    (max (of_Z (now i)) taskStartValue - taskStartValue)%js in
  let progress_ := round (calcPercent completed taskDuration (Fin 100)) in
  {| name := name_;
     layer := -1;
     progress := progress_;
     startAngle := calcTaskRadians (taskStartValue - start)%js duration true;
     endAngle := calcTaskRadians (taskEndValue - start)%js duration false;
     selector := None |}.

(** The callback of [names.map]: the task of [name_] at index [i], and the
    rows after it has been placed. *)
Definition mapTask (rows : list (list IGanttTask)) (name_ : string) (i : nat)
  : result (list (list IGanttTask) * IGanttTask) :=
  let task := newTask name_ i in
  s <- getSelectionId task i ;;
  let task := set_selector task s in
  if compress_ then Ok (compact rows task)
  else Ok (rows, set_layer task (Z.of_nat i)).

(** [names.map] from index [i] on, threading the rows. *)
Fixpoint mapTasks (rows : list (list IGanttTask)) (names : list string)
    (i : nat) : result (list (list IGanttTask) * list IGanttTask) :=
  match names with
  | [] => Ok (rows, [])
  | name_ :: names' =>
      '(rows1, task) <- mapTask rows name_ i ;;
      '(rows2, tasks_) <- mapTasks rows1 names' (S i) ;;
      Ok (rows2, task :: tasks_)
  end.

End BuildGantTasks.

(** The comparisons of the two [reduce] calls. *)
Definition earlier (prev curr : any) : any :=
  if (valueOf prev <? valueOf curr)%js then prev else curr.

Definition later (prev curr : any) : any :=
  if (valueOf prev >? valueOf curr)%js then prev else curr.

(** The overall start and the overall duration: the earliest start, and
    the distance from it to the latest end. *)
Definition timeSpan (starts ends : list any) : result (number * number) :=
  first <- reduce earlier starts ;;
  last_ <- reduce later ends ;;
  let start := valueOf first in
  let end_ := valueOf last_ in
  Ok (start, abs (end_ - start)%js).

Definition buildGantTasks (now : nat -> Z) (gantt : IGantt)
    (names : list string) (starts ends : list any)
    (getSelectionId : IGanttTask -> nat -> result SelectionId)
  : result IGantt :=
  '(start, duration) <- timeSpan starts ends ;;
  '(rows, tasks_) <-
     mapTasks now gantt.(compress) starts ends start duration getSelectionId
       [[]] names 0 ;;
  let progress_ :=
    (max (of_Z (now (List.length names))) start - start)%js in
  Ok {| tasks := tasks_;
        layers :=
          if gantt.(compress) then Z.of_nat (List.length rows)
          else Z.of_nat (List.length tasks_);
        compress := gantt.(compress);
        gprogress := round (calcPercent progress_ duration (Fin 100));
        progressAngle := calcTaskRadians progress_ duration false |}.

(** ** The data view and the converter *)

(** Of the data view, the parts that the converter reads.  [cat_values] is
    the [values] array of a category column and [cvalues] the [values]
    array of value series of the categorical view. *)

(** The [layout.compress] property of [metadata.objects], when it is set. *)
Record DataViewMetadata : Type := {
  layout_compress : option bool
}.

Record DataViewCategoryColumn : Type := {
  cat_values : list string;
  identity : option (list DataViewScopeIdentity)
}.

Record DataViewValueColumn : Type := {
  values : list any
}.

Record DataViewCategorical : Type := {
  categories : option (list DataViewCategoryColumn);
  cvalues : option (list DataViewValueColumn)
}.

Record DataView : Type := {
  metadata : option DataViewMetadata;
  categorical : option DataViewCategorical
}.

(** Modelled from the spec: [DataViewObjects.getValue] is host code that is
    not part of this repository; the compress flag is a configurable boolean
    toggle, so the lookup yields the stored property, or the default given
    by the caller when the property is not set. *)
Definition getValue (stored : option bool) (defaultValue : bool) : bool :=
  match stored with
  | Some b => b
  | None => defaultValue
  end.

(** [dataView.metadata && DataViewObjects.getValue(..., false)], read as a
    condition: an absent [metadata] is falsy. *)
Definition compressLayout (dataView : DataView) : bool :=
  match dataView.(metadata) with
  | Some m => getValue m.(layout_compress) false
  | None => false
  end.

Definition converter (now : nat -> Z) (dataView : DataView) : result IGantt :=
  let gantt :=
    {| tasks := []; layers := 0; gprogress := Fin 0; progressAngle := Fin 0;
       compress := compressLayout dataView |} in
  match dataView.(categorical) with
  | Some categoryView =>
      match categoryView.(categories) with
      | Some (category :: _) =>
          let names := category.(cat_values) in
          match categoryView.(cvalues) with
          | Some (v0 :: v1 :: _) =>
              let starts := v0.(values) in
              let ends := v1.(values) in
              buildGantTasks now gantt names starts ends
                (fun _ i =>
                   match category.(identity) with
                   | Some ids => Ok (createWithId (nth_error ids i))
                   | None => Throw TypeError
                   end)
          | _ => Ok gantt
          end
      | _ => Ok gantt
      end
  | None => Ok gantt
  end.

(** ** The progress label *)

Section Label.

(** The conversion of a number to a string done by [progress + '%'],
    supplied by the JavaScript runtime. *)
Variable toString : number -> string.

Definition getTotalProgressLabel (tasksCount : nat) (progress_ : number)
  : string :=
  if Nat.eqb tasksCount 0 then "Project Has No Tasks"%string
  else if (progress_ <=? Fin 0)%js then "Not Started"%string
  else if (progress_ >=? Fin 100)%js then "Completed"%string
  else (toString progress_ ++ "%")%string.

(** The assignment to [this.totalProgress] in [draw]. *)
Definition totalProgress (gantt : IGantt) : string :=
  getTotalProgressLabel (List.length gantt.(tasks)) gantt.(gprogress).

End Label.

(** ** Notions of the specification *)

(** Two tasks do not overlap when one starts at or after the end of the
    other, or ends at or before its start. *)
Definition overlap (a b : IGanttTask) : bool :=
  negb (clear_of a b || clear_of b a).

(** First fit as the specification words it, on the angle ranges alone:
    no layer exists before the first task. *)
Definition interval : Type := (number * number)%type.

Definition interval_of (t : IGanttTask) : interval :=
  (t.(startAngle), t.(endAngle)).

Definition fits (existing task : interval) : bool :=
  (fst existing >=? snd task)%js || (snd existing <=? fst task)%js.

(** Index of the first layer all of whose members pass the test. *)
Fixpoint firstLayer (lays : list (list interval)) (task : interval)
  : option nat :=
  match lays with
  | [] => None
  | members :: rest =>
      if forallb (fun e => fits e task) members then Some 0%nat
      else option_map S (firstLayer rest task)
  end.

Fixpoint addTo (lays : list (list interval)) (l : nat) (task : interval)
  : list (list interval) :=
  match lays, l with
  | [], _ => []
  | members :: rest, O => (members ++ [task]) :: rest
  | members :: rest, S l' => members :: addTo rest l' task
  end.

Definition firstFitStep (lays : list (list interval)) (task : interval)
  : list (list interval) * nat :=
  match firstLayer lays task with
  | Some l => (addTo lays l task, l)
  | None => (lays ++ [[task]], List.length lays)
  end.

Fixpoint firstFit (lays : list (list interval)) (todo : list interval)
  : list nat :=
  match todo with
  | [] => []
  | task :: rest =>
      let '(lays', l) := firstFitStep lays task in
      l :: firstFit lays' rest
  end.

(** The angle ranges held by the rows of the source. *)
Definition ranges (rows : list (list IGanttTask)) : list (list interval) :=
  map (map interval_of) rows.

(** The angle mapping as the specification writes it. *)
Definition radians_spec (value duration overflow : number) : number :=
  ((if (value >=? duration) then overflow
    else value / (duration / Fin 100)) * Fin 3.6 * PI / Fin 180)%js.

(** The last two steps of [calcTaskRadians], from percent to radians. *)
Definition toRadians (percent : number) : number :=
  (percent * Fin 3.6 * PI / Fin 180)%js.

(** What of a chart does not involve progress: the angles and layer of
    every task, and the layer count. *)
Definition shape (t : IGanttTask) : number * number * Z :=
  (t.(startAngle), t.(endAngle), t.(layer)).

Definition geometry (g : IGantt) : list (number * number * Z) * Z :=
  (map shape g.(tasks), g.(layers)).

(** Two runs of [names.map] end alike: both throw, or both return, with the
    same angle ranges in the rows and tasks of the same shape. *)
Definition alike
    (r1 r2 : result (list (list IGanttTask) * list IGanttTask)) : Prop :=
  match r1, r2 with
  | Ok (rows1, out1), Ok (rows2, out2) =>
      ranges rows1 = ranges rows2 /\ map shape out1 = map shape out2
  | Throw e1, Throw e2 => e1 = e2
  | _, _ => False
  end.

Definition geometry_of (r : result IGantt)
  : result (list (number * number * Z) * Z) :=
  g <- r ;; Ok (geometry g).

(** The cases of [calcPercent] on a span that is finite and not negative. *)
Inductive percent_case (v : number) (d : Q) (ov : number) : number -> Prop :=
| pc_neginf : v = NegInf -> percent_case v d ov NegInf
| pc_over : (Fin d <=? v)%js = true -> percent_case v d ov ov
| pc_below (e : Q) :
    v = Fin e -> e < d -> 0 < d -> percent_case v d ov (Fin (e / (d / 100)))
| pc_point (e : Q) :
    v = Fin e -> e < d -> d == 0 -> percent_case v d ov NegInf.

(** How [compact] places a task in the rows: in a new last row when no row
    has room, otherwise at the end of the first row that has room. *)
Inductive placed (rows : list (list IGanttTask)) (task : IGanttTask)
  : list (list IGanttTask) -> IGanttTask -> Prop :=
| placed_new :
    Forall (fun row => hasRoom row task = false) rows ->
    placed rows task
      (rows ++ [[set_layer task (Z.of_nat (List.length rows))]])
      (set_layer task (Z.of_nat (List.length rows)))
| placed_in (pre : list (list IGanttTask)) (row : list IGanttTask)
    (post : list (list IGanttTask)) :
    rows = pre ++ row :: post ->
    Forall (fun row => hasRoom row task = false) pre ->
    hasRoom row task = true ->
    placed rows task
      (pre ++ (row ++ [set_layer task (Z.of_nat (List.length pre))]) :: post)
      (set_layer task (Z.of_nat (List.length pre))).

(** Every task placed so far sits in the row that its layer names. *)
Definition housed (rows : list (list IGanttTask)) (done : list IGanttTask)
  : Prop :=
  Forall (fun t =>
            (0 <= t.(layer))%Z /\
            exists row, nth_error rows (Z.to_nat t.(layer)) = Some row
                        /\ In t row) done.

(** Of two tasks on one layer, the earlier one passed the test of the
    later one. *)
Definition separated (l : list IGanttTask) : Prop :=
  ForallOrdPairs
    (fun t u => t.(layer) = u.(layer) -> clear_of t u = true) l.

(** An entry that is a valid date, or a number that [new Date] turns into
    one. *)
Definition isValid (v : any) : bool :=
  match asDate (Some v) with
  | Some _ => true
  | None => false
  end.

(** The values of the [k]-th value series of a data view: the starts for
    [k = 0], the ends for [k = 1]. *)
Definition seriesOf (dataView : DataView) (k : nat) : list any :=
  match dataView.(categorical) with
  | Some categoryView =>
      match categoryView.(cvalues) with
      | Some vs =>
          match nth_error vs k with
          | Some v => v.(values)
          | None => []
          end
      | None => []
      end
  | None => []
  end.

(** ** Sample inputs *)

Definition day : Z := 86400000.

Definition dates (l : list Z) : list any :=
  map (fun d => ADate (Some (d * day)%Z)) l.

Definition noSelection : IGanttTask -> nat -> result SelectionId :=
  fun _ _ => Ok (createWithId None).

Definition emptyGantt (c : bool) : IGantt :=
  {| tasks := []; layers := 0; compress := c;
     gprogress := Fin 0; progressAngle := Fin 0 |}.

Definition clockAt (t : Z) : nat -> Z := fun _ => t.

Definition sampleNames : list string :=
  ["Design"; "Build"; "Test"]%string.

(** Three tasks over days 0 to 10, the second overlapping the first. *)
Definition sampleStarts : list any := dates [0; 2; 6]%Z.
Definition sampleEnds : list any := dates [3; 6; 10]%Z.

Definition chartOf (r : result IGantt) : IGantt :=
  match r with
  | Ok g => g
  | Throw _ => emptyGantt false
  end.

Definition sampleChart (c : bool) : IGantt :=
  chartOf (buildGantTasks (clockAt (5 * day)) (emptyGantt c)
             sampleNames sampleStarts sampleEnds noSelection).

(** A data view as the host delivers it: one category column with an
    identity per name, and the two value series. *)
Definition dataViewOf (c : bool) (names : list string) (starts ends : list any)
  : DataView :=
  {| metadata := Some {| layout_compress := Some c |};
     categorical :=
       Some {| categories :=
                 Some [ {| cat_values := names;
                           identity := Some (seq 0 (List.length names)) |} ];
               cvalues :=
                 Some [ {| values := starts |}; {| values := ends |} ] |} |}.

Definition sampleView (c : bool) : DataView :=
  dataViewOf c sampleNames sampleStarts sampleEnds.

Definition sampleConverted (c : bool) : IGantt :=
  chartOf (converter (clockAt (5 * day)) (sampleView c)).

(** A second task that ends before it starts. *)
Definition reversedView : DataView :=
  dataViewOf true ["Plan"; "Undo"]%string (dates [0; 5]%Z) (dates [10; 2]%Z).

(** All tasks at day 5, the second one ending before it starts: the overall
    duration is zero. *)
Definition pointStarts : list any := dates [5; 5]%Z.
Definition pointEnds : list any := dates [5; 3]%Z.

Definition pointChart : IGantt :=
  chartOf (buildGantTasks (clockAt 0) (emptyGantt false)
             ["Plan"; "Undo"]%string pointStarts pointEnds noSelection).

(** A table without rows: no name, and two value series without values. *)
Definition emptyView (c : bool) : DataView := dataViewOf c [] [] [].

(** No name, although each value series holds a value. *)
Definition namelessView (c : bool) : DataView :=
  dataViewOf c [] (dates [0]%Z) (dates [1]%Z).

(** A category column that carries no identity array. *)
Definition anonymousView : DataView :=
  {| metadata := None;
     categorical :=
       Some {| categories :=
                 Some [ {| cat_values := ["Plan"]%string;
                           identity := None |} ];
               cvalues :=
                 Some [ {| values := dates [0]%Z |};
                        {| values := dates [1]%Z |} ] |} |}.

(** The chart that the guards of the converter return. *)
Definition blankChart (dataView : DataView) : IGantt :=
  {| tasks := []; layers := 0; gprogress := Fin 0; progressAngle := Fin 0;
     compress := compressLayout dataView |}.

Definition noTask : IGanttTask :=
  {| name := ""; startAngle := NaN; endAngle := NaN; layer := -1;
     progress := NaN; selector := None |}.

Definition taskAt (g : IGantt) (n : nat) : IGanttTask :=
  nth n g.(tasks) noTask.

(** Three tasks one after the other, and three tasks over the same days. *)
Definition disjointChart : IGantt :=
  chartOf (buildGantTasks (clockAt (5 * day)) (emptyGantt true)
             sampleNames (dates [0; 3; 6]%Z) (dates [3; 6; 10]%Z)
             noSelection).

Definition stackedChart : IGantt :=
  chartOf (buildGantTasks (clockAt (5 * day)) (emptyGantt true)
             sampleNames (dates [0; 0; 0]%Z) (dates [10; 10; 10]%Z)
             noSelection).

(** An entry that is a [Date] object holding a valid date. *)
Definition isDate (v : any) : bool :=
  match v with
  | ADate (Some _) => true
  | _ => false
  end.

(** ** Spans that binary64 divides without loss

    [calcPercent] divides by [total / 100].  From a total of [least_span]
    (2^-1000) on, that divisor is a normal binary64 number and the quotient
    of a smaller value by it stays at most 100; below, the divisor loses
    digits and for the least totals underflows to 0.  Whole time values no
    further apart than [two53] (2^53 ms) have a difference that binary64
    holds exactly. *)
Definition least_span : Q := 1 # (2 ^ 1000).

Definition two53 : Q := 9007199254740992.

(** A milestone on the last day: the second task starts and ends at the
    overall end. *)
Definition milestoneChart : IGantt :=
  chartOf (buildGantTasks (clockAt (5 * day)) (emptyGantt true)
             ["Build"; "Release"]%string (dates [0; 10]%Z) (dates [10; 10]%Z)
             noSelection).

(** Three tasks that follow one another, given out of order. *)
Definition shuffledChart : IGantt :=
  chartOf (buildGantTasks (clockAt (5 * day)) (emptyGantt true)
             sampleNames (dates [6; 0; 3]%Z) (dates [9; 3; 6]%Z)
             noSelection).

(** ** The rings of [draw]

    Of [draw], the radii that it computes from the viewport and the chart
    and hands to the two arc generators; the SVG selections that it updates
    belong to the host. *)

(** [x + y] on numbers *)
Definition add (x y : number) : number :=
  match x, y with
  | NaN, _ | _, NaN => NaN
  | Fin a, Fin b => Fin (a + b)
  | PosInf, NegInf | NegInf, PosInf => NaN
  | PosInf, _ | _, PosInf => PosInf
  | NegInf, _ | _, NegInf => NegInf
  end.

(** [Math.min] of two arguments *)
Definition Math_min (x y : number) : number :=
  match x, y with
  | NaN, _ | _, NaN => NaN
  | _, _ => if lt y x then y else x
  end.

Infix "+" := add : js_scope.

Record IViewport : Type := {
  height : number;
  width : number
}.

Definition CenterSize : number := Fin 3.

Section Draw.

Variable gantt : IGantt.
Variable viewport : IViewport.

Definition radius : number :=
  (Math_min viewport.(width) viewport.(height) / Fin 2)%js.

Definition arcHeight : number :=
  (radius / (of_Z gantt.(layers) + CenterSize))%js.

Definition centerRadius : number := (arcHeight * CenterSize)%js.

(** The arc of a task. *)
Definition innerRadius (d : IGanttTask) : number :=
  (centerRadius + of_Z d.(layer) * arcHeight)%js.

Definition outerRadius (d : IGanttTask) : number :=
  (arcHeight * (CenterSize + Fin 1) + of_Z d.(layer) * arcHeight)%js.

(** The arc of the progress slice, from angle 0 to the progress angle. *)
Definition progressInnerRadius : number := centerRadius.

Definition progressOuterRadius : number :=
  (arcHeight * (CenterSize + of_Z gantt.(layers)))%js.

End Draw.

(** A viewport of 400 by 300. *)
Definition sampleViewport : IViewport :=
  {| height := Fin 300; width := Fin 400 |}.

(** ** The sample data (class [ProjectData])

    [generateTasks] and [randomize] of [powerbi.visuals.sampleDataViews].
    [getRandomValue] is inherited from the host's [SampleDataViews] and is a
    parameter here: its argument [k] numbers the calls made during one run
    of [randomize].  [sampleData] holds the task names, the start dates
    and the end dates. *)

Definition oneDayMs : number := Fin 86400000.
Definition minDiffDays : number := Fin 1.
Definition maxDiffDays : number := Fin 28.

(** ['Task ' + i] for the loop counter [i]: its decimal digits. *)
Definition taskName (i : nat) : string :=
  ("Task " ++ NilZero.string_of_uint (Nat.to_uint i))%string.

(** The loop [for (let i = 0; i < count; i++) tasks.push('Task ' + i)]. *)
Definition generateTasks (count : nat) : list string :=
  map taskName (seq 0 count).

Record SampleData : Type := {
  taskNames : list string;
  startDates : list any;
  endDates : list any
}.

(** [arr[i] = v] for an index up to the length of the array: the element
    is replaced, or appended when [i] is the length.  [randomize] assigns
    the indices in order from 0, so that no index skips past the end. *)
Definition assign (arr : list any) (i : nat) (v : any) : list any :=
  firstn i arr ++ v :: skipn (S i) arr.

(** [new Date(ms)] *)
Definition newDate (ms : number) : any := ADate (TimeClip ms).

Section Randomize.

Variable getRandomValue : nat -> number -> number -> number.

(** What [Date.now()] returns. *)
Variable now : Z.

Definition startDateMs : number :=
  (of_Z now - getRandomValue 0 minDiffDays maxDiffDays * oneDayMs)%js.

Definition taskStartMs (i : nat) : number :=
  (startDateMs
   + getRandomValue (2 * i + 1) minDiffDays maxDiffDays * oneDayMs)%js.

Definition taskEndMs (i : nat) : number :=
  (taskStartMs i
   + getRandomValue (2 * i + 2) minDiffDays maxDiffDays * oneDayMs)%js.

(** The callback of [sampleData[0].forEach] from index [i] on. *)
Fixpoint randomizeFrom (names : list string) (i : nat)
    (starts ends : list any) : list any * list any :=
  match names with
  | [] => (starts, ends)
  | _ :: rest =>
      randomizeFrom rest (S i)
        (assign starts i (newDate (taskStartMs i)))
        (assign ends i (newDate (taskEndMs i)))
  end.

Definition randomize (sampleData : SampleData) : SampleData :=
  let '(starts, ends) :=
    randomizeFrom sampleData.(taskNames) 0
      sampleData.(startDates) sampleData.(endDates) in
  {| taskNames := sampleData.(taskNames);
     startDates := starts;
     endDates := ends |}.

(** The constructor: [sampleData[0] = generateTasks(15)], then
    [randomize()], from [[[], [], []]]. *)
Definition ProjectData : SampleData :=
  randomize {| taskNames := generateTasks 15;
               startDates := [];
               endDates := [] |}.

End Randomize.

(** What the sample data asks of [getRandomValue(min, max)]: a finite
    value from [min] to [max]. *)
Definition inRange (getRandomValue : nat -> number -> number -> number)
  : Prop :=
  forall k : nat,
    exists r : Q,
      getRandomValue k minDiffDays maxDiffDays = Fin r /\ 1 <= r <= 28.

(** A source of random values that returns 1, 2, ..., 28 in turn, and a
    clock at 20000 days. *)
Definition turnValues : nat -> number -> number -> number :=
  fun k _ _ => Fin (inject_Z (Z.of_nat (k mod 28) + 1)).

Definition sampleNow : Z := 20000 * day.

(** ** Further notions of the layout *)

(** The members of a row are placed tasks whose layer is the index of the
    row. *)
Definition filled (rows : list (list IGanttTask)) (done : list IGanttTask)
  : Prop :=
  forall (l : nat) (row : list IGanttTask) (t : IGanttTask),
    nth_error rows l = Some row -> In t row ->
    In t done /\ t.(layer) = Z.of_nat l.

(** A task above layer 0 failed, on each lower layer, the test of a task
    placed before it. *)
Definition tight (l : list IGanttTask) : Prop :=
  forall (j : nat) (t : IGanttTask),
    nth_error l j = Some t ->
    forall k : Z, (0 <= k < t.(layer))%Z ->
    exists (i : nat) (u : IGanttTask),
      (i < j)%nat /\ nth_error l i = Some u /\ u.(layer) = k
      /\ clear_of u t = false.

(** No task lies on a layer above its index. *)
Definition lowly (l : list IGanttTask) : Prop :=
  forall (j : nat) (t : IGanttTask),
    nth_error l j = Some t -> (t.(layer) <= Z.of_nat j)%Z.

(** What the compaction keeps true of the rows and of the tasks placed so
    far. *)
Record compacted (rows : list (list IGanttTask)) (done : list IGanttTask)
  : Prop := {
  cp_housed : housed rows done;
  cp_filled : filled rows done;
  cp_separated : separated done;
  cp_tight : tight done;
  cp_lowly : lowly done;
  cp_some : (1 <= List.length rows)%nat;
  cp_few : (List.length rows <= Nat.max 1 (List.length done))%nat;
  cp_used : done <> [] -> Forall (fun row => row <> []) rows
}.

(** * Properties *)

(** ** Comparisons of rationals as propositions *)

Lemma Qltb_lt (x y : Q) : Qltb x y = true <-> x < y.
Proof.
  unfold Qltb. rewrite negb_true_iff.
  split; intro H.
  - apply Qnot_le_lt. intro L. apply Qle_bool_iff in L. congruence.
  - destruct (Qle_bool y x) eqn:E; trivial.
    apply Qle_bool_iff in E. exfalso. apply (Qlt_not_le _ _ H E).
Qed.

Lemma Qle_bool_false (x y : Q) : Qle_bool x y = false <-> y < x.
Proof.
  rewrite <- Qltb_lt. unfold Qltb. now rewrite negb_true_iff.
Qed.

Lemma Qeq_bool_false (x y : Q) : Qeq_bool x y = false <-> ~ x == y.
Proof.
  split; intro H.
  - intro E. apply Qeq_bool_iff in E. congruence.
  - destruct (Qeq_bool x y) eqn:E; trivial.
    apply Qeq_bool_iff in E. contradiction.
Qed.

(** Turns the boolean comparisons of the goal and of the hypotheses into
    order facts on [Q]. *)
Ltac qprop :=
  repeat match goal with
  | H : Qle_bool _ _ = true |- _ => apply Qle_bool_iff in H
  | H : Qle_bool _ _ = false |- _ => apply Qle_bool_false in H
  | H : Qltb _ _ = true |- _ => apply Qltb_lt in H
  | H : Qltb _ _ = false |- _ =>
      unfold Qltb in H; rewrite negb_false_iff in H
  | H : Qeq_bool _ _ = true |- _ => apply Qeq_bool_iff in H
  | H : Qeq_bool _ _ = false |- _ => apply Qeq_bool_false in H
  | |- Qle_bool _ _ = true => apply Qle_bool_iff
  | |- Qle_bool _ _ = false => apply Qle_bool_false
  | |- Qltb _ _ = true => apply Qltb_lt
  | |- Qeq_bool _ _ = true => apply Qeq_bool_iff
  | |- Qeq_bool _ _ = false => apply Qeq_bool_false
  end.

Lemma hundredth_pos (d : Q) : 0 < d -> 0 < d / 100.
Proof.
  intro H. apply Qlt_shift_div_l; lra.
Qed.

Lemma hundredth_back (d : Q) : 100 * (d / 100) == d.
Proof.
  field.
Qed.

(** The quotient computed by [calcPercent] below the total. *)
Lemma percent_below_100 (e d : Q) : e < d -> 0 < d -> e / (d / 100) < 100.
Proof.
  intros He Hd.
  apply Qlt_shift_div_r; [apply hundredth_pos, Hd |].
  rewrite hundredth_back. exact He.
Qed.

Lemma percent_range (e d : Q) :
  0 <= e -> e < d -> 0 <= e / (d / 100) /\ e / (d / 100) < 100.
Proof.
  intros He Hd.
  assert (Hp : 0 < d / 100) by (apply hundredth_pos; lra).
  split.
  - apply Qle_shift_div_l; [exact Hp | lra].
  - apply percent_below_100; lra.
Qed.

Lemma percent_mono (e1 e2 d : Q) :
  0 < d -> e1 <= e2 -> e1 / (d / 100) <= e2 / (d / 100).
Proof.
  intros Hd He.
  assert (Hp : 0 < d / 100) by (apply hundredth_pos; lra).
  unfold Qdiv at 1 3.
  apply Qmult_le_compat_r; [exact He |].
  apply Qlt_le_weak, Qinv_lt_0_compat, Hp.
Qed.

(** [calcPercent] on finite arguments with a positive total. *)
Lemma calcPercent_below (e d : Q) (ov : number) :
  e < d -> 0 < d ->
  calcPercent (Fin e) (Fin d) ov = Fin (e / (d / 100)).
Proof.
  intros He Hd. unfold calcPercent, ge. simpl.
  assert (E : Qle_bool d e = false) by (qprop; exact He).
  rewrite E.
  assert (Z : Qeq_bool (d / 100) 0 = false).
  { qprop. pose proof (hundredth_pos Hd). lra. }
  now rewrite Z.
Qed.

Lemma calcPercent_over (e d : Q) (ov : number) :
  d <= e -> calcPercent (Fin e) (Fin d) ov = ov.
Proof.
  intro H. unfold calcPercent, ge. simpl.
  assert (E : Qle_bool d e = true) by (qprop; exact H).
  now rewrite E.
Qed.

(** ** C3: range of the percent function *)

Lemma least_span_pos : 0 < least_span.
Proof.
  reflexivity.
Qed.

(** [calcPercent] of a total and an elapsed value that are not negative,
    in the exact arithmetic of the model. *)
Lemma calcPercent_bounds (D E : number) :
  (Fin 0 <=? D)%js = true ->
  (Fin 0 <=? E)%js = true ->
  (Fin 0 <=? calcPercent E D (Fin 100))%js = true
  /\ (calcPercent E D (Fin 100) <=? Fin 100)%js = true
  /\ calcPercent D D (Fin 100) = Fin 100
  /\ (forall overflowValue,
        (D <=? Fin 0)%js = true -> calcPercent E D overflowValue = overflowValue)
  /\ ((E >=? D)%js = false -> eqb (D / Fin 100)%js (Fin 0) = false).
Proof.
  intros HD HE.
  destruct D as [| | |d]; try discriminate HD;
    destruct E as [| | |e]; try discriminate HE; simpl in HD, HE; qprop.
  - (* both infinite *)
    repeat split; try reflexivity; try discriminate.
  - (* infinite duration, finite elapsed *)
    repeat split; try reflexivity; try discriminate.
  - (* finite duration, infinite elapsed *)
    repeat split; try reflexivity; try discriminate.
    unfold calcPercent, ge; simpl.
    assert (E : Qle_bool d d = true) by (qprop; lra).
    now rewrite E.
  - (* both finite *)
    assert (Hdd : calcPercent (Fin d) (Fin d) (Fin 100) = Fin 100)
      by (apply calcPercent_over; lra).
    destruct (Qlt_le_dec e d) as [Hlt | Hge].
    + assert (Hd : 0 < d) by lra.
      rewrite (calcPercent_below (Fin 100) Hlt Hd).
      destruct (percent_range HE Hlt) as [H0 H100].
      repeat split; simpl; qprop; try lra; trivial.
      * intros ov Hle. simpl in Hle. qprop. lra.
      * intros _. qprop. pose proof (hundredth_pos Hd). lra.
    + rewrite (calcPercent_over (Fin 100) Hge).
      repeat split; simpl; qprop; try lra; trivial.
      * intros ov _. now apply calcPercent_over.
      * unfold ge; simpl. intro Hf. qprop. lra.
Qed.



(** ** The percent function on a span *)

Lemma calcPercent_neginf (d : Q) (ov : number) :
  0 <= d -> calcPercent NegInf (Fin d) ov = NegInf.
Proof.
  intro Hd. unfold calcPercent, ge. simpl.
  assert (E : Qltb (d / 100) 0 = false).
  { unfold Qltb. rewrite negb_false_iff. qprop.
    apply Qle_shift_div_l; lra. }
  now rewrite E.
Qed.

Lemma calcPercent_posinf (d : Q) (ov : number) :
  calcPercent PosInf (Fin d) ov = ov.
Proof.
  reflexivity.
Qed.

(** A negative offset within a span of zero: the quotient is [-Infinity]. *)
Lemma calcPercent_zero_span (e d : Q) (ov : number) :
  e < d -> d == 0 -> calcPercent (Fin e) (Fin d) ov = NegInf.
Proof.
  intros He Hd. unfold calcPercent, ge. simpl.
  assert (E : Qle_bool d e = false) by (qprop; exact He).
  rewrite E.
  assert (Z : Qeq_bool (d / 100) 0 = true).
  { qprop. rewrite Hd. reflexivity. }
  rewrite Z.
  assert (C : (e ?= 0) = Lt) by (rewrite <- Qlt_alt; lra).
  now rewrite C.
Qed.

Lemma calcPercent_cases (v : number) (d : Q) (ov : number) :
  0 <= d -> v <> NaN -> percent_case v d ov (calcPercent v (Fin d) ov).
Proof.
  intros Hd Hv. destruct v as [| | |e].
  - contradiction.
  - rewrite calcPercent_neginf by exact Hd. now apply pc_neginf.
  - rewrite calcPercent_posinf. now apply pc_over.
  - destruct (Qlt_le_dec e d) as [Hlt | Hge].
    + destruct (Qlt_le_dec 0 d) as [Hpos | Hnp].
      * rewrite (calcPercent_below ov Hlt Hpos). now apply pc_below.
      * assert (Hz : d == 0) by lra.
        rewrite (calcPercent_zero_span ov Hlt Hz). now eapply pc_point.
    + rewrite (calcPercent_over ov Hge). apply pc_over. simpl. qprop. exact Hge.
Qed.

(** ** Order facts on numbers *)

Lemma le_not_nan_l (x y : number) : (x <=? y)%js = true -> x <> NaN.
Proof.
  destruct x; simpl; congruence.
Qed.

Lemma le_not_nan_r (x y : number) : (x <=? y)%js = true -> y <> NaN.
Proof.
  destruct x, y; simpl; congruence.
Qed.

(** Scaling by a positive finite factor keeps the order. *)
Lemma mul_pos_mono (c : Q) (x y : number) :
  0 < c -> (x <=? y)%js = true -> (x * Fin c <=? y * Fin c)%js = true.
Proof.
  intros Hc H.
  assert (C : (c ?= 0) = Gt) by (rewrite <- Qgt_alt; exact Hc).
  destruct x as [| | |a], y as [| | |b]; simpl in *; rewrite ?C; simpl;
    try congruence.
  qprop. apply Qmult_le_compat_r; lra.
Qed.

Lemma div_pos_mono (c : Q) (x y : number) :
  0 < c -> (x <=? y)%js = true -> (x / Fin c <=? y / Fin c)%js = true.
Proof.
  intros Hc H.
  assert (C : Qltb c 0 = false).
  { unfold Qltb. rewrite negb_false_iff. qprop. lra. }
  assert (Z : Qeq_bool c 0 = false) by (qprop; lra).
  destruct x as [| | |a], y as [| | |b]; simpl in *; rewrite ?C, ?Z; simpl;
    try congruence.
  qprop. unfold Qdiv. apply Qmult_le_compat_r; [exact H |].
  apply Qlt_le_weak, Qinv_lt_0_compat, Hc.
Qed.

Lemma calcTaskRadians_toRadians (value duration : number) (z : bool) :
  calcTaskRadians value duration z =
  toRadians (calcPercent value duration (if z then Fin 0 else Fin 100)).
Proof.
  reflexivity.
Qed.

Lemma toRadians_mono (p1 p2 : number) :
  (p1 <=? p2)%js = true -> (toRadians p1 <=? toRadians p2)%js = true.
Proof.
  intro H. unfold toRadians, PI.
  apply div_pos_mono; [reflexivity |].
  apply mul_pos_mono; [reflexivity |].
  apply mul_pos_mono; [reflexivity | exact H].
Qed.

(** The percent of the end-angle mapping grows with the offset. *)
Lemma calcPercent_mono (d : Q) (v1 v2 : number) :
  0 <= d -> (v1 <=? v2)%js = true ->
  (calcPercent v1 (Fin d) (Fin 100) <=? calcPercent v2 (Fin d) (Fin 100))%js
  = true.
Proof.
  intros Hd H.
  pose proof (@le_not_nan_l _ _ H) as N1.
  pose proof (@le_not_nan_r _ _ H) as N2.
  destruct (calcPercent_cases (Fin 100) Hd N1) as [E1 | O1 | e1 E1 L1 P1 | e1 E1 L1 P1];
    destruct (calcPercent_cases (Fin 100) Hd N2) as [E2 | O2 | e2 E2 L2 P2 | e2 E2 L2 P2];
    subst; simpl in *; try reflexivity; try discriminate; qprop;
    try lra.
  - destruct v1; simpl in *; discriminate.
  - destruct v1; simpl in *; try discriminate. qprop. lra.
  - destruct v1; simpl in *; try discriminate. qprop. lra.
  - apply Qlt_le_weak, percent_below_100; assumption.
  - apply percent_mono; assumption.
Qed.

(** ** C6: the angle mapping grows with the offset *)

(** The end-angle mapping over a span that is finite and not negative, in
    the exact arithmetic of the model. *)
Lemma radians_mono (duration : Q) (v1 v2 : number) :
  0 <= duration ->
  (v1 <=? v2)%js = true ->
  (calcTaskRadians v1 (Fin duration) false
   <=? calcTaskRadians v2 (Fin duration) false)%js = true.
Proof.
  intros Hd H.
  rewrite !calcTaskRadians_toRadians.
  apply toRadians_mono, calcPercent_mono; assumption.
Qed.



(** Nor is the mapping monotone over a negative span, where the quotient
    of a smaller offset is the larger, or over an infinite one, where the
    offset [-Infinity] maps to NaN.  [buildGantTasks] passes the absolute
    value of a difference, which is never negative. *)
Remark negative_span_not_monotone :
  (Fin (-2) <=? Fin 0)%js = true
  /\ (calcTaskRadians (Fin (-2)) (Fin (-1)) false
      <=? calcTaskRadians (Fin 0) (Fin (-1)) false)%js = false.
Proof.
  split; reflexivity.
Qed.

Remark infinite_span_not_monotone :
  (NegInf <=? Fin 0)%js = true
  /\ (calcTaskRadians NegInf PosInf false
      <=? calcTaskRadians (Fin 0) PosInf false)%js = false.
Proof.
  split; reflexivity.
Qed.


(** The mapping used for start angles ([defaultToZero = true]) is a
    different one: an offset that reaches the duration falls back to 0. *)
Remark start_mapping_falls_back :
  (calcTaskRadians (Fin 5) (Fin 10) true
   <=? calcTaskRadians (Fin 10) (Fin 10) true)%js = false.
Proof.
  reflexivity.
Qed.

(** ** Spans below [least_span] in binary64 *)

Section TinySpans.

Import PrimFloat.
Local Open Scope float_scope.


(** Just above that duration the quotient is computed, and exceeds 100:
    2024 / 100 units of [MIN_VALUE] round to 20 units, and 2023 / 20 is
    101.15. *)
Remark calcPercent_tiny_span_above_100 :
  (0 <=? Binary64.tiny2023) = true
  /\ (Binary64.tiny2023 <? Binary64.tiny2024) = true
  /\ (100 <? Binary64.calcPercent Binary64.tiny2023 Binary64.tiny2024 100)
     = true.
Proof.
  repeat split.
Qed.

(** Nor is the angle mapping monotone in binary64 over a positive span near
    1e-320: the offset of 2023 units of [MIN_VALUE] within a span of 2024
    units gets a larger angle than the offset of 2024 units, which is
    2 PI. *)
Remark tiny_span_not_monotone :
  (Binary64.tiny2023 <=? Binary64.tiny2024) = true
  /\ (Binary64.calcTaskRadians Binary64.tiny2024 Binary64.tiny2024 false
      <? Binary64.calcTaskRadians Binary64.tiny2023 Binary64.tiny2024 false)
     = true.
Proof.
  split; reflexivity.
Qed.

(** A task that starts at the overall start of a span of [MIN_VALUE] has
    no start angle at all: the angle is NaN. *)
Remark min_value_span_start_angle :
  is_nan (Binary64.calcTaskRadians 0 Binary64.MIN_VALUE true) = true.
Proof.
  reflexivity.
Qed.

(** The angle of an offset that reaches the span is 2 PI in binary64 as it
    is in the model. *)
Remark whole_span_angle :
  (Binary64.calcTaskRadians 1 1 false =? 2 * Binary64.Math_PI) = true.
Proof.
  reflexivity.
Qed.

End TinySpans.

(** ** The compaction loop *)

Lemma set_layer_interval (task : IGanttTask) (l : Z) :
  interval_of (set_layer task l) = interval_of task.
Proof.
  reflexivity.
Qed.

Lemma clear_of_set_layer (t task : IGanttTask) (l : Z) :
  clear_of t (set_layer task l) = clear_of t task.
Proof.
  reflexivity.
Qed.

Lemma scanLayers_spec (rows : list (list IGanttTask)) (l : Z)
    (task : IGanttTask) :
  (Forall (fun row => hasRoom row task = false) rows
   /\ scanLayers rows l task = (rows, task))
  \/ (exists pre row post,
        rows = pre ++ row :: post
        /\ Forall (fun row => hasRoom row task = false) pre
        /\ hasRoom row task = true
        /\ scanLayers rows l task =
           (pre ++ (row ++ [set_layer task (l + Z.of_nat (List.length pre))])
                   :: post,
            set_layer task (l + Z.of_nat (List.length pre)))).
Proof.
  revert l. induction rows as [| row rest IH]; intro l.
  - left. split; [constructor | reflexivity].
  - simpl. destruct (hasRoom row task) eqn:Hroom.
    + right. exists [], row, rest. simpl.
      rewrite Z.add_0_r. repeat split; trivial.
    + destruct (IH (l + 1)%Z) as [[Hall Heq] | (pre & r & post & E & Hpre & Hr & Heq)].
      * left. rewrite Heq. split; [constructor; assumption | reflexivity].
      * right. exists (row :: pre), r, post. subst rest. rewrite Heq.
        simpl List.length. rewrite Nat2Z.inj_succ.
        replace (l + Z.succ (Z.of_nat (List.length pre)))%Z
          with (l + 1 + Z.of_nat (List.length pre))%Z by lia.
        repeat split; trivial. constructor; assumption.
Qed.

Lemma compact_placed (rows : list (list IGanttTask)) (task : IGanttTask) :
  task.(layer) = (-1)%Z ->
  placed rows task (fst (compact rows task)) (snd (compact rows task)).
Proof.
  intro Hl. unfold compact.
  destruct (scanLayers_spec rows 0 task)
    as [[Hall Heq] | (pre & r & post & E & Hpre & Hr & Heq)];
    rewrite Heq.
  - rewrite Hl. simpl.
    replace (Z.of_nat (List.length rows + 1) - 1)%Z
      with (Z.of_nat (List.length rows)) by lia.
    now apply placed_new.
  - rewrite Z.add_0_l. cbn [layer set_layer].
    destruct (Z.eqb_spec (Z.of_nat (List.length pre)) (-1)) as [Hm | _];
      [lia |].
    simpl. now apply placed_in.
Qed.

Lemma placed_layer (rows rows' : list (list IGanttTask))
    (task t' : IGanttTask) :
  placed rows task rows' t' ->
  exists k : nat, t' = set_layer task (Z.of_nat k).
Proof.
  intros [Hall | pre row post E Hpre Hr]; eexists; reflexivity.
Qed.

(** ** Facts on lists *)

Lemma nth_error_replace {A : Type} (pre post : list A) (x y : A) (n : nat) :
  n <> List.length pre ->
  nth_error (pre ++ y :: post) n = nth_error (pre ++ x :: post) n.
Proof.
  revert n. induction pre as [| a pre IH]; intros [| n] H; simpl in *;
    try reflexivity.
  - contradiction.
  - apply IH. congruence.
Qed.

Lemma nth_error_middle {A : Type} (pre post : list A) (x : A) :
  nth_error (pre ++ x :: post) (List.length pre) = Some x.
Proof.
  induction pre; simpl; auto.
Qed.

Lemma ForallOrdPairs_snoc {A : Type} (R : A -> A -> Prop) (l : list A)
    (x : A) :
  ForallOrdPairs R l -> Forall (fun y => R y x) l ->
  ForallOrdPairs R (l ++ [x]).
Proof.
  induction 1 as [| a l Ha Hl IH]; intro Hx; simpl.
  - constructor; constructor.
  - inversion Hx; subst. constructor.
    + apply Forall_app. split; [assumption | constructor; [assumption | constructor]].
    + apply IH. assumption.
Qed.

Lemma ForallOrdPairs_nth {A : Type} (R : A -> A -> Prop) (l : list A) :
  ForallOrdPairs R l ->
  forall (i j : nat) (a b : A),
    (i < j)%nat -> nth_error l i = Some a -> nth_error l j = Some b -> R a b.
Proof.
  induction 1 as [| x l Hx Hl IH]; intros i j a b Hij Ha Hb.
  - destruct i; discriminate.
  - destruct j as [| j]; [lia |]. simpl in Hb.
    destruct i as [| i]; simpl in Ha.
    + injection Ha as <-. rewrite Forall_forall in Hx.
      apply Hx. eapply nth_error_In; eassumption.
    + apply (IH i j); trivial. lia.
Qed.

(** ** One task of [names.map] *)

Lemma mapTask_ok (now : nat -> Z) (c : bool) (starts ends : list any)
    (start duration : number)
    (sel : IGanttTask -> nat -> result SelectionId)
    (rows rows' : list (list IGanttTask)) (name_ : string) (i : nat)
    (t : IGanttTask) :
  mapTask now c starts ends start duration sel rows name_ i = Ok (rows', t) ->
  exists s,
    let task := set_selector (newTask now starts ends start duration name_ i) s in
    (c = true -> placed rows task rows' t)
    /\ (c = false -> rows' = rows /\ t = set_layer task (Z.of_nat i)).
Proof.
  unfold mapTask.
  destruct (sel (newTask now starts ends start duration name_ i) i) as [s | e];
    simpl; [| discriminate].
  intro H. exists s. destruct c.
  - injection H as H. split; [| discriminate]. intros _.
    pose proof (@compact_placed rows
      (set_selector (newTask now starts ends start duration name_ i) s)
      eq_refl) as P.
    rewrite H in P. exact P.
  - injection H as <- <-. split; [discriminate | auto].
Qed.

(** The angles and the name of a task come from [newTask]; placing the task
    only sets its layer. *)
Lemma mapTask_interval (now : nat -> Z) (c : bool) (starts ends : list any)
    (start duration : number)
    (sel : IGanttTask -> nat -> result SelectionId)
    (rows rows' : list (list IGanttTask)) (name_ : string) (i : nat)
    (t : IGanttTask) :
  mapTask now c starts ends start duration sel rows name_ i = Ok (rows', t) ->
  interval_of t =
    interval_of (newTask now starts ends start duration name_ i)
  /\ t.(name) = name_.
Proof.
  intro H. destruct (mapTask_ok _ _ _ _ _ _ _ _ _ _ H) as (s & Hc & Hn).
  destruct c.
  - destruct (placed_layer (Hc eq_refl)) as [k ->]. split; reflexivity.
  - destruct (Hn eq_refl) as [_ ->]. split; reflexivity.
Qed.

(** ** C1: tasks of one layer do not overlap *)

Lemma placed_housed (rows rows' : list (list IGanttTask))
    (task t' : IGanttTask) (done : list IGanttTask) :
  placed rows task rows' t' ->
  housed rows done ->
  housed rows' (done ++ [t'])
  /\ Forall (fun t => t.(layer) = t'.(layer) -> clear_of t t' = true) done.
Proof.
  intros P H. unfold housed in *.
  destruct P as [Hall | pre row post E Hpre Hr].
  - split.
    + apply Forall_app. split.
      * eapply Forall_impl; [| exact H].
        intros t [H0 (row & Hn & Hin)]. split; [exact H0 |].
        exists row. split; [| exact Hin].
        rewrite nth_error_app1; [exact Hn |].
        apply nth_error_Some. congruence.
      * constructor; [| constructor]. cbn [layer set_layer].
        split; [lia |]. rewrite Nat2Z.id.
        eexists. split; [apply nth_error_middle | now left].
    + eapply Forall_impl; [| exact H].
      intros t [H0 (row & Hn & Hin)] Hl. cbn [layer set_layer] in Hl.
      rewrite Hl, Nat2Z.id in Hn.
      assert (N : nth_error rows (List.length rows) = None)
        by (apply nth_error_None; lia).
      congruence.
  - subst rows. split.
    + apply Forall_app. split.
      * eapply Forall_impl; [| exact H].
        intros t [H0 (r & Hn & Hin)]. split; [exact H0 |].
        destruct (Nat.eq_dec (Z.to_nat t.(layer)) (List.length pre)) as [e | ne].
        -- rewrite e, nth_error_middle in *. injection Hn as <-.
           eexists. split; [reflexivity |]. apply in_or_app. now left.
        -- exists r. split; [| exact Hin].
           rewrite <- Hn. now apply nth_error_replace.
      * constructor; [| constructor]. cbn [layer set_layer].
        split; [lia |]. rewrite Nat2Z.id, nth_error_middle.
        eexists. split; [reflexivity |]. apply in_or_app. right. now left.
    + eapply Forall_impl; [| exact H].
      intros t [H0 (r & Hn & Hin)] Hl. cbn [layer set_layer] in Hl.
      rewrite Hl, Nat2Z.id, nth_error_middle in Hn. injection Hn as <-.
      rewrite clear_of_set_layer.
      unfold hasRoom in Hr. rewrite forallb_forall in Hr. now apply Hr.
Qed.

Lemma mapTasks_separated (now : nat -> Z) (starts ends : list any)
    (start duration : number)
    (sel : IGanttTask -> nat -> result SelectionId)
    (names : list string) :
  forall (rows rows' : list (list IGanttTask)) (i : nat)
         (done out : list IGanttTask),
    mapTasks now true starts ends start duration sel rows names i
    = Ok (rows', out) ->
    housed rows done -> separated done ->
    housed rows' (done ++ out) /\ separated (done ++ out).
Proof.
  induction names as [| name_ names IH]; intros rows rows' i done out H Hh Hs.
  - injection H as <- <-. rewrite app_nil_r. auto.
  - simpl in H.
    destruct (mapTask now true starts ends start duration sel rows name_ i)
      as [[rows1 t] | e] eqn:Ht; simpl in H; [| discriminate].
    destruct (mapTasks now true starts ends start duration sel rows1 names (S i))
      as [[rows2 out'] | e] eqn:Hrec; simpl in H; [| discriminate].
    injection H as <- <-.
    destruct (mapTask_ok _ _ _ _ _ _ _ _ _ _ Ht) as (s & Hc & _).
    destruct (placed_housed (Hc eq_refl) Hh) as [Hh1 Hclear].
    assert (Hs1 : separated (done ++ [t]))
      by (apply ForallOrdPairs_snoc; assumption).
    destruct (IH _ _ _ _ _ Hrec Hh1 Hs1) as [Hh2 Hs2].
    rewrite <- app_assoc in Hh2, Hs2. auto.
Qed.

Lemma clear_of_sym_overlap (a b : IGanttTask) :
  clear_of a b = true -> overlap a b = false /\ overlap b a = false.
Proof.
  unfold overlap. intros ->. rewrite orb_true_r. auto.
Qed.

(** C1.  With the compress flag enabled, no two tasks of the result that
    are assigned the same layer index have overlapping angle ranges, two
    tasks not overlapping exactly when one starts at or after the end of
    the other, or ends at or before its start. *)
Theorem compress_no_overlap (now : nat -> Z) (gantt g : IGantt)
    (names : list string) (starts ends : list any)
    (getSelectionId : IGanttTask -> nat -> result SelectionId)
    (i j : nat) (ti tj : IGanttTask) :
  gantt.(compress) = true ->
  buildGantTasks now gantt names starts ends getSelectionId = Ok g ->
  i <> j ->
  nth_error g.(tasks) i = Some ti ->
  nth_error g.(tasks) j = Some tj ->
  ti.(layer) = tj.(layer) ->
  overlap ti tj = false.
Proof.
  intros Hc H Hij Hi Hj Hl. unfold buildGantTasks in H. rewrite Hc in H.
  destruct (timeSpan starts ends) as [[start duration] | e]; simpl in H;
    [| discriminate].
  destruct (mapTasks now true starts ends start duration getSelectionId
              [[]] names 0) as [[rows out] | e] eqn:Hm; simpl in H;
    [| discriminate].
  injection H as <-. simpl in Hi, Hj.
  assert (Hsep : separated out).
  { change out with ([] ++ out).
    eapply mapTasks_separated; [exact Hm | constructor | constructor]. }
  destruct (Nat.lt_total i j) as [Lt | [E | Gt]]; [| contradiction |].
  - pose proof (@ForallOrdPairs_nth _ _ _ Hsep i j ti tj Lt Hi Hj Hl) as C.
    exact (proj1 (@clear_of_sym_overlap ti tj C)).
  - pose proof (@ForallOrdPairs_nth _ _ _ Hsep j i tj ti Gt Hj Hi (eq_sym Hl))
      as C.
    exact (proj2 (@clear_of_sym_overlap tj ti C)).
Qed.

(** The theorem on the sample chart: its first and third task share layer 0. *)
Lemma compress_no_overlap_witness :
  overlap (taskAt (sampleChart true) 0) (taskAt (sampleChart true) 2) = false.
Proof.
  apply (@compress_no_overlap (clockAt (5 * day)) (emptyGantt true)
           (sampleChart true) sampleNames sampleStarts sampleEnds noSelection
           0 2);
    try reflexivity.
  discriminate.
Defined.

(** ** C2: the compaction is first fit in input order *)

Lemma hasRoom_fits (row : list IGanttTask) (task : IGanttTask) :
  hasRoom row task =
  forallb (fun e => fits e (interval_of task)) (map interval_of row).
Proof.
  unfold hasRoom. induction row as [| t row IH]; simpl; [reflexivity |].
  now rewrite IH.
Qed.

Lemma firstLayer_none (rows : list (list IGanttTask)) (task : IGanttTask) :
  Forall (fun row => hasRoom row task = false) rows ->
  firstLayer (ranges rows) (interval_of task) = None.
Proof.
  unfold ranges.
  induction 1 as [| row rows Hrow Hrows IH]; simpl; [reflexivity |].
  rewrite <- hasRoom_fits, Hrow. now rewrite IH.
Qed.

Lemma firstLayer_some (pre : list (list IGanttTask)) (row : list IGanttTask)
    (post : list (list IGanttTask)) (task : IGanttTask) :
  Forall (fun row => hasRoom row task = false) pre ->
  hasRoom row task = true ->
  firstLayer (ranges (pre ++ row :: post)) (interval_of task)
  = Some (List.length pre).
Proof.
  intros Hpre Hrow. unfold ranges.
  induction Hpre as [| r pre Hr Hpre IH]; simpl.
  - now rewrite <- hasRoom_fits, Hrow.
  - rewrite <- hasRoom_fits, Hr. now rewrite IH.
Qed.

Lemma addTo_middle (pre : list (list IGanttTask)) (row : list IGanttTask)
    (post : list (list IGanttTask)) (t' : IGanttTask) :
  addTo (ranges (pre ++ row :: post)) (List.length pre) (interval_of t')
  = ranges (pre ++ (row ++ [t']) :: post).
Proof.
  unfold ranges. induction pre as [| r pre IH]; simpl.
  - now rewrite map_app.
  - now rewrite IH.
Qed.

(** A step of the source loop is a step of first fit on the angle ranges. *)
Lemma placed_firstFitStep (rows rows' : list (list IGanttTask))
    (task t' : IGanttTask) :
  placed rows task rows' t' ->
  exists k : nat,
    firstFitStep (ranges rows) (interval_of task) = (ranges rows', k)
    /\ t'.(layer) = Z.of_nat k
    /\ interval_of t' = interval_of task.
Proof.
  intros [Hall | pre row post E Hpre Hr].
  - exists (List.length rows). unfold firstFitStep.
    rewrite firstLayer_none by exact Hall. unfold ranges.
    rewrite map_app, length_map. auto.
  - exists (List.length pre). subst rows. unfold firstFitStep.
    rewrite firstLayer_some by assumption.
    rewrite <- (set_layer_interval task (Z.of_nat (List.length pre))) at 1.
    rewrite addTo_middle. auto.
Qed.

Lemma mapTasks_firstFit (now : nat -> Z) (starts ends : list any)
    (start duration : number)
    (sel : IGanttTask -> nat -> result SelectionId)
    (names : list string) :
  forall (rows rows' : list (list IGanttTask)) (i : nat)
         (out : list IGanttTask),
    mapTasks now true starts ends start duration sel rows names i
    = Ok (rows', out) ->
    map layer out =
    map Z.of_nat (firstFit (ranges rows) (map interval_of out)).
Proof.
  induction names as [| name_ names IH]; intros rows rows' i out H.
  - injection H as <- <-. reflexivity.
  - simpl in H.
    destruct (mapTask now true starts ends start duration sel rows name_ i)
      as [[rows1 t] | e] eqn:Ht; simpl in H; [| discriminate].
    destruct (mapTasks now true starts ends start duration sel rows1 names (S i))
      as [[rows2 out'] | e] eqn:Hrec; simpl in H; [| discriminate].
    injection H as <- <-.
    destruct (mapTask_ok _ _ _ _ _ _ _ _ _ _ Ht) as (s & Hc & _).
    destruct (@placed_firstFitStep _ _ _ _ (Hc eq_refl)) as (k & Hstep & Hk & Hiv).
    cbn [map firstFit]. rewrite Hiv, Hstep, Hk. cbn [map]. f_equal.
    eapply IH. exact Hrec.
Qed.

Lemma mapTasks_names (now : nat -> Z) (c : bool) (starts ends : list any)
    (start duration : number)
    (sel : IGanttTask -> nat -> result SelectionId)
    (names : list string) :
  forall (rows rows' : list (list IGanttTask)) (i : nat)
         (out : list IGanttTask),
    mapTasks now c starts ends start duration sel rows names i
    = Ok (rows', out) ->
    map name out = names.
Proof.
  induction names as [| name_ names IH]; intros rows rows' i out H.
  - injection H as <- <-. reflexivity.
  - simpl in H.
    destruct (mapTask now c starts ends start duration sel rows name_ i)
      as [[rows1 t] | e] eqn:Ht; simpl in H; [| discriminate].
    destruct (mapTasks now c starts ends start duration sel rows1 names (S i))
      as [[rows2 out'] | e] eqn:Hrec; simpl in H; [| discriminate].
    injection H as <- <-.
    destruct (mapTask_interval _ _ _ _ _ _ _ _ _ _ Ht) as [_ Hn].
    simpl. rewrite Hn. f_equal. eapply IH. exact Hrec.
Qed.

(** The first task meets the single empty row that the source starts from,
    where first fit starts from no layer at all: both give it layer 0 and
    leave one row holding it. *)
Lemma placed_first (task t' : IGanttTask) (rows' : list (list IGanttTask)) :
  placed [[]] task rows' t' ->
  rows' = [[t']] /\ t'.(layer) = 0%Z /\ interval_of t' = interval_of task.
Proof.
  intros P. inversion P as [Hall | pre row post E Hpre Hr]; subst.
  - inversion Hall as [| ? ? Hn _]. discriminate Hn.
  - destruct pre as [| r pre].
    + injection E as <- <-. simpl. auto.
    + injection E as _ E. destruct pre; discriminate E.
Qed.

(** C2.  With the compress flag enabled the layers are assigned first fit
    in input order: the tasks of the result follow the input order, and
    each receives the index of the first existing layer all of whose
    members pass the test against it, layers being kept in creation order,
    or the index of a new last layer when none qualifies. *)
Theorem compress_is_first_fit (now : nat -> Z) (gantt g : IGantt)
    (names : list string) (starts ends : list any)
    (getSelectionId : IGanttTask -> nat -> result SelectionId) :
  gantt.(compress) = true ->
  buildGantTasks now gantt names starts ends getSelectionId = Ok g ->
  map name g.(tasks) = names
  /\ map layer g.(tasks) =
     map Z.of_nat (firstFit [] (map interval_of g.(tasks))).
Proof.
  intros Hc H. unfold buildGantTasks in H. rewrite Hc in H.
  destruct (timeSpan starts ends) as [[start duration] | e]; simpl in H;
    [| discriminate].
  destruct (mapTasks now true starts ends start duration getSelectionId
              [[]] names 0) as [[rows out] | e] eqn:Hm; simpl in H;
    [| discriminate].
  injection H as <-. simpl.
  split; [eapply mapTasks_names; exact Hm |].
  destruct names as [| name_ names].
  - injection Hm as <- <-. reflexivity.
  - simpl in Hm.
    destruct (mapTask now true starts ends start duration getSelectionId
                [[]] name_ 0) as [[rows1 t] | e] eqn:Ht; simpl in Hm;
      [| discriminate].
    destruct (mapTasks now true starts ends start duration getSelectionId
                rows1 names 1) as [[rows2 out'] | e] eqn:Hrec; simpl in Hm;
      [| discriminate].
    injection Hm as <- <-.
    destruct (mapTask_ok _ _ _ _ _ _ _ _ _ _ Ht) as (s & Hp & _).
    destruct (@placed_first _ _ _ (Hp eq_refl)) as (-> & Hl & _).
    simpl. rewrite Hl. f_equal.
    change [[interval_of t]] with (ranges [[t]]).
    eapply mapTasks_firstFit. exact Hrec.
Qed.

(** The theorem on the sample chart. *)
Lemma compress_is_first_fit_witness :
  map name (sampleChart true).(tasks) = sampleNames
  /\ map layer (sampleChart true).(tasks) =
     map Z.of_nat (firstFit [] (map interval_of (sampleChart true).(tasks))).
Proof.
  apply (@compress_is_first_fit (clockAt (5 * day)) (emptyGantt true)
           (sampleChart true) sampleNames sampleStarts sampleEnds noSelection);
    reflexivity.
Defined.

(** ** The tasks of the result, by index *)

Lemma mapTasks_nth (now : nat -> Z) (c : bool) (starts ends : list any)
    (start duration : number)
    (sel : IGanttTask -> nat -> result SelectionId)
    (names : list string) :
  forall (rows rows' : list (list IGanttTask)) (i : nat)
         (out : list IGanttTask) (k : nat) (t : IGanttTask),
    mapTasks now c starts ends start duration sel rows names i
    = Ok (rows', out) ->
    nth_error out k = Some t ->
    exists name_,
      nth_error names k = Some name_
      /\ interval_of t =
         interval_of (newTask now starts ends start duration name_ (i + k))
      /\ (c = false -> t.(layer) = Z.of_nat (i + k)).
Proof.
  induction names as [| name_ names IH]; intros rows rows' i out k t H Hk.
  - injection H as <- <-. destruct k; discriminate.
  - simpl in H.
    destruct (mapTask now c starts ends start duration sel rows name_ i)
      as [[rows1 t1] | e] eqn:Ht; simpl in H; [| discriminate].
    destruct (mapTasks now c starts ends start duration sel rows1 names (S i))
      as [[rows2 out'] | e] eqn:Hrec; simpl in H; [| discriminate].
    injection H as <- <-.
    destruct k as [| k]; simpl in Hk.
    + injection Hk as <-. exists name_. rewrite Nat.add_0_r.
      destruct (mapTask_interval _ _ _ _ _ _ _ _ _ _ Ht) as [Hiv _].
      destruct (mapTask_ok _ _ _ _ _ _ _ _ _ _ Ht) as (s & _ & Hn).
      repeat split; trivial.
      intro Hc. now destruct (Hn Hc) as [_ ->].
    + destruct (IH _ _ _ _ _ _ Hrec Hk) as (n & Hn & Hiv & Hl).
      exists n. rewrite <- Nat.add_succ_comm. auto.
Qed.

Lemma mapTasks_length (now : nat -> Z) (c : bool) (starts ends : list any)
    (start duration : number)
    (sel : IGanttTask -> nat -> result SelectionId)
    (names : list string)
    (rows rows' : list (list IGanttTask)) (i : nat) (out : list IGanttTask) :
  mapTasks now c starts ends start duration sel rows names i
  = Ok (rows', out) ->
  List.length out = List.length names.
Proof.
  intro H. rewrite <- (mapTasks_names _ _ _ _ _ _ _ _ _ _ H).
  now rewrite length_map.
Qed.

(** What [buildGantTasks] returns when it returns. *)
Lemma buildGantTasks_ok (now : nat -> Z) (gantt g : IGantt)
    (names : list string) (starts ends : list any)
    (sel : IGanttTask -> nat -> result SelectionId) :
  buildGantTasks now gantt names starts ends sel = Ok g ->
  exists start duration rows,
    timeSpan starts ends = Ok (start, duration)
    /\ mapTasks now gantt.(compress) starts ends start duration sel
         [[]] names 0 = Ok (rows, g.(tasks))
    /\ g.(layers) =
       (if gantt.(compress) then Z.of_nat (List.length rows)
        else Z.of_nat (List.length g.(tasks))).
Proof.
  unfold buildGantTasks. intro H.
  destruct (timeSpan starts ends) as [[start duration] | e]; simpl in H;
    [| discriminate].
  destruct (mapTasks now gantt.(compress) starts ends start duration sel
              [[]] names 0) as [[rows out] | e] eqn:Hm; simpl in H;
    [| discriminate].
  injection H as <-. exists start, duration, rows. simpl. auto.
Qed.

(** ** C4: one layer per task without compression *)

(** C4.  With the compress flag disabled, each task's layer index equals
    its input index and the chart's layer count equals the number of
    tasks. *)
Theorem no_compress_identity_layers (now : nat -> Z) (gantt g : IGantt)
    (names : list string) (starts ends : list any)
    (getSelectionId : IGanttTask -> nat -> result SelectionId) :
  gantt.(compress) = false ->
  buildGantTasks now gantt names starts ends getSelectionId = Ok g ->
  (forall (i : nat) (t : IGanttTask),
      nth_error g.(tasks) i = Some t -> t.(layer) = Z.of_nat i)
  /\ g.(layers) = Z.of_nat (List.length g.(tasks))
  /\ List.length g.(tasks) = List.length names.
Proof.
  intros Hc H.
  destruct (buildGantTasks_ok _ _ _ _ _ _ H)
    as (start & duration & rows & _ & Hm & Hl).
  rewrite Hc in Hm, Hl. repeat split.
  - intros i t Hi.
    pose proof Hm as X. eapply mapTasks_nth in X; [| exact Hi].
    destruct X as (n & _ & _ & L). now apply L.
  - exact Hl.
  - eapply mapTasks_length. exact Hm.
Qed.

(** The theorem on the sample chart. *)
Lemma no_compress_identity_layers_witness :
  (forall (i : nat) (t : IGanttTask),
      nth_error (sampleChart false).(tasks) i = Some t ->
      t.(layer) = Z.of_nat i)
  /\ (sampleChart false).(layers)
     = Z.of_nat (List.length (sampleChart false).(tasks))
  /\ List.length (sampleChart false).(tasks) = List.length sampleNames.
Proof.
  apply (@no_compress_identity_layers (clockAt (5 * day)) (emptyGantt false)
           (sampleChart false) sampleNames sampleStarts sampleEnds
           noSelection);
    reflexivity.
Defined.

(** ** C10: the clock does not reach the layout *)

Lemma shape_eq (a b : IGanttTask) :
  interval_of a = interval_of b -> a.(layer) = b.(layer) -> shape a = shape b.
Proof.
  unfold interval_of, shape. intros H L. injection H as -> ->. now rewrite L.
Qed.

Lemma compact_two_runs (rowsA rowsB : list (list IGanttTask))
    (tA tB : IGanttTask) :
  ranges rowsA = ranges rowsB ->
  interval_of tA = interval_of tB ->
  tA.(layer) = (-1)%Z -> tB.(layer) = (-1)%Z ->
  ranges (fst (compact rowsA tA)) = ranges (fst (compact rowsB tB))
  /\ shape (snd (compact rowsA tA)) = shape (snd (compact rowsB tB)).
Proof.
  intros Hr Hi HA HB.
  destruct (placed_firstFitStep (compact_placed rowsA tA HA))
    as (kA & SA & LA & IA).
  destruct (placed_firstFitStep (compact_placed rowsB tB HB))
    as (kB & SB & LB & IB).
  rewrite Hr, Hi, SB in SA. injection SA as E1 E2.
  split; [now symmetry |].
  apply shape_eq; congruence.
Qed.

Lemma mapTasks_two_runs (now1 now2 : nat -> Z) (c : bool)
    (starts ends : list any) (start duration : number)
    (f : nat -> result SelectionId) (names : list string) :
  forall (rowsA rowsB : list (list IGanttTask)) (i : nat),
    ranges rowsA = ranges rowsB ->
    alike
      (mapTasks now1 c starts ends start duration (fun _ => f) rowsA names i)
      (mapTasks now2 c starts ends start duration (fun _ => f) rowsB names i).
Proof.
  induction names as [| name_ names IH]; intros rowsA rowsB i Hr.
  - simpl. auto.
  - simpl. unfold mapTask.
    destruct (f i) as [s | e]; simpl; [| reflexivity].
    destruct c.
    + destruct (@compact_two_runs rowsA rowsB
                  (set_selector (newTask now1 starts ends start duration name_ i) s)
                  (set_selector (newTask now2 starts ends start duration name_ i) s)
                  Hr eq_refl eq_refl eq_refl) as [R S].
      destruct (compact rowsA _) as [rA a].
      destruct (compact rowsB _) as [rB b].
      simpl in R, S. simpl.
      specialize (IH rA rB (Datatypes.S i) R). unfold alike in IH.
      destruct (mapTasks now1 true starts ends start duration (fun _ => f)
                  rA names (Datatypes.S i)) as [[r1 o1] | e1];
        destruct (mapTasks now2 true starts ends start duration (fun _ => f)
                    rB names (Datatypes.S i)) as [[r2 o2] | e2];
        simpl; try contradiction; trivial.
      destruct IH as [IH1 IH2]. split; [exact IH1 |].
      simpl. now rewrite S, IH2.
    + simpl.
      specialize (IH rowsA rowsB (Datatypes.S i) Hr). unfold alike in IH.
      destruct (mapTasks now1 false starts ends start duration (fun _ => f)
                  rowsA names (Datatypes.S i)) as [[r1 o1] | e1];
        destruct (mapTasks now2 false starts ends start duration (fun _ => f)
                    rowsB names (Datatypes.S i)) as [[r2 o2] | e2];
        simpl; try contradiction; trivial.
      destruct IH as [IH1 IH2]. split; [exact IH1 |].
      simpl. now rewrite IH2.
Qed.

Lemma buildGantTasks_two_runs (now1 now2 : nat -> Z) (gantt : IGantt)
    (names : list string) (starts ends : list any)
    (f : nat -> result SelectionId) :
  geometry_of (buildGantTasks now1 gantt names starts ends (fun _ => f))
  = geometry_of (buildGantTasks now2 gantt names starts ends (fun _ => f)).
Proof.
  unfold buildGantTasks.
  destruct (timeSpan starts ends) as [[start duration] | e]; simpl;
    [| reflexivity].
  pose proof (@mapTasks_two_runs now1 now2 gantt.(compress) starts ends
                start duration f names [[]] [[]] 0 eq_refl) as A.
  unfold alike in A.
  destruct (mapTasks now1 gantt.(compress) starts ends start duration
              (fun _ => f) [[]] names 0) as [[r1 o1] | e1];
    destruct (mapTasks now2 gantt.(compress) starts ends start duration
                (fun _ => f) [[]] names 0) as [[r2 o2] | e2];
    simpl; try contradiction; [| congruence].
  destruct A as [R S]. unfold geometry. simpl. rewrite S.
  assert (L1 : List.length r1 = List.length r2).
  { unfold ranges in R.
    rewrite <- (length_map (map interval_of) r1), R. apply length_map. }
  assert (L2 : List.length o1 = List.length o2).
  { rewrite <- (length_map shape o1), S. apply length_map. }
  now rewrite L1, L2.
Qed.


(** ** The overall span of valid entries *)

Lemma fold_left_pick {A : Type} (f : A -> A -> A) :
  (forall a b, f a b = a \/ f a b = b) ->
  forall (l : list A) (x : A), In (fold_left f l x) (x :: l).
Proof.
  intros Hf l. induction l as [| y l IH]; intro x; simpl.
  - now left.
  - destruct (IH (f x y)) as [E | Hin].
    + rewrite <- E. destruct (Hf x y) as [F | F]; rewrite F; auto.
    + auto.
Qed.

Lemma reduce_In {A : Type} (f : A -> A -> A) (l : list A) (x : A) :
  (forall a b, f a b = a \/ f a b = b) ->
  reduce f l = Ok x -> In x l.
Proof.
  intros Hf H. destruct l as [| y l]; [discriminate |].
  injection H as <-. now apply fold_left_pick.
Qed.

Lemma earlier_pick (a b : any) : earlier a b = a \/ earlier a b = b.
Proof.
  unfold earlier. destruct (valueOf a <? valueOf b)%js; auto.
Qed.

Lemma later_pick (a b : any) : later a b = a \/ later a b = b.
Proof.
  unfold later. destruct (valueOf a >? valueOf b)%js; auto.
Qed.

Lemma valid_finite (v : any) :
  isValid v = true -> exists q, valueOf v = Fin q.
Proof.
  unfold isValid. destruct v as [[t |] | x]; simpl; try discriminate.
  - intros _. eexists. reflexivity.
  - destruct x; simpl; try discriminate. intros _. eexists. reflexivity.
Qed.

(** Valid entries give a span with a finite start and a finite duration
    that is not negative. *)
Lemma timeSpan_valid (starts ends : list any) (start duration : number) :
  forallb isValid starts = true ->
  forallb isValid ends = true ->
  timeSpan starts ends = Ok (start, duration) ->
  exists s d, start = Fin s /\ duration = Fin d /\ 0 <= d.
Proof.
  intros Hs He H. unfold timeSpan in H.
  destruct (reduce earlier starts) as [first | e] eqn:R1; simpl in H;
    [| discriminate].
  destruct (reduce later ends) as [last_ | e] eqn:R2; simpl in H;
    [| discriminate].
  injection H as <- <-.
  apply reduce_In in R1; [| exact earlier_pick].
  apply reduce_In in R2; [| exact later_pick].
  rewrite forallb_forall in Hs, He.
  destruct (valid_finite _ (Hs _ R1)) as [s ->].
  destruct (valid_finite _ (He _ R2)) as [e ->].
  exists s, (Qabs (e - s)). repeat split. apply Qabs_nonneg.
Qed.

(** The angles of the task at index [i]. *)
Lemma buildGantTasks_angles (now : nat -> Z) (gantt g : IGantt)
    (names : list string) (starts ends : list any)
    (sel : IGanttTask -> nat -> result SelectionId)
    (start duration : number) (i : nat) (t : IGanttTask) :
  buildGantTasks now gantt names starts ends sel = Ok g ->
  timeSpan starts ends = Ok (start, duration) ->
  nth_error g.(tasks) i = Some t ->
  t.(startAngle) =
    calcTaskRadians
      (Date_valueOf (asDate (nth_error starts i)) - start)%js duration true
  /\ t.(endAngle) =
    calcTaskRadians
      (Date_valueOf (asDate (nth_error ends i)) - start)%js duration false.
Proof.
  intros H Hspan Hi.
  destruct (buildGantTasks_ok _ _ _ _ _ _ H)
    as (start' & duration' & rows & Hspan' & Hm & _).
  rewrite Hspan in Hspan'. injection Hspan' as <- <-.
  eapply mapTasks_nth in Hm; [| exact Hi].
  destruct Hm as (n & _ & Hiv & _).
  unfold interval_of in Hiv. simpl in Hiv.
  injection Hiv as -> ->. auto.
Qed.

(** What the converter returns when it returns: the empty chart of its
    guards, or the chart built from the first category column and the
    first two value series. *)
Lemma converter_ok (now : nat -> Z) (dataView : DataView) (g : IGantt) :
  converter now dataView = Ok g ->
  g.(tasks) = []
  \/ exists gantt names sel,
       gantt.(compress) = compressLayout dataView
       /\ buildGantTasks now gantt names
            (seriesOf dataView 0) (seriesOf dataView 1) sel = Ok g.
Proof.
  unfold converter, seriesOf.
  destruct dataView.(categorical) as [cv |];
    [| intro H; injection H as <-; now left].
  destruct cv.(categories) as [[| category cats] |];
    try (intro H; injection H as <-; now left).
  destruct cv.(cvalues) as [[| v0 [| v1 vs]] |];
    try (intro H; injection H as <-; now left).
  intro H. right. simpl. eexists. eexists. eexists.
  split; [| exact H]. reflexivity.
Qed.

(** ** C8: start angle and end angle of a task *)

Lemma percent_ordered (sv ev d : Q) :
  0 <= d -> sv <= ev ->
  (calcPercent (Fin sv) (Fin d) (Fin 0)
   <=? calcPercent (Fin ev) (Fin d) (Fin 100))%js = true.
Proof.
  intros Hd H.
  assert (N1 : Fin sv <> NaN) by discriminate.
  assert (N2 : Fin ev <> NaN) by discriminate.
  destruct (calcPercent_cases (Fin 0) Hd N1)
    as [E1 | O1 | e1 E1 L1 P1 | e1 E1 L1 P1];
    destruct (calcPercent_cases (Fin 100) Hd N2)
      as [E2 | O2 | e2 E2 L2 P2 | e2 E2 L2 P2];
    try discriminate;
    try (injection E1 as <-); try (injection E2 as <-);
    simpl in *; try reflexivity; qprop; try lra.
  - apply Qlt_le_weak, percent_below_100; assumption.
  - apply percent_mono; assumption.
Qed.

Lemma angles_ordered (sv ev d : Q) :
  0 <= d -> sv <= ev ->
  (calcTaskRadians (Fin sv) (Fin d) true
   <=? calcTaskRadians (Fin ev) (Fin d) false)%js = true.
Proof.
  intros Hd H. rewrite !calcTaskRadians_toRadians.
  apply toRadians_mono, percent_ordered; assumption.
Qed.

(** C8, as amended.  For every task produced by the converter whose start
    and end are valid dates, the end not before the start, startAngle <=
    endAngle, when the overall start is a finite number and the overall
    duration is zero or at least [least_span] (2^-1000).  Other entries of
    the two series need not be valid dates. *)
Theorem ordered_task_angles (now : nat -> Z) (dataView : DataView)
    (g : IGantt) (s d : Q) (i : nat) (t : IGanttTask) (ta tb : Z) :
  converter now dataView = Ok g ->
  timeSpan (seriesOf dataView 0) (seriesOf dataView 1) = Ok (Fin s, Fin d) ->
  d == 0 \/ least_span <= d ->
  nth_error g.(tasks) i = Some t ->
  asDate (nth_error (seriesOf dataView 0) i) = Some ta ->
  asDate (nth_error (seriesOf dataView 1) i) = Some tb ->
  (ta <= tb)%Z ->
  (t.(startAngle) <=? t.(endAngle))%js = true.
Proof.
  intros H Hspan Hd Hi Ha Hb Hab.
  destruct (converter_ok _ _ H) as [E | (gantt & names & sel & _ & Hb')].
  - rewrite E in Hi. destruct i; discriminate.
  - destruct (buildGantTasks_angles _ _ _ _ _ _ i Hb' Hspan Hi) as [-> ->].
    rewrite Ha, Hb. simpl Date_valueOf. unfold of_Z. simpl sub.
    apply angles_ordered.
    + pose proof least_span_pos as Hl. destruct Hd; lra.
    + apply Qplus_le_l. rewrite <- Zle_Qle. exact Hab.
Qed.

(** The overall start has to be a number: with an invalid date among the
    starts the overall start is NaN, and so is every angle, also of a task
    whose own dates are valid and in order. *)
Remark invalid_date_spoils_angles :
  let g :=
    chartOf (converter (clockAt 0)
               (dataViewOf true ["Plan"; "Lost"]%string
                  [ADate (Some 0%Z); ADate None] (dates [1; 2]%Z))) in
  (taskAt g 0).(startAngle) = NaN /\ (taskAt g 0).(endAngle) = NaN.
Proof.
  split; reflexivity.
Qed.

(** The theorem on the second task of the sample chart (days 2 to 6). *)
Lemma ordered_task_angles_witness :
  ((taskAt (sampleConverted true) 1).(startAngle)
   <=? (taskAt (sampleConverted true) 1).(endAngle))%js = true.
Proof.
  apply (@ordered_task_angles (clockAt (5 * day)) (sampleView true)
           (sampleConverted true) 0 (Qabs (inject_Z (10 * day) - 0))
           1 (taskAt (sampleConverted true) 1)
           (2 * day) (6 * day));
    try reflexivity.
  - right. intro H. vm_compute in H. discriminate H.
  - discriminate.
Defined.

(** The claim as stated fails on a task that ends before it starts: in
    [reversedView] the second task runs from day 5 back to day 2 of a span
    of 10 days, so it starts at 50% and ends at 20% of the turn. *)
Lemma reversed_task_counterexample :
  ~ (forall (now : nat -> Z) (dataView : DataView) (g : IGantt)
            (t : IGanttTask),
        converter now dataView = Ok g ->
        In t g.(tasks) ->
        (t.(startAngle) <=? t.(endAngle))%js = true).
Proof.
  intro H.
  specialize (H (clockAt 0) reversedView
                (chartOf (converter (clockAt 0) reversedView))
                (taskAt (chartOf (converter (clockAt 0) reversedView)) 1)
                eq_refl).
  assert (F : ((taskAt (chartOf (converter (clockAt 0) reversedView)) 1).(startAngle)
               <=? (taskAt (chartOf (converter (clockAt 0) reversedView)) 1).(endAngle))%js
              = false) by reflexivity.
  rewrite H in F; [discriminate |].
  right. left. reflexivity.
Qed.

(** ** C5: the angle mapping and the span of zero *)

Lemma zero_span_overflow (x start duration overflow : number) :
  (duration == Fin 0)%js ->
  (start <=? x)%js = true ->
  (exists q, x = Fin q) ->
  calcPercent (x - start)%js duration overflow = overflow.
Proof.
  unfold same. intros Hd Hle [q ->].
  destruct duration as [| | |d]; try discriminate Hd. simpl in Hd.
  destruct start as [| | |s]; try discriminate Hle.
  - reflexivity.
  - simpl in Hle. qprop. simpl sub. apply calcPercent_over.
    rewrite Hd. lra.
Qed.

(** C5, as amended.  The angle mapping returns
    [(value >= duration ? 100 : value/(duration/100)) * 3.6 * PI/180], the
    start-angle mapping falling back to 0 where the end-angle mapping falls
    back to 100; a task's start angle is the first mapping and its end
    angle the second, of its offsets from the overall start.  So for a zero
    overall duration, a task whose start and end timestamps are not before
    the overall start has start angle 0 and end angle 2 PI. *)
Theorem angle_mapping :
  (forall value duration : number,
      calcTaskRadians value duration false
      = radians_spec value duration (Fin 100)
      /\ calcTaskRadians value duration true
         = radians_spec value duration (Fin 0))
  /\ (forall (now : nat -> Z) (gantt g : IGantt) (names : list string)
             (starts ends : list any)
             (sel : IGanttTask -> nat -> result SelectionId)
             (start duration : number) (i : nat) (t : IGanttTask),
        buildGantTasks now gantt names starts ends sel = Ok g ->
        timeSpan starts ends = Ok (start, duration) ->
        nth_error g.(tasks) i = Some t ->
        t.(startAngle) =
          radians_spec (Date_valueOf (asDate (nth_error starts i)) - start)%js
            duration (Fin 0)
        /\ t.(endAngle) =
          radians_spec (Date_valueOf (asDate (nth_error ends i)) - start)%js
            duration (Fin 100))
  /\ (forall (now : nat -> Z) (gantt g : IGantt) (names : list string)
             (starts ends : list any)
             (sel : IGanttTask -> nat -> result SelectionId)
             (start duration : number) (i : nat) (t : IGanttTask)
             (ta tb : Z),
        buildGantTasks now gantt names starts ends sel = Ok g ->
        timeSpan starts ends = Ok (start, duration) ->
        (duration == Fin 0)%js ->
        nth_error g.(tasks) i = Some t ->
        asDate (nth_error starts i) = Some ta ->
        asDate (nth_error ends i) = Some tb ->
        (start <=? of_Z ta)%js = true ->
        (start <=? of_Z tb)%js = true ->
        (t.(startAngle) == Fin 0)%js
        /\ (t.(endAngle) == Fin 2 * PI)%js).
Proof.
  split; [| split].
  - intros value duration. split; reflexivity.
  - intros now gantt g names starts ends sel start duration i t H Hspan Hi.
    exact (buildGantTasks_angles _ _ _ _ _ _ i H Hspan Hi).
  - intros now gantt g names starts ends sel start duration i t ta tb
           H Hspan Hd Hi Ha Hb La Lb.
    destruct (buildGantTasks_angles _ _ _ _ _ _ i H Hspan Hi) as [-> ->].
    rewrite Ha, Hb. simpl Date_valueOf.
    rewrite !calcTaskRadians_toRadians.
    rewrite !zero_span_overflow by (trivial; eexists; reflexivity).
    split; reflexivity.
Qed.

(** The claim as stated fails for a task that ends before the overall
    start: with every task at day 5 and the second one ending on day 3, the
    overall duration is zero and the end offset of the second task is
    negative, so its quotient is [-2 days / 0] and its end angle is
    [-Infinity]. *)
Lemma zero_span_counterexample :
  ~ (forall (now : nat -> Z) (gantt g : IGantt) (names : list string)
            (starts ends : list any)
            (sel : IGanttTask -> nat -> result SelectionId)
            (start duration : number) (i : nat) (t : IGanttTask),
        buildGantTasks now gantt names starts ends sel = Ok g ->
        timeSpan starts ends = Ok (start, duration) ->
        (duration == Fin 0)%js ->
        nth_error g.(tasks) i = Some t ->
        (t.(startAngle) == Fin 0)%js /\ (t.(endAngle) == Fin 2 * PI)%js).
Proof.
  intro H.
  set (r := buildGantTasks (clockAt 0) (emptyGantt false)
              ["Plan"; "Undo"]%string pointStarts pointEnds noSelection).
  destruct (H (clockAt 0) (emptyGantt false) (chartOf r)
              ["Plan"; "Undo"]%string pointStarts pointEnds noSelection
              (of_Z (5 * day)) (Fin (Qabs (inject_Z (5 * day) - inject_Z (5 * day))))
              1%nat (taskAt (chartOf r) 1)
              eq_refl eq_refl eq_refl eq_refl) as [_ F].
  assert (E : (taskAt (chartOf r) 1).(endAngle) = NegInf) by reflexivity.
  rewrite E in F. discriminate F.
Qed.

(** The theorem on the first task of [pointChart], which starts and ends on
    day 5, the overall start. *)
Lemma angle_mapping_witness :
  ((taskAt pointChart 0).(startAngle) == Fin 0)%js
  /\ ((taskAt pointChart 0).(endAngle) == Fin 2 * PI)%js.
Proof.
  apply (proj2 (proj2 angle_mapping) (clockAt 0) (emptyGantt false)
           pointChart ["Plan"; "Undo"]%string pointStarts pointEnds
           noSelection (of_Z (5 * day))
           (Fin (Qabs (inject_Z (5 * day) - inject_Z (5 * day))))
           0%nat (taskAt pointChart 0) (5 * day)%Z (5 * day)%Z);
    reflexivity.
Defined.

(** ** C7 and C9: data views without tasks *)

(** The guards of the converter: without categorical data, without a
    category column, or with fewer than two value series, the result is the
    blank chart. *)
Lemma converter_guards (now : nat -> Z) (dataView : DataView) :
  (match dataView.(categorical) with
   | None => True
   | Some cv =>
       match cv.(categories), cv.(cvalues) with
       | None, _ | Some [], _ => True
       | _, None | _, Some [] | _, Some [_] => True
       | _, _ => False
       end
   end) ->
  converter now dataView = Ok (blankChart dataView).
Proof.
  unfold converter, blankChart.
  destruct dataView.(categorical) as [cv |]; [| reflexivity].
  destruct cv.(categories) as [[| category cats] |]; try reflexivity.
  destruct cv.(cvalues) as [[| v0 [| v1 vs]] |]; try reflexivity.
  contradiction.
Qed.

Lemma no_tasks_label (toString : number -> string) (progress_ : number) :
  getTotalProgressLabel toString 0 progress_ = "Project Has No Tasks"%string.
Proof.
  reflexivity.
Qed.

(** C7.  The converter does raise an error: on a data view whose category
    column and two value series are present and empty, [starts.reduce]
    throws a TypeError; so it does on a category column without identity
    array as soon as there is a task. *)
Theorem converter_throws :
  (forall (now : nat -> Z) (c : bool),
      converter now (emptyView c) = Throw TypeError)
  /\ (forall now : nat -> Z, converter now anonymousView = Throw TypeError).
Proof.
  split; reflexivity.
Qed.

(** C9.  An empty task list does not always give a chart of zero layers
    with the "no tasks" label: on empty value series no chart results at
    all, and with the compress flag enabled a data view without names
    whose series are not empty gives a chart of no task and one layer.  The
    label of a chart without tasks is 'Project Has No Tasks'. *)
Theorem empty_task_list :
  (forall (now : nat -> Z) (c : bool),
      geometry_of (converter now (emptyView c)) = Throw TypeError)
  /\ (forall now : nat -> Z,
        exists g,
          converter now (namelessView true) = Ok g
          /\ g.(tasks) = []
          /\ g.(layers) = 1%Z
          /\ forall toString,
               totalProgress toString g = "Project Has No Tasks"%string).
Proof.
  split; [reflexivity |].
  intro now. eexists. split; [reflexivity |].
  repeat split.
Qed.

(** ** The end-to-end examples of the specification *)

(** Three tasks with disjoint ranges over days 0 to 10, compression on:
    one layer. *)
Example disjoint_tasks_one_layer :
  geometry_of
    (buildGantTasks (clockAt 0) (emptyGantt true) sampleNames
       (dates [0; 3; 6]%Z) (dates [3; 6; 10]%Z) noSelection)
  = g <- buildGantTasks (clockAt 0) (emptyGantt true) sampleNames
           (dates [0; 3; 6]%Z) (dates [3; 6; 10]%Z) noSelection ;;
    Ok (map (fun t => (t.(startAngle), t.(endAngle), 0%Z)) g.(tasks), 1%Z).
Proof.
  vm_compute. reflexivity.
Qed.

(** With the second task overlapping the first: two layers. *)
Example overlapping_tasks_two_layers :
  map layer (sampleChart true).(tasks) = [0; 1; 0]%Z
  /\ (sampleChart true).(layers) = 2%Z.
Proof.
  split; reflexivity.
Qed.

(** * Further properties of the layout *)

(** ** What the compaction keeps true *)

Lemma hasRoom_false_member (row : list IGanttTask) (task : IGanttTask) :
  hasRoom row task = false ->
  exists u, In u row /\ clear_of u task = false.
Proof.
  unfold hasRoom. induction row as [| t row IH]; simpl; [discriminate |].
  destruct (clear_of t task) eqn:E; simpl.
  - intro H. destruct (IH H) as (u & Hin & Hu). exists u. auto.
  - intros _. exists t. auto.
Qed.

Lemma filled_nil_rows (rows : list (list IGanttTask)) :
  filled rows [] -> Forall (fun row => row = []) rows.
Proof.
  intro F. apply Forall_forall. intros row Hin.
  destruct (In_nth_error _ _ Hin) as [l Hl].
  destruct row as [| t row]; [reflexivity |].
  destruct (F l (t :: row) t Hl (or_introl eq_refl)) as [[] _].
Qed.

(** A new row is opened only after some task has been placed. *)
Lemma new_row_after_first (rows : list (list IGanttTask))
    (done : list IGanttTask) (task : IGanttTask) :
  filled rows done -> (1 <= List.length rows)%nat ->
  Forall (fun row => hasRoom row task = false) rows ->
  done <> [].
Proof.
  intros F L Hall ->.
  pose proof (filled_nil_rows F) as E.
  destruct rows as [| row rows]; [simpl in L; lia |].
  inversion E as [| ? ? Hrow _]; subst.
  inversion Hall as [| ? ? Hn _]; subst. discriminate Hn.
Qed.

Lemma length_replace {A : Type} (pre post : list A) (x y : A) :
  List.length (pre ++ y :: post) = List.length (pre ++ x :: post).
Proof.
  rewrite !length_app. reflexivity.
Qed.

Lemma placed_filled (rows rows' : list (list IGanttTask))
    (task t' : IGanttTask) (done : list IGanttTask) :
  placed rows task rows' t' -> filled rows done ->
  filled rows' (done ++ [t']).
Proof.
  intros P F l row t Hl Hin.
  destruct P as [Hall | pre row0 post E Hpre Hr].
  - destruct (Nat.lt_ge_cases l (List.length rows)) as [Lt | Ge].
    + rewrite nth_error_app1 in Hl by exact Lt.
      destruct (F l row t Hl Hin) as [Hd Hlay].
      split; [apply in_or_app; now left | exact Hlay].
    + rewrite nth_error_app2 in Hl by exact Ge.
      destruct (l - List.length rows)%nat as [| n] eqn:En; simpl in Hl.
      * injection Hl as <-. destruct Hin as [<- | []].
        split; [apply in_or_app; right; now left |].
        cbn [layer set_layer]. f_equal. lia.
      * destruct n; discriminate Hl.
  - subst rows.
    destruct (Nat.eq_dec l (List.length pre)) as [-> | ne].
    + rewrite nth_error_middle in Hl. injection Hl as <-.
      apply in_app_or in Hin. destruct Hin as [Hin | [<- | []]].
      * destruct (F (List.length pre) row0 t (nth_error_middle _ _ _) Hin)
          as [Hd Hlay].
        split; [apply in_or_app; now left | exact Hlay].
      * split; [apply in_or_app; right; now left | reflexivity].
    + rewrite (nth_error_replace pre post row0 _ ne) in Hl.
      destruct (F l row t Hl Hin) as [Hd Hlay].
      split; [apply in_or_app; now left | exact Hlay].
Qed.

(** The task just placed failed the test of a placed task on every layer
    below its own, and lies on no layer above the number of rows. *)
Lemma placed_below (rows rows' : list (list IGanttTask))
    (task t' : IGanttTask) (done : list IGanttTask) :
  placed rows task rows' t' -> filled rows done ->
  (0 <= t'.(layer) <= Z.of_nat (List.length rows))%Z
  /\ (t'.(layer) = Z.of_nat (List.length rows) ->
      Forall (fun row => hasRoom row task = false) rows)
  /\ forall k : Z, (0 <= k < t'.(layer))%Z ->
       exists u, In u done /\ u.(layer) = k /\ clear_of u t' = false.
Proof.
  intros P F.
  assert (Hlow : forall (front : list (list IGanttTask)) (n : nat),
             Forall (fun row => hasRoom row task = false) front ->
             (forall l row, nth_error front l = Some row ->
                            nth_error rows l = Some row) ->
             forall k : Z, (0 <= k < Z.of_nat (List.length front))%Z ->
               exists u, In u done /\ u.(layer) = k
                         /\ clear_of u (set_layer task (Z.of_nat n)) = false).
  { intros front n Hfront Hsub k Hk.
    destruct (nth_error front (Z.to_nat k)) as [row |] eqn:Hrow.
    - rewrite Forall_forall in Hfront.
      destruct (hasRoom_false_member _ _
                  (Hfront row (nth_error_In _ _ Hrow))) as (u & Hin & Hu).
      destruct (F _ _ u (Hsub _ _ Hrow) Hin) as [Hd Hlay].
      exists u. repeat split; trivial. rewrite Hlay. lia.
    - apply nth_error_None in Hrow. lia. }
  destruct P as [Hall | pre row0 post E Hpre Hr]; cbn [layer set_layer].
  - split; [lia |]. split; [auto |].
    apply (Hlow rows); auto.
  - subst rows. rewrite length_app. simpl. split; [lia |]. split; [lia |].
    apply (Hlow pre); auto.
    intros l row Hl. rewrite nth_error_app1; [exact Hl |].
    apply nth_error_Some. congruence.
Qed.

Lemma placed_length (rows rows' : list (list IGanttTask))
    (task t' : IGanttTask) :
  placed rows task rows' t' ->
  (List.length rows' = List.length rows
   /\ t'.(layer) < Z.of_nat (List.length rows))%Z
  \/ (List.length rows' = S (List.length rows)
      /\ Forall (fun row => hasRoom row task = false) rows).
Proof.
  intros [Hall | pre row0 post E Hpre Hr].
  - right. rewrite length_app. simpl. split; [lia | exact Hall].
  - left. subst rows. split.
    + apply length_replace.
    + cbn [layer set_layer]. rewrite length_app. simpl. lia.
Qed.

Lemma placed_nonempty (rows rows' : list (list IGanttTask))
    (task t' : IGanttTask) :
  placed rows task rows' t' ->
  Forall (fun row => row <> []) rows \/ List.length rows = 1%nat ->
  Forall (fun row => row <> []) rows'.
Proof.
  intros P Hne.
  destruct P as [Hall | pre row0 post E Hpre Hr].
  - apply Forall_app. split.
    + destruct Hne as [Hne | L1]; [exact Hne |].
      destruct rows as [| r [| r' rows]]; try discriminate L1.
      constructor; [| constructor].
      inversion Hall as [| ? ? Hn _]; subst.
      intros ->. discriminate Hn.
    + constructor; [discriminate | constructor].
  - subst rows.
    assert (Hnew : row0 ++ [set_layer task (Z.of_nat (List.length pre))] <> [])
      by (destruct row0; discriminate).
    destruct Hne as [Hne | L1].
    + apply Forall_app in Hne. destruct Hne as [H1 H2].
      inversion H2; subst. apply Forall_app. split; [exact H1 |].
      constructor; assumption.
    + destruct pre as [| p pre].
      * destruct post; [| discriminate L1].
        simpl. constructor; [exact Hnew | constructor].
      * simpl in L1. rewrite length_app in L1. simpl in L1. lia.
Qed.

Lemma nth_error_snoc {A : Type} (l : list A) (x y : A) (j : nat) :
  nth_error (l ++ [x]) j = Some y ->
  nth_error l j = Some y \/ (j = List.length l /\ y = x).
Proof.
  intro H. destruct (Nat.lt_ge_cases j (List.length l)) as [Lt | Ge].
  - rewrite nth_error_app1 in H by exact Lt. now left.
  - rewrite nth_error_app2 in H by exact Ge.
    destruct (j - List.length l)%nat as [| n] eqn:E; simpl in H.
    + injection H as <-. right. split; [lia | reflexivity].
    + destruct n; discriminate H.
Qed.

Lemma placed_compacted (rows rows' : list (list IGanttTask))
    (task t' : IGanttTask) (done : list IGanttTask) :
  placed rows task rows' t' -> compacted rows done ->
  compacted rows' (done ++ [t']).
Proof.
  intros P [Hh Hf Hs Ht Hl L1 Lf Hu].
  destruct (placed_housed P Hh) as [Hh' Hclear].
  destruct (placed_below P Hf) as (Hrange & Hfull & Hbelow).
  assert (Hfirst : t'.(layer) = Z.of_nat (List.length rows) -> done <> []).
  { intro E. eapply new_row_after_first; eauto. }
  constructor.
  - exact Hh'.
  - eapply placed_filled; eassumption.
  - apply ForallOrdPairs_snoc; assumption.
  - intros j t Hj k Hk.
    destruct (nth_error_snoc _ _ _ Hj) as [Hd | [-> ->]].
    + destruct (Ht j t Hd k Hk) as (i & u & Hij & Hi & Hlay & Hc).
      exists i, u. repeat split; trivial.
      rewrite nth_error_app1; [exact Hi |].
      apply nth_error_Some. congruence.
    + destruct (Hbelow k Hk) as (u & Hin & Hlay & Hc).
      destruct (In_nth_error _ _ Hin) as [i Hi].
      exists i, u. repeat split; trivial.
      * apply nth_error_Some. congruence.
      * rewrite nth_error_app1; [exact Hi |].
        apply nth_error_Some. congruence.
  - intros j t Hj.
    destruct (nth_error_snoc _ _ _ Hj) as [Hd | [-> ->]].
    + now apply Hl.
    + destruct (Z.eq_dec t'.(layer) (Z.of_nat (List.length rows))) as [E | N].
      * pose proof (Hfirst E) as Hne.
        destruct done as [| d done]; [contradiction |].
        cbn [List.length] in *. lia.
      * destruct done as [| d done]; cbn [List.length] in *; lia.
  - destruct (placed_length P) as [[E _] | [E _]]; lia.
  - rewrite length_app. cbn [List.length].
    destruct (placed_length P) as [[E _] | [E Hall]].
    + lia.
    + assert (Hne : done <> []) by (eapply new_row_after_first; eauto).
      destruct done as [| d done]; [contradiction |].
      cbn [List.length] in *. lia.
  - intros _. eapply placed_nonempty; [exact P |].
    destruct done as [| d done].
    + right. simpl in Lf. lia.
    + left. apply Hu. discriminate.
Qed.

Lemma compacted_start : compacted [[]] [].
Proof.
  constructor.
  - constructor.
  - intros [| l] row t Hl Hin.
    + injection Hl as <-. destruct Hin.
    + destruct l; discriminate Hl.
  - constructor.
  - intros [| j] t Hj; discriminate Hj.
  - intros [| j] t Hj; discriminate Hj.
  - simpl. lia.
  - simpl. lia.
  - intro H. now contradiction H.
Qed.

Lemma mapTasks_compacted (now : nat -> Z) (starts ends : list any)
    (start duration : number)
    (sel : IGanttTask -> nat -> result SelectionId)
    (names : list string) :
  forall (rows rows' : list (list IGanttTask)) (i : nat)
         (done out : list IGanttTask),
    mapTasks now true starts ends start duration sel rows names i
    = Ok (rows', out) ->
    compacted rows done ->
    compacted rows' (done ++ out).
Proof.
  induction names as [| name_ names IH]; intros rows rows' i done out H C.
  - injection H as <- <-. now rewrite app_nil_r.
  - simpl in H.
    destruct (mapTask now true starts ends start duration sel rows name_ i)
      as [[rows1 t] | e] eqn:Ht; simpl in H; [| discriminate].
    destruct (mapTasks now true starts ends start duration sel rows1 names (S i))
      as [[rows2 out'] | e] eqn:Hrec; simpl in H; [| discriminate].
    injection H as <- <-.
    destruct (mapTask_ok _ _ _ _ _ _ _ _ _ _ Ht) as (s & Hc & _).
    pose proof (placed_compacted (Hc eq_refl) C) as C1.
    pose proof (IH _ _ _ _ _ Hrec C1) as C2.
    now rewrite <- app_assoc in C2.
Qed.

(** The chart returned with the compress flag enabled: its tasks and the
    rows they were placed in. *)
Lemma buildGantTasks_compacted (now : nat -> Z) (gantt g : IGantt)
    (names : list string) (starts ends : list any)
    (sel : IGanttTask -> nat -> result SelectionId) :
  gantt.(compress) = true ->
  buildGantTasks now gantt names starts ends sel = Ok g ->
  exists rows,
    compacted rows g.(tasks)
    /\ g.(layers) = Z.of_nat (List.length rows)
    /\ List.length g.(tasks) = List.length names.
Proof.
  intros Hc H.
  destruct (buildGantTasks_ok _ _ _ _ _ _ H)
    as (start & duration & rows & _ & Hm & Hl).
  rewrite Hc in Hm, Hl. exists rows. split; [| split].
  - change g.(tasks) with ([] ++ g.(tasks)).
    eapply mapTasks_compacted; [exact Hm | exact compacted_start].
  - exact Hl.
  - eapply mapTasks_length. exact Hm.
Qed.

Lemma clear_of_comm (a b : IGanttTask) : clear_of a b = clear_of b a.
Proof.
  unfold clear_of, ge. apply orb_comm.
Qed.

Lemma overlap_clear_of (a b : IGanttTask) :
  overlap a b = negb (clear_of a b).
Proof.
  unfold overlap. rewrite (clear_of_comm b a). now rewrite orb_diag.
Qed.

(** The chart returned with the compress flag disabled. *)
Lemma no_compress_layers (now : nat -> Z) (gantt g : IGantt)
    (names : list string) (starts ends : list any)
    (sel : IGanttTask -> nat -> result SelectionId) :
  gantt.(compress) = false ->
  buildGantTasks now gantt names starts ends sel = Ok g ->
  (forall (i : nat) (t : IGanttTask),
      nth_error g.(tasks) i = Some t -> t.(layer) = Z.of_nat i)
  /\ g.(layers) = Z.of_nat (List.length g.(tasks))
  /\ List.length g.(tasks) = List.length names.
Proof.
  intros Hc H.
  destruct (buildGantTasks_ok _ _ _ _ _ _ H)
    as (start & duration & rows & _ & Hm & Hl).
  rewrite Hc in Hm, Hl. split; [| split].
  - intros i t Hi.
    pose proof Hm as X. eapply mapTasks_nth in X; [| exact Hi].
    destruct X as (n & _ & _ & L). now apply L.
  - exact Hl.
  - eapply mapTasks_length. exact Hm.
Qed.

(** ** Layer indices of a chart *)

Lemma layer_bounds (now : nat -> Z) (gantt g : IGantt)
    (names : list string) (starts ends : list any)
    (getSelectionId : IGanttTask -> nat -> result SelectionId)
    (i : nat) (t : IGanttTask) :
  buildGantTasks now gantt names starts ends getSelectionId = Ok g ->
  nth_error g.(tasks) i = Some t ->
  (0 <= t.(layer) < g.(layers))%Z.
Proof.
  intros H Hi. destruct gantt.(compress) eqn:Hc.
  - destruct (@buildGantTasks_compacted _ _ _ _ _ _ _ Hc H) as (rows & C & -> & _).
    pose proof (cp_housed C) as Hh. unfold housed in Hh.
    rewrite Forall_forall in Hh.
    destruct (Hh t (nth_error_In _ _ Hi)) as [H0 (row & Hrow & _)].
    assert (L : (Z.to_nat t.(layer) < List.length rows)%nat)
      by (apply nth_error_Some; congruence).
    lia.
  - destruct (@no_compress_layers _ _ _ _ _ _ _ Hc H) as (Hlay & -> & _).
    rewrite (Hlay i t Hi).
    assert (L : (i < List.length g.(tasks))%nat)
      by (apply nth_error_Some; congruence).
    lia.
Qed.

(** X1.  Whatever the compress flag, every task of a chart that
    [buildGantTasks] returns lies on a layer from 0 up to, and not
    including, the layer count of the chart. *)
Theorem layer_within_count (now : nat -> Z) (gantt g : IGantt)
    (names : list string) (starts ends : list any)
    (getSelectionId : IGanttTask -> nat -> result SelectionId)
    (i : nat) (t : IGanttTask) :
  buildGantTasks now gantt names starts ends getSelectionId = Ok g ->
  nth_error g.(tasks) i = Some t ->
  (0 <= t.(layer) < g.(layers))%Z.
Proof.
  exact (@layer_bounds now gantt g names starts ends getSelectionId i t).
Qed.

(** The theorem on the sample chart, compressed: its second task lies on
    layer 1 of 2. *)
Lemma layer_within_count_witness :
  (0 <= (taskAt (sampleChart true) 1).(layer) < (sampleChart true).(layers))%Z.
Proof.
  apply (@layer_within_count (clockAt (5 * day)) (emptyGantt true)
           (sampleChart true) sampleNames sampleStarts sampleEnds noSelection
           1 (taskAt (sampleChart true) 1));
    reflexivity.
Defined.

Lemma In_nth_error_lt {A : Type} (l : list A) (x : A) :
  In x l -> exists i, (i < List.length l)%nat /\ nth_error l i = Some x.
Proof.
  intro H. destruct (In_nth_error _ _ H) as [i Hi].
  exists i. split; [| exact Hi]. apply nth_error_Some. congruence.
Qed.

(** X2.  When there is at least one name, every layer index below the
    layer count of the chart is the layer of some task: the layer indices
    in use are contiguous from 0, and the layer count is the highest of
    them plus one. *)
Theorem every_layer_in_use (now : nat -> Z) (gantt g : IGantt)
    (names : list string) (starts ends : list any)
    (getSelectionId : IGanttTask -> nat -> result SelectionId) (l : Z) :
  names <> [] ->
  buildGantTasks now gantt names starts ends getSelectionId = Ok g ->
  (0 <= l < g.(layers))%Z ->
  exists (i : nat) (t : IGanttTask),
    nth_error g.(tasks) i = Some t /\ t.(layer) = l.
Proof.
  intros Hn H Hl. destruct gantt.(compress) eqn:Hc.
  - destruct (@buildGantTasks_compacted _ _ _ _ _ _ _ Hc H)
      as (rows & C & Hlay & Hlen).
    rewrite Hlay in Hl.
    assert (Hne : g.(tasks) <> []).
    { intro E. rewrite E in Hlen. destruct names; [contradiction | discriminate]. }
    pose proof (cp_used C Hne) as Hu. rewrite Forall_forall in Hu.
    destruct (nth_error rows (Z.to_nat l)) as [row |] eqn:Hrow.
    + destruct row as [| t row].
      * exfalso. apply (Hu [] (nth_error_In _ _ Hrow)). reflexivity.
      * pose proof (cp_filled C) as F.
        destruct (F _ _ t Hrow (or_introl eq_refl)) as [Hin Ht].
        destruct (In_nth_error _ _ Hin) as [i Hi].
        exists i, t. split; [exact Hi | lia].
    + apply nth_error_None in Hrow. lia.
  - destruct (@no_compress_layers _ _ _ _ _ _ _ Hc H) as (Hlay & Hcount & _).
    rewrite Hcount in Hl.
    destruct (nth_error g.(tasks) (Z.to_nat l)) as [t |] eqn:Ht.
    + exists (Z.to_nat l), t. split; [exact Ht |].
      rewrite (Hlay _ _ Ht). lia.
    + apply nth_error_None in Ht. lia.
Qed.

(** The theorem for layer 1 of the sample chart, compressed. *)
Lemma every_layer_in_use_witness :
  exists (i : nat) (t : IGanttTask),
    nth_error (sampleChart true).(tasks) i = Some t /\ t.(layer) = 1%Z.
Proof.
  apply (@every_layer_in_use (clockAt (5 * day)) (emptyGantt true)
           (sampleChart true) sampleNames sampleStarts sampleEnds noSelection
           1%Z).
  - discriminate.
  - reflexivity.
  - split; [discriminate | reflexivity].
Defined.

(** X3.  With the compress flag enabled no task lies on a layer above its
    input index, and the layer count is at least 1 and at most the number
    of names (at most 1 when there is no name). *)
Theorem compress_layer_at_most_index (now : nat -> Z) (gantt g : IGantt)
    (names : list string) (starts ends : list any)
    (getSelectionId : IGanttTask -> nat -> result SelectionId) :
  gantt.(compress) = true ->
  buildGantTasks now gantt names starts ends getSelectionId = Ok g ->
  (forall (i : nat) (t : IGanttTask),
      nth_error g.(tasks) i = Some t -> (t.(layer) <= Z.of_nat i)%Z)
  /\ (1 <= g.(layers) <= Z.of_nat (Nat.max 1 (List.length names)))%Z.
Proof.
  intros Hc H.
  destruct (@buildGantTasks_compacted _ _ _ _ _ _ _ Hc H)
    as (rows & C & -> & Hlen).
  split.
  - exact (cp_lowly C).
  - pose proof (cp_some C). pose proof (cp_few C). rewrite Hlen in *. lia.
Qed.

(** The theorem on the sample chart. *)
Lemma compress_layer_at_most_index_witness :
  (forall (i : nat) (t : IGanttTask),
      nth_error (sampleChart true).(tasks) i = Some t ->
      (t.(layer) <= Z.of_nat i)%Z)
  /\ (1 <= (sampleChart true).(layers)
      <= Z.of_nat (Nat.max 1 (List.length sampleNames)))%Z.
Proof.
  apply (@compress_layer_at_most_index (clockAt (5 * day)) (emptyGantt true)
           (sampleChart true) sampleNames sampleStarts sampleEnds
           noSelection);
    reflexivity.
Defined.

(** X4.  With the compress flag enabled a task is never placed higher than
    it has to be: on every layer below its own there is a task earlier in
    the input whose angle range overlaps its own. *)
Theorem compress_lower_layers_blocked (now : nat -> Z) (gantt g : IGantt)
    (names : list string) (starts ends : list any)
    (getSelectionId : IGanttTask -> nat -> result SelectionId)
    (j : nat) (tj : IGanttTask) (k : Z) :
  gantt.(compress) = true ->
  buildGantTasks now gantt names starts ends getSelectionId = Ok g ->
  nth_error g.(tasks) j = Some tj ->
  (0 <= k < tj.(layer))%Z ->
  exists (i : nat) (ti : IGanttTask),
    (i < j)%nat /\ nth_error g.(tasks) i = Some ti
    /\ ti.(layer) = k /\ overlap ti tj = true.
Proof.
  intros Hc H Hj Hk.
  destruct (@buildGantTasks_compacted _ _ _ _ _ _ _ Hc H) as (rows & C & _ & _).
  pose proof (cp_tight C) as T.
  destruct (T j tj Hj k Hk) as (i & ti & Hij & Hi & Hlay & Hcl).
  exists i, ti. repeat split; trivial.
  now rewrite overlap_clear_of, Hcl.
Qed.

(** The theorem on the second task of the sample chart, which lies on
    layer 1 because it overlaps the first. *)
Lemma compress_lower_layers_blocked_witness :
  exists (i : nat) (ti : IGanttTask),
    (i < 1)%nat /\ nth_error (sampleChart true).(tasks) i = Some ti
    /\ ti.(layer) = 0%Z
    /\ overlap ti (taskAt (sampleChart true) 1) = true.
Proof.
  apply (@compress_lower_layers_blocked (clockAt (5 * day)) (emptyGantt true)
           (sampleChart true) sampleNames sampleStarts sampleEnds noSelection
           1 (taskAt (sampleChart true) 1) 0%Z);
    try reflexivity.
  split; [discriminate | reflexivity].
Defined.

(** ** The two extremes of the compaction *)

Lemma disjoint_one_layer (now : nat -> Z) (gantt g : IGantt)
    (names : list string) (starts ends : list any)
    (getSelectionId : IGanttTask -> nat -> result SelectionId) :
  gantt.(compress) = true ->
  buildGantTasks now gantt names starts ends getSelectionId = Ok g ->
  (forall (i j : nat) (ti tj : IGanttTask),
      (i < j)%nat ->
      nth_error g.(tasks) i = Some ti -> nth_error g.(tasks) j = Some tj ->
      overlap ti tj = false) ->
  (forall (i : nat) (t : IGanttTask),
      nth_error g.(tasks) i = Some t -> t.(layer) = 0%Z)
  /\ g.(layers) = 1%Z.
Proof.
  intros Hc H Hfree.
  destruct (@buildGantTasks_compacted _ _ _ _ _ _ _ Hc H)
    as (rows & C & Hlay & Hlen).
  assert (Hzero : forall (i : nat) (t : IGanttTask),
             nth_error g.(tasks) i = Some t -> t.(layer) = 0%Z).
  { intros j tj Hj.
    pose proof (cp_housed C) as Hh. unfold housed in Hh.
    rewrite Forall_forall in Hh.
    destruct (Hh tj (nth_error_In _ _ Hj)) as [H0 _].
    destruct (Z.eq_dec tj.(layer) 0) as [E | N]; [exact E |].
    pose proof (cp_tight C) as T.
    destruct (T j tj Hj 0%Z ltac:(lia)) as (i & ti & Hij & Hi & _ & Hcl).
    pose proof (Hfree i j ti tj Hij Hi Hj) as F.
    rewrite overlap_clear_of, Hcl in F. discriminate F. }
  split; [exact Hzero |].
  rewrite Hlay. pose proof (cp_some C) as L1.
  destruct (Nat.eq_dec (List.length rows) 1) as [E | N]; [now rewrite E |].
  exfalso.
  destruct (nth_error rows 1) as [row |] eqn:Hrow;
    [| apply nth_error_None in Hrow; lia].
  pose proof (cp_filled C) as F.
  destruct row as [| t row].
  - destruct g.(tasks) as [| t0 ts] eqn:Et.
    + pose proof (cp_few C) as Lf. simpl in Lf. lia.
    + assert (Hne : t0 :: ts <> []) by discriminate.
      pose proof (cp_used C Hne) as Hall. rewrite Forall_forall in Hall.
      apply (Hall [] (nth_error_In _ _ Hrow)). reflexivity.
  - destruct (F _ _ t Hrow (or_introl eq_refl)) as [Hin Ht].
    destruct (In_nth_error _ _ Hin) as [i Hi].
    rewrite (Hzero i t Hi) in Ht. discriminate Ht.
Qed.

(** X5.  With the compress flag enabled, when no two tasks of the chart
    have overlapping angle ranges, every task lies on layer 0 and the chart
    has one layer. *)
Theorem compress_disjoint_one_layer (now : nat -> Z) (gantt g : IGantt)
    (names : list string) (starts ends : list any)
    (getSelectionId : IGanttTask -> nat -> result SelectionId) :
  gantt.(compress) = true ->
  buildGantTasks now gantt names starts ends getSelectionId = Ok g ->
  (forall (i j : nat) (ti tj : IGanttTask),
      (i < j)%nat ->
      nth_error g.(tasks) i = Some ti -> nth_error g.(tasks) j = Some tj ->
      overlap ti tj = false) ->
  (forall (i : nat) (t : IGanttTask),
      nth_error g.(tasks) i = Some t -> t.(layer) = 0%Z)
  /\ g.(layers) = 1%Z.
Proof.
  exact (@disjoint_one_layer now gantt g names starts ends getSelectionId).
Qed.

(** The theorem on three tasks that follow one another. *)
Lemma compress_disjoint_one_layer_witness :
  (forall (i : nat) (t : IGanttTask),
      nth_error disjointChart.(tasks) i = Some t -> t.(layer) = 0%Z)
  /\ disjointChart.(layers) = 1%Z.
Proof.
  apply (@compress_disjoint_one_layer (clockAt (5 * day)) (emptyGantt true)
           disjointChart sampleNames (dates [0; 3; 6]%Z) (dates [3; 6; 10]%Z)
           noSelection); try reflexivity.
  intros i j ti tj Hij Hi Hj.
  destruct j as [| [| [| j]]]; destruct i as [| [| [| i]]]; try lia;
    vm_compute in Hi, Hj;
    try (destruct j; discriminate Hj);
    injection Hi as <-; injection Hj as <-; reflexivity.
Defined.

(** X6.  With the compress flag enabled, when every two tasks of the chart
    have overlapping angle ranges, compaction changes nothing: each task
    lies on the layer of its input index, and the layer count is the
    number of names when there is one. *)
Theorem compress_colliding_identity (now : nat -> Z) (gantt g : IGantt)
    (names : list string) (starts ends : list any)
    (getSelectionId : IGanttTask -> nat -> result SelectionId) :
  gantt.(compress) = true ->
  buildGantTasks now gantt names starts ends getSelectionId = Ok g ->
  (forall (i j : nat) (ti tj : IGanttTask),
      (i < j)%nat ->
      nth_error g.(tasks) i = Some ti -> nth_error g.(tasks) j = Some tj ->
      overlap ti tj = true) ->
  (forall (i : nat) (t : IGanttTask),
      nth_error g.(tasks) i = Some t -> t.(layer) = Z.of_nat i)
  /\ (names <> [] -> g.(layers) = Z.of_nat (List.length names)).
Proof.
  intros Hc H Hall.
  destruct (@buildGantTasks_compacted _ _ _ _ _ _ _ Hc H)
    as (rows & C & Hlay & Hlen).
  pose proof (cp_housed C) as Hh. unfold housed in Hh.
  rewrite Forall_forall in Hh.
  assert (Hid : forall (j : nat) (t : IGanttTask),
             nth_error g.(tasks) j = Some t -> t.(layer) = Z.of_nat j).
  { intro j. induction j as [j IH] using lt_wf_ind. intros tj Hj.
    pose proof (cp_lowly C) as Hlow. specialize (Hlow j tj Hj).
    destruct (Hh tj (nth_error_In _ _ Hj)) as [H0 _].
    destruct (Z.eq_dec tj.(layer) (Z.of_nat j)) as [E | N]; [exact E |].
    exfalso.
    assert (Lt : (Z.to_nat tj.(layer) < j)%nat) by lia.
    destruct (nth_error g.(tasks) (Z.to_nat tj.(layer))) as [ti |] eqn:Hi.
    - pose proof (IH _ Lt ti Hi) as Eti.
      pose proof (@ForallOrdPairs_nth _ _ _ (cp_separated C)
                    (Z.to_nat tj.(layer)) j ti tj Lt Hi Hj
                    ltac:(rewrite Eti; lia)) as Hcl.
      pose proof (Hall _ _ ti tj Lt Hi Hj) as Hov.
      rewrite overlap_clear_of, Hcl in Hov. discriminate Hov.
    - apply nth_error_None in Hi.
      assert (j < List.length g.(tasks))%nat
        by (apply nth_error_Some; congruence).
      lia. }
  split; [exact Hid |].
  intro Hn. rewrite Hlay.
  pose proof (cp_few C) as Lf. rewrite Hlen in Lf.
  destruct names as [| name_ names]; [contradiction |].
  cbn [List.length] in *.
  destruct (nth_error g.(tasks) (List.length names)) as [t |] eqn:Ht.
  - destruct (Hh t (nth_error_In _ _ Ht)) as [_ (row & Hrow & _)].
    rewrite (Hid _ _ Ht), Nat2Z.id in Hrow.
    assert (List.length names < List.length rows)%nat
      by (apply nth_error_Some; congruence).
    lia.
  - apply nth_error_None in Ht. lia.
Qed.

(** The theorem on three tasks over the same days. *)
Lemma compress_colliding_identity_witness :
  (forall (i : nat) (t : IGanttTask),
      nth_error stackedChart.(tasks) i = Some t -> t.(layer) = Z.of_nat i)
  /\ (sampleNames <> [] ->
      stackedChart.(layers) = Z.of_nat (List.length sampleNames)).
Proof.
  apply (@compress_colliding_identity (clockAt (5 * day)) (emptyGantt true)
           stackedChart sampleNames (dates [0; 0; 0]%Z) (dates [10; 10; 10]%Z)
           noSelection); try reflexivity.
  intros i j ti tj Hij Hi Hj.
  destruct j as [| [| [| j]]]; destruct i as [| [| [| i]]]; try lia;
    vm_compute in Hi, Hj;
    try (destruct j; discriminate Hj);
    injection Hi as <-; injection Hj as <-; reflexivity.
Defined.

(** ** When the converter throws *)

Lemma timeSpan_ok (starts ends : list any) :
  starts <> [] -> ends <> [] -> exists span, timeSpan starts ends = Ok span.
Proof.
  intros Hs He. unfold timeSpan.
  destruct starts as [| s starts]; [contradiction |].
  destruct ends as [| e ends]; [contradiction |].
  simpl. eexists. reflexivity.
Qed.

Lemma timeSpan_throws (starts ends : list any) :
  starts = [] \/ ends = [] -> timeSpan starts ends = Throw TypeError.
Proof.
  unfold timeSpan. intros [-> | ->]; [reflexivity |].
  destruct (reduce earlier starts) as [first | []]; reflexivity.
Qed.

(** [names.map] returns when the selection callback does. *)
Lemma mapTasks_returns (now : nat -> Z) (c : bool) (starts ends : list any)
    (start duration : number) (f : nat -> SelectionId)
    (names : list string) :
  forall (rows : list (list IGanttTask)) (i : nat),
    exists r,
      mapTasks now c starts ends start duration (fun _ k => Ok (f k))
        rows names i = Ok r.
Proof.
  induction names as [| name_ names IH]; intros rows i; simpl.
  - eexists. reflexivity.
  - unfold mapTask. simpl. destruct c.
    + destruct (compact rows _) as [rows1 t]. simpl.
      destruct (IH rows1 (S i)) as [[rows2 out] ->]. simpl.
      eexists. reflexivity.
    + simpl. destruct (IH rows (S i)) as [[rows2 out] ->]. simpl.
      eexists. reflexivity.
Qed.

Lemma buildGantTasks_returns (now : nat -> Z) (gantt : IGantt)
    (names : list string) (starts ends : list any) (f : nat -> SelectionId) :
  starts <> [] -> ends <> [] ->
  exists g,
    buildGantTasks now gantt names starts ends (fun _ k => Ok (f k)) = Ok g.
Proof.
  intros Hs He. unfold buildGantTasks.
  destruct (timeSpan_ok Hs He) as [[start duration] ->]. simpl.
  destruct (mapTasks_returns now gantt.(compress) starts ends start duration
              f names [[]] 0) as [[rows out] ->].
  simpl. eexists. reflexivity.
Qed.

(** X7.  On a data view whose value series hold [Date] objects and numbers
    (the entries of [any]; a series with a [null], [undefined] or string
    entry is outside this statement), the converter throws exactly when it
    reaches [buildGantTasks] (a category column and two value series are
    present) and either value series is empty, or there is a name while the
    category column carries no identity array.  On every other data view
    of that kind it returns a chart. *)
Theorem converter_throws_iff (now : nat -> Z) (dataView : DataView) :
  converter now dataView = Throw TypeError
  <-> exists cv category cats v0 v1 vs,
        dataView.(categorical) = Some cv
        /\ cv.(categories) = Some (category :: cats)
        /\ cv.(cvalues) = Some (v0 :: v1 :: vs)
        /\ (v0.(values) = [] \/ v1.(values) = []
            \/ (category.(cat_values) <> [] /\ category.(identity) = None)).
Proof.
  unfold converter. split.
  - destruct dataView.(categorical) as [cv |]; [| discriminate].
    destruct cv.(categories) as [[| category cats] |] eqn:Ec; try discriminate.
    destruct cv.(cvalues) as [[| v0 [| v1 vs]] |] eqn:Ev; try discriminate.
    intro H. exists cv, category, cats, v0, v1, vs.
    repeat split; trivial.
    destruct v0.(values) as [| s starts] eqn:Es; [now left |].
    destruct v1.(values) as [| e ends] eqn:Ee; [right; now left |].
    right. right.
    destruct category.(identity) as [ids |] eqn:Ei.
    + exfalso.
      destruct (@buildGantTasks_returns now
                  {| tasks := []; layers := 0; compress := compressLayout dataView;
                     gprogress := Fin 0; progressAngle := Fin 0 |}
                  category.(cat_values) (s :: starts) (e :: ends)
                  (fun k => createWithId (nth_error ids k))
                  ltac:(discriminate) ltac:(discriminate)) as [g Hg].
      rewrite Hg in H. discriminate H.
    + split; [| reflexivity]. intro En. rewrite En in H.
      discriminate H.
  - intros (cv & category & cats & v0 & v1 & vs & -> & -> & -> & Hcase).
    unfold buildGantTasks.
    destruct Hcase as [E | [E | [Hn Ei]]].
    + rewrite timeSpan_throws by (now left). reflexivity.
    + rewrite timeSpan_throws by (now right). reflexivity.
    + destruct (timeSpan v0.(values) v1.(values)) as [[start duration] | []];
        [| reflexivity].
      simpl. destruct category.(cat_values) as [| name_ names];
        [contradiction |].
      simpl. unfold mapTask. rewrite Ei. reflexivity.
Qed.

(** ** The tasks of the converter and the category column *)

(** The task at index [k] of the result is the task built for the name at
    that index, with the selector the callback returned for it and with a
    layer. *)
Lemma mapTasks_nth_task (now : nat -> Z) (c : bool) (starts ends : list any)
    (start duration : number)
    (sel : IGanttTask -> nat -> result SelectionId)
    (names : list string) :
  forall (rows rows' : list (list IGanttTask)) (i : nat)
         (out : list IGanttTask) (k : nat) (t : IGanttTask),
    mapTasks now c starts ends start duration sel rows names i
    = Ok (rows', out) ->
    nth_error out k = Some t ->
    exists name_ s l,
      nth_error names k = Some name_
      /\ sel (newTask now starts ends start duration name_ (i + k)%nat)
           (i + k)%nat = Ok s
      /\ t = set_layer
               (set_selector
                  (newTask now starts ends start duration name_ (i + k)%nat)
                  s) l.
Proof.
  induction names as [| name_ names IH]; intros rows rows' i out k t H Hk.
  - injection H as <- <-. destruct k; discriminate.
  - simpl in H.
    destruct (mapTask now c starts ends start duration sel rows name_ i)
      as [[rows1 t1] | e] eqn:Ht; simpl in H; [| discriminate].
    destruct (mapTasks now c starts ends start duration sel rows1 names (S i))
      as [[rows2 out'] | e] eqn:Hrec; simpl in H; [| discriminate].
    injection H as <- <-.
    destruct k as [| k]; simpl in Hk.
    + injection Hk as <-. rewrite Nat.add_0_r. unfold mapTask in Ht.
      destruct (sel (newTask now starts ends start duration name_ i) i)
        as [s | e] eqn:Hs; simpl in Ht; [| discriminate].
      exists name_, s. destruct c.
      * destruct (placed_layer
                    (compact_placed rows
                       (set_selector
                          (newTask now starts ends start duration name_ i) s)
                       eq_refl)) as [l Hl].
        injection Ht as Ht. rewrite Ht in Hl. simpl in Hl.
        exists (Z.of_nat l). auto.
      * injection Ht as _ <-. exists (Z.of_nat i). auto.
    + destruct (IH _ _ _ _ _ _ Hrec Hk) as (n & s & l & Hn & Hs & Ht').
      exists n, s, l. rewrite <- Nat.add_succ_comm. auto.
Qed.

(** X8.  When the converter builds a chart from a category column, the
    tasks follow the column: they carry its names in order, the task at
    index [i] is selected by the identity at index [i] of the column (by
    none where the identity array is too short), and the compress flag of
    the chart is the layout setting of the data view. *)
Theorem converter_tasks_follow_column (now : nat -> Z) (dataView : DataView)
    (g : IGantt) (cv : DataViewCategorical)
    (category : DataViewCategoryColumn) (cats : list DataViewCategoryColumn)
    (v0 v1 : DataViewValueColumn) (vs : list DataViewValueColumn) :
  converter now dataView = Ok g ->
  dataView.(categorical) = Some cv ->
  cv.(categories) = Some (category :: cats) ->
  cv.(cvalues) = Some (v0 :: v1 :: vs) ->
  map name g.(tasks) = category.(cat_values)
  /\ g.(compress) = compressLayout dataView
  /\ forall (i : nat) (t : IGanttTask),
       nth_error g.(tasks) i = Some t ->
       exists ids,
         category.(identity) = Some ids
         /\ t.(selector) = Some (createWithId (nth_error ids i)).
Proof.
  intros H E1 E2 E3. unfold converter in H. rewrite E1, E2, E3 in H.
  destruct (buildGantTasks_ok _ _ _ _ _ _ H)
    as (start & duration & rows & _ & Hm & _).
  simpl in Hm. split; [| split].
  - eapply mapTasks_names. exact Hm.
  - unfold buildGantTasks in H.
    destruct (timeSpan v0.(values) v1.(values)) as [[s d] | e]; simpl in H;
      [| discriminate].
    match type of H with
    | bind ?m _ = _ => destruct m as [[r o] | e]; simpl in H; [| discriminate]
    end.
    injection H as <-. reflexivity.
  - intros i t Hi.
    pose proof Hm as X. eapply mapTasks_nth_task in X; [| exact Hi].
    destruct X as (n & s & l & _ & Hs & ->).
    simpl in Hs. destruct category.(identity) as [ids |]; [| discriminate].
    injection Hs as <-. exists ids. auto.
Qed.

(** The theorem on the second task of the sample data view. *)
Lemma converter_tasks_follow_column_witness :
  map name (sampleConverted true).(tasks) = sampleNames
  /\ (sampleConverted true).(compress) = compressLayout (sampleView true)
  /\ forall (i : nat) (t : IGanttTask),
       nth_error (sampleConverted true).(tasks) i = Some t ->
       exists ids,
         Some (seq 0 (List.length sampleNames)) = Some ids
         /\ t.(selector) = Some (createWithId (nth_error ids i)).
Proof.
  apply (@converter_tasks_follow_column (clockAt (5 * day)) (sampleView true)
           (sampleConverted true)
           {| categories :=
                Some [ {| cat_values := sampleNames;
                          identity := Some (seq 0 (List.length sampleNames)) |} ];
              cvalues :=
                Some [ {| values := sampleStarts |};
                       {| values := sampleEnds |} ] |}
           {| cat_values := sampleNames;
              identity := Some (seq 0 (List.length sampleNames)) |}
           []
           {| values := sampleStarts |} {| values := sampleEnds |} []);
    reflexivity.
Defined.

(** ** Progress of a task *)

Lemma le_trans (x y z : number) :
  (x <=? y)%js = true -> (y <=? z)%js = true -> (x <=? z)%js = true.
Proof.
  destruct x, y, z; simpl; try congruence.
  intros H1 H2. qprop. lra.
Qed.

Lemma max_of_Z (n a : Z) : max (of_Z n) (of_Z a) = of_Z (Z.max n a).
Proof.
  unfold max, of_Z, lt. destruct (Qltb (inject_Z n) (inject_Z a)) eqn:E.
  - qprop. rewrite <- Zlt_Qlt in E. f_equal. f_equal. lia.
  - qprop. rewrite <- Zle_Qle in E. f_equal. f_equal. lia.
Qed.

(** [Math.round] of a percentage between 0 and 100 is an integer between
    0 and 100. *)
Lemma round_percent (p : Q) :
  0 <= p -> p <= 100 ->
  exists z : Z, round (Fin p) = of_Z z /\ (0 <= z <= 100)%Z.
Proof.
  intros H0 H100. exists (Qfloor (p + (1 # 2))). split; [reflexivity |].
  split.
  - change 0%Z with (Qfloor (1 # 2)). apply Qfloor_resp_le. lra.
  - change 100%Z with (Qfloor (100 + (1 # 2))). apply Qfloor_resp_le. lra.
Qed.

Lemma round_zero (p : Q) : p == 0 -> round (Fin p) = of_Z 0.
Proof.
  intro E. unfold round, of_Z. f_equal. f_equal.
  pose proof (Qfloor_le (p + (1 # 2))) as Hle.
  pose proof (Qlt_floor (p + (1 # 2))) as Hlt.
  assert (A : inject_Z (Qfloor (p + (1 # 2))) < 1) by lra.
  assert (B : -1 < inject_Z (Qfloor (p + (1 # 2)))).
  { rewrite inject_Z_plus in Hlt. change (inject_Z 1) with 1 in Hlt. lra. }
  change 1 with (inject_Z 1) in A. change (-1) with (inject_Z (-1)) in B.
  rewrite <- Zlt_Qlt in A, B. lia.
Qed.

(** The percentage of an elapsed time that is not negative. *)
Lemma calcPercent_elapsed (e d : Q) :
  0 <= e ->
  (d <= e /\ calcPercent (Fin e) (Fin d) (Fin 100) = Fin 100)
  \/ (e < d
      /\ exists p, calcPercent (Fin e) (Fin d) (Fin 100) = Fin p
                   /\ 0 <= p /\ p < 100 /\ (e == 0 -> p == 0)).
Proof.
  intro He. destruct (Qlt_le_dec e d) as [Hlt | Hge].
  - right. split; [exact Hlt |].
    assert (Hd : 0 < d) by lra.
    exists (e / (d / 100)). split; [now apply calcPercent_below |].
    destruct (percent_range He Hlt) as [H0 H100].
    repeat split; trivial.
    intro E. rewrite E. unfold Qdiv. ring.
  - left. split; [exact Hge | now apply calcPercent_over].
Qed.

Lemma progress_of_elapsed (e d : Q) :
  0 <= e ->
  (exists z : Z,
      round (calcPercent (Fin e) (Fin d) (Fin 100)) = of_Z z
      /\ (0 <= z <= 100)%Z)
  /\ (e == 0 -> 0 < d ->
      round (calcPercent (Fin e) (Fin d) (Fin 100)) = of_Z 0)
  /\ (d <= e ->
      round (calcPercent (Fin e) (Fin d) (Fin 100)) = of_Z 100).
Proof.
  intro He.
  destruct (calcPercent_elapsed d He)
    as [[Hge ->] | [Hlt (p & -> & H0 & H100 & Hz)]].
  - split; [exists 100%Z; split; [reflexivity | lia] |].
    split; [| reflexivity]. intros E Hd. lra.
  - split; [apply round_percent; lra |].
    split; [| intro; lra]. intros E _. apply round_zero. now apply Hz.
Qed.

Lemma progress_range (now : nat -> Z) (gantt g : IGantt)
    (names : list string) (starts ends : list any)
    (getSelectionId : IGanttTask -> nat -> result SelectionId)
    (i : nat) (t : IGanttTask) (ta tb : Z) :
  buildGantTasks now gantt names starts ends getSelectionId = Ok g ->
  nth_error g.(tasks) i = Some t ->
  asDate (nth_error starts i) = Some ta ->
  asDate (nth_error ends i) = Some tb ->
  (exists z : Z, t.(progress) = of_Z z /\ (0 <= z <= 100)%Z)
  /\ ((now i <= ta)%Z -> (ta < tb)%Z -> t.(progress) = of_Z 0)
  /\ ((tb <= ta)%Z \/ (tb <= now i)%Z -> t.(progress) = of_Z 100).
Proof.
  intros H Hi Ha Hb.
  destruct (buildGantTasks_ok _ _ _ _ _ _ H)
    as (start & duration & rows & _ & Hm & _).
  eapply mapTasks_nth_task in Hm; [| exact Hi].
  destruct Hm as (n & s & l & _ & _ & ->).
  cbn [progress set_layer set_selector newTask]. simpl Nat.add.
  rewrite Ha, Hb. cbn [Date_valueOf]. rewrite max_of_Z.
  unfold of_Z at 1 2 3 4. cbn [sub].
  assert (He : 0 <= inject_Z (Z.max (now i) ta) - inject_Z ta).
  { assert (L : (ta <= Z.max (now i) ta)%Z) by lia.
    rewrite Zle_Qle in L. lra. }
  destruct (progress_of_elapsed (inject_Z tb - inject_Z ta) He)
    as (Hrange & Hzero & Hfull).
  split; [exact Hrange |]. split.
  - intros Hn Hlt. apply Hzero.
    + rewrite Z.max_r by exact Hn. ring.
    + rewrite Zlt_Qlt in Hlt. lra.
  - intros Hor. apply Hfull.
    assert (L : (tb <= Z.max (now i) ta)%Z) by lia.
    rewrite Zle_Qle in L. lra.
Qed.

(** X9.  The progress of a task whose start and end are valid dates is a
    whole number of percent from 0 to 100.  It is 0 for a task that has not
    started at the time the clock is read for it, and 100 for a task that
    has ended by then; a task that does not end after its start shows 100
    at any time. *)
Theorem task_progress_range (now : nat -> Z) (gantt g : IGantt)
    (names : list string) (starts ends : list any)
    (getSelectionId : IGanttTask -> nat -> result SelectionId)
    (i : nat) (t : IGanttTask) (ta tb : Z) :
  buildGantTasks now gantt names starts ends getSelectionId = Ok g ->
  nth_error g.(tasks) i = Some t ->
  asDate (nth_error starts i) = Some ta ->
  asDate (nth_error ends i) = Some tb ->
  (exists z : Z, t.(progress) = of_Z z /\ (0 <= z <= 100)%Z)
  /\ ((now i <= ta)%Z -> (ta < tb)%Z -> t.(progress) = of_Z 0)
  /\ ((tb <= ta)%Z \/ (tb <= now i)%Z -> t.(progress) = of_Z 100).
Proof.
  exact (@progress_range now gantt g names starts ends getSelectionId i t ta tb).
Qed.

(** The theorem on the second task of the sample chart (days 2 to 6), read
    at day 5. *)
Lemma task_progress_range_witness :
  (exists z : Z,
      (taskAt (sampleChart true) 1).(progress) = of_Z z /\ (0 <= z <= 100)%Z)
  /\ ((clockAt (5 * day) 1%nat <= 2 * day)%Z -> (2 * day < 6 * day)%Z ->
      (taskAt (sampleChart true) 1).(progress) = of_Z 0)
  /\ ((6 * day <= 2 * day)%Z \/ (6 * day <= clockAt (5 * day) 1%nat)%Z ->
      (taskAt (sampleChart true) 1).(progress) = of_Z 100).
Proof.
  apply (@task_progress_range (clockAt (5 * day)) (emptyGantt true)
           (sampleChart true) sampleNames sampleStarts sampleEnds noSelection
           1 (taskAt (sampleChart true) 1) (2 * day) (6 * day));
    reflexivity.
Defined.

(** ** Progress of the chart and its label *)

Lemma timeSpan_duration_nonneg (starts ends : list any) (start : number)
    (d : Q) :
  timeSpan starts ends = Ok (start, Fin d) -> 0 <= d.
Proof.
  unfold timeSpan.
  destruct (reduce earlier starts) as [first | e]; simpl; [| discriminate].
  destruct (reduce later ends) as [last_ | e]; simpl; [| discriminate].
  intro H. injection H as _ H.
  destruct (valueOf last_ - valueOf first)%js; simpl in H; try discriminate.
  injection H as <-. apply Qabs_nonneg.
Qed.

(** The time elapsed since the overall start [s] when the clock reads [m]. *)
Lemma elapsed_since (m : Z) (s : Q) :
  exists e : Q,
    (max (of_Z m) (Fin s) - Fin s)%js = Fin e
    /\ 0 <= e
    /\ (inject_Z m <= s -> e == 0)
    /\ (s <= inject_Z m -> e == inject_Z m - s).
Proof.
  unfold max, of_Z, lt. destruct (Qltb (inject_Z m) s) eqn:E; qprop.
  - exists (s - s). repeat split; lra.
  - exists (inject_Z m - s). repeat split; lra.
Qed.

Lemma buildGantTasks_progress (now : nat -> Z) (gantt g : IGantt)
    (names : list string) (starts ends : list any)
    (sel : IGanttTask -> nat -> result SelectionId)
    (start duration : number) :
  buildGantTasks now gantt names starts ends sel = Ok g ->
  timeSpan starts ends = Ok (start, duration) ->
  let elapsed := (max (of_Z (now (List.length names))) start - start)%js in
  g.(gprogress) = round (calcPercent elapsed duration (Fin 100))
  /\ g.(progressAngle) = calcTaskRadians elapsed duration false
  /\ List.length g.(tasks) = List.length names.
Proof.
  intros H Hspan. unfold buildGantTasks in H. rewrite Hspan in H.
  simpl in H.
  destruct (mapTasks now gantt.(compress) starts ends start duration sel
              [[]] names 0) as [[rows out] | e] eqn:Hm; simpl in H;
    [| discriminate].
  injection H as <-. simpl. repeat split.
  eapply mapTasks_length. exact Hm.
Qed.

(** X10.  For a chart of at least one task whose overall start is a finite
    number and whose overall duration is zero or at least [least_span]
    (2^-1000), the progress of the chart is a whole number of percent from
    0 to 100 and its progress angle lies between 0 and 2 PI.  The label
    shown is 'Not Started' while the clock has not passed the overall start
    and the duration is not zero, and 'Completed' once the clock has
    reached the overall start plus the overall duration, or at any time
    when the duration is zero.  (The duration is the distance from the
    earliest start to the latest end, so the overall start plus the
    duration is the latest end unless that end precedes the earliest
    start.) *)
Theorem chart_progress_label (now : nat -> Z) (gantt g : IGantt)
    (names : list string) (starts ends : list any)
    (getSelectionId : IGanttTask -> nat -> result SelectionId)
    (s d : Q) :
  buildGantTasks now gantt names starts ends getSelectionId = Ok g ->
  timeSpan starts ends = Ok (Fin s, Fin d) ->
  d == 0 \/ least_span <= d ->
  names <> [] ->
  (exists z : Z, g.(gprogress) = of_Z z /\ (0 <= z <= 100)%Z)
  /\ (Fin 0 <=? g.(progressAngle))%js = true
  /\ (g.(progressAngle) <=? Fin 2 * PI)%js = true
  /\ (forall toString : number -> string,
        inject_Z (now (List.length names)) <= s -> 0 < d ->
        totalProgress toString g = "Not Started"%string)
  /\ (forall toString : number -> string,
        s + d <= inject_Z (now (List.length names)) \/ d == 0 ->
        totalProgress toString g = "Completed"%string).
Proof.
  intros H Hspan _ Hn.
  pose proof (timeSpan_duration_nonneg _ _ Hspan) as Hd.
  destruct (buildGantTasks_progress _ _ _ _ _ _ H Hspan) as (Hp & Ha & Hlen).
  destruct (elapsed_since (now (List.length names)) s)
    as (e & He & He0 & Hbefore & Hafter).
  rewrite He in Hp, Ha.
  destruct (progress_of_elapsed d He0) as (Hrange & Hzero & Hfull).
  assert (Hcount : Nat.eqb (List.length g.(tasks)) 0 = false).
  { rewrite Hlen. destruct names; [contradiction | reflexivity]. }
  split; [now rewrite Hp |].
  assert (Hpct : (Fin 0 <=? calcPercent (Fin e) (Fin d) (Fin 100))%js = true
                 /\ (calcPercent (Fin e) (Fin d) (Fin 100) <=? Fin 100)%js
                    = true).
  { destruct (calcPercent_elapsed d He0)
      as [[_ ->] | [_ (p & -> & H0 & H100 & _)]].
    - split; reflexivity.
    - split; simpl; qprop; lra. }
  destruct Hpct as [P0 P100].
  rewrite Ha, calcTaskRadians_toRadians.
  split; [| split; [| split]].
  - apply (@le_trans _ (toRadians (Fin 0))); [reflexivity |].
    now apply toRadians_mono.
  - apply (@le_trans _ (toRadians (Fin 100))); [| reflexivity].
    now apply toRadians_mono.
  - intros toString Hb Hpos.
    unfold totalProgress, getTotalProgressLabel.
    rewrite Hcount, Hp, Hzero; auto.
  - intros toString Hor.
    unfold totalProgress, getTotalProgressLabel.
    rewrite Hcount, Hp, Hfull; [reflexivity |].
    destruct Hor as [Hend | Hz]; [| lra].
    rewrite Hafter by lra. lra.
Qed.

(** The theorem on the sample chart, read at day 5 of its 10 days. *)
Lemma chart_progress_label_witness :
  (exists z : Z, (sampleChart true).(gprogress) = of_Z z /\ (0 <= z <= 100)%Z)
  /\ (Fin 0 <=? (sampleChart true).(progressAngle))%js = true
  /\ ((sampleChart true).(progressAngle) <=? Fin 2 * PI)%js = true
  /\ (forall toString : number -> string,
        inject_Z (clockAt (5 * day) (List.length sampleNames)) <= 0 ->
        0 < Qabs (inject_Z (10 * day) - 0) ->
        totalProgress toString (sampleChart true) = "Not Started"%string)
  /\ (forall toString : number -> string,
        0 + Qabs (inject_Z (10 * day) - 0)
        <= inject_Z (clockAt (5 * day) (List.length sampleNames))
        \/ Qabs (inject_Z (10 * day) - 0) == 0 ->
        totalProgress toString (sampleChart true) = "Completed"%string).
Proof.
  apply (@chart_progress_label (clockAt (5 * day)) (emptyGantt true)
           (sampleChart true) sampleNames sampleStarts sampleEnds noSelection
           0 (Qabs (inject_Z (10 * day) - 0))).
  - reflexivity.
  - reflexivity.
  - right. intro H. vm_compute in H. discriminate H.
  - discriminate.
Defined.

(** ** The overall span is the earliest start to the latest end *)

Lemma finite_le_total (x y : number) :
  (exists a, x = Fin a) -> (exists b, y = Fin b) ->
  (x <? y)%js = true /\ (x <=? y)%js = true
  \/ (x <? y)%js = false /\ (y <=? x)%js = true.
Proof.
  intros [a ->] [b ->]. simpl.
  destruct (Qltb a b) eqn:E; qprop.
  - left. split; [reflexivity |]. qprop. lra.
  - right. split; [reflexivity |]. qprop. lra.
Qed.

Lemma le_refl_finite (x : number) : (exists a, x = Fin a) -> (x <=? x)%js = true.
Proof.
  intros [a ->]. simpl. qprop. lra.
Qed.

Lemma fold_earlier_least (l : list any) :
  Forall (fun v => exists q, valueOf v = Fin q) l ->
  forall a : any,
    (exists q, valueOf a = Fin q) ->
    (valueOf (fold_left earlier l a) <=? valueOf a)%js = true
    /\ forall v, In v l ->
         (valueOf (fold_left earlier l a) <=? valueOf v)%js = true.
Proof.
  induction 1 as [| c l Hc Hl IH]; intros a Ha; simpl.
  - split; [now apply le_refl_finite | intros v []].
  - assert (Hpick : (exists q, valueOf (earlier a c) = Fin q)
                    /\ (valueOf (earlier a c) <=? valueOf a)%js = true
                    /\ (valueOf (earlier a c) <=? valueOf c)%js = true).
    { unfold earlier.
      destruct (finite_le_total Ha Hc) as [[-> L] | [-> L]].
      - repeat split; trivial. now apply le_refl_finite.
      - repeat split; trivial. now apply le_refl_finite. }
    destruct Hpick as (Hf & La & Lc).
    destruct (IH _ Hf) as [L0 Lrest].
    split; [eapply le_trans; eassumption |].
    intros v [<- | Hin]; [eapply le_trans; eassumption | now apply Lrest].
Qed.

Lemma fold_later_greatest (l : list any) :
  Forall (fun v => exists q, valueOf v = Fin q) l ->
  forall a : any,
    (exists q, valueOf a = Fin q) ->
    (valueOf a <=? valueOf (fold_left later l a))%js = true
    /\ forall v, In v l ->
         (valueOf v <=? valueOf (fold_left later l a))%js = true.
Proof.
  induction 1 as [| c l Hc Hl IH]; intros a Ha; simpl.
  - split; [now apply le_refl_finite | intros v []].
  - assert (Hpick : (exists q, valueOf (later a c) = Fin q)
                    /\ (valueOf a <=? valueOf (later a c))%js = true
                    /\ (valueOf c <=? valueOf (later a c))%js = true).
    { unfold later, gt.
      destruct (finite_le_total Hc Ha) as [[-> L] | [-> L]].
      - repeat split; trivial. now apply le_refl_finite.
      - repeat split; trivial. now apply le_refl_finite. }
    destruct Hpick as (Hf & La & Lc).
    destruct (IH _ Hf) as [L0 Lrest].
    split; [eapply le_trans; eassumption |].
    intros v [<- | Hin]; [eapply le_trans; eassumption | now apply Lrest].
Qed.

Lemma valid_all_finite (l : list any) :
  forallb isValid l = true ->
  Forall (fun v => exists q, valueOf v = Fin q) l.
Proof.
  intro H. rewrite forallb_forall in H. apply Forall_forall.
  intros v Hin. apply valid_finite. now apply H.
Qed.

(** X11.  When every start and end entry is a valid date, the overall start
    is the value of a start entry that no start entry precedes, and the
    overall duration is the distance from it to the value of an end entry
    that no end entry exceeds. *)
Theorem timeSpan_earliest_to_latest (starts ends : list any)
    (start duration : number) :
  forallb isValid starts = true ->
  forallb isValid ends = true ->
  timeSpan starts ends = Ok (start, duration) ->
  exists first last_,
    In first starts /\ In last_ ends
    /\ start = valueOf first
    /\ duration = abs (valueOf last_ - valueOf first)%js
    /\ (forall v, In v starts -> (start <=? valueOf v)%js = true)
    /\ (forall v, In v ends -> (valueOf v <=? valueOf last_)%js = true).
Proof.
  intros Vs Ve H. unfold timeSpan in H.
  destruct (reduce earlier starts) as [first | e] eqn:R1; simpl in H;
    [| discriminate].
  destruct (reduce later ends) as [last_ | e] eqn:R2; simpl in H;
    [| discriminate].
  injection H as <- <-. exists first, last_.
  pose proof (reduce_In _ _ earlier_pick R1) as I1.
  pose proof (reduce_In _ _ later_pick R2) as I2.
  repeat split; trivial.
  - intros v Hv. destruct starts as [| a l]; [discriminate |].
    injection R1 as <-.
    pose proof (valid_all_finite _ Vs) as F. inversion F as [| ? ? Fa Fl]; subst.
    destruct (fold_earlier_least Fl _ Fa) as [L0 Lrest].
    destruct Hv as [<- | Hv]; auto.
  - intros v Hv. destruct ends as [| a l]; [discriminate |].
    injection R2 as <-.
    pose proof (valid_all_finite _ Ve) as F. inversion F as [| ? ? Fa Fl]; subst.
    destruct (fold_later_greatest Fl _ Fa) as [L0 Lrest].
    destruct Hv as [<- | Hv]; auto.
Qed.

(** The theorem on the starts and ends of the sample chart. *)
Lemma timeSpan_earliest_to_latest_witness :
  exists first last_,
    In first sampleStarts /\ In last_ sampleEnds
    /\ of_Z (0 * day) = valueOf first
    /\ Fin (Qabs (inject_Z (10 * day) - inject_Z (0 * day)))
       = abs (valueOf last_ - valueOf first)%js
    /\ (forall v, In v sampleStarts -> (of_Z (0 * day) <=? valueOf v)%js = true)
    /\ (forall v, In v sampleEnds -> (valueOf v <=? valueOf last_)%js = true).
Proof.
  apply (@timeSpan_earliest_to_latest sampleStarts sampleEnds
           (of_Z (0 * day))
           (Fin (Qabs (inject_Z (10 * day) - inject_Z (0 * day)))));
    reflexivity.
Defined.

Lemma timeSpan_least_start (starts ends : list any)
    (start duration : number) :
  forallb isValid starts = true ->
  timeSpan starts ends = Ok (start, duration) ->
  forall v, In v starts -> (start <=? valueOf v)%js = true.
Proof.
  intros Vs H v Hv. unfold timeSpan in H.
  destruct starts as [| a l]; [destruct Hv |].
  simpl in H.
  destruct (reduce later ends) as [last_ | e]; simpl in H; [| discriminate].
  injection H as <- _.
  pose proof (valid_all_finite _ Vs) as F. inversion F as [| ? ? Fa Fl]; subst.
  destruct (fold_earlier_least Fl _ Fa) as [L0 Lrest].
  destruct Hv as [<- | Hv]; auto.
Qed.

(** ** The angles of a task over a finite span *)

Lemma date_valid (v : any) : isDate v = true -> isValid v = true.
Proof.
  destruct v as [[t |] | x]; simpl; try discriminate. reflexivity.
Qed.

Lemma dates_valid (l : list any) :
  forallb isDate l = true -> forallb isValid l = true.
Proof.
  intro H. rewrite forallb_forall in *. intros v Hin.
  apply date_valid. now apply H.
Qed.

(** The value of a [Date] entry is its time value. *)
Lemma date_value (l : list any) (i : nat) (t : Z) :
  forallb isDate l = true ->
  asDate (nth_error l i) = Some t ->
  exists v, In v l /\ valueOf v = of_Z t.
Proof.
  intros H Ht. rewrite forallb_forall in H.
  destruct (nth_error l i) as [v |] eqn:Hv; [| discriminate Ht].
  exists v. split; [eapply nth_error_In; eassumption |].
  pose proof (H v (nth_error_In _ _ Hv)) as D.
  destruct v as [[t' |] | x]; simpl in D; try discriminate.
  simpl in Ht. now injection Ht as ->.
Qed.

(** The percent of the start-angle mapping for an offset that is not
    negative, and of the end-angle mapping for any offset. *)
Lemma start_percent_range (sv d : Q) :
  0 <= d -> 0 <= sv ->
  (Fin 0 <=? calcPercent (Fin sv) (Fin d) (Fin 0))%js = true
  /\ (calcPercent (Fin sv) (Fin d) (Fin 0) <=? Fin 100)%js = true.
Proof.
  intros Hd Hs. destruct (Qlt_le_dec sv d) as [Hlt | Hge].
  - rewrite calcPercent_below by lra.
    destruct (percent_range Hs Hlt). split; simpl; qprop; lra.
  - rewrite calcPercent_over by exact Hge. split; reflexivity.
Qed.

Lemma end_percent_range (ev d : Q) :
  0 <= d ->
  (calcPercent (Fin ev) (Fin d) (Fin 100) <=? Fin 100)%js = true
  /\ (0 <= ev -> (Fin 0 <=? calcPercent (Fin ev) (Fin d) (Fin 100))%js = true).
Proof.
  intro Hd.
  assert (N : Fin ev <> NaN) by discriminate.
  destruct (calcPercent_cases (Fin 100) Hd N)
    as [E | O | e E L P | e E L P]; try discriminate.
  - split; reflexivity.
  - injection E as <-. split.
    + simpl. qprop. apply Qlt_le_weak, percent_below_100; assumption.
    + intro H0. destruct (percent_range H0 L). simpl. qprop. lra.
  - injection E as <-. split; [reflexivity |]. intro H0. lra.
Qed.

Lemma angles_within_turn (now : nat -> Z) (gantt g : IGantt)
    (names : list string) (starts ends : list any)
    (getSelectionId : IGanttTask -> nat -> result SelectionId)
    (i : nat) (t : IGanttTask) (ta tb : Z) :
  buildGantTasks now gantt names starts ends getSelectionId = Ok g ->
  forallb isDate starts = true ->
  forallb isDate ends = true ->
  nth_error g.(tasks) i = Some t ->
  asDate (nth_error starts i) = Some ta ->
  asDate (nth_error ends i) = Some tb ->
  (Fin 0 <=? t.(startAngle))%js = true
  /\ (t.(startAngle) <=? Fin 2 * PI)%js = true
  /\ (t.(endAngle) <=? Fin 2 * PI)%js = true
  /\ ((ta <= tb)%Z ->
      (t.(startAngle) <=? t.(endAngle))%js = true
      /\ (Fin 0 <=? t.(endAngle))%js = true).
Proof.
  intros H Ds De Hi Ha Hb.
  destruct (buildGantTasks_ok _ _ _ _ _ _ H)
    as (start & duration & rows & Hspan & _ & _).
  pose proof (@timeSpan_least_start _ _ _ _ (dates_valid _ Ds) Hspan) as Hmin.
  destruct (timeSpan_valid _ _ (dates_valid _ Ds) (dates_valid _ De) Hspan)
    as (s & d & -> & -> & Hd).
  destruct (buildGantTasks_angles _ _ _ _ _ _ i H Hspan Hi) as [Es Ee].
  destruct (date_value _ _ Ds Ha) as (v & Hin & Hv).
  pose proof (Hmin v Hin) as Hle. rewrite Hv in Hle. simpl in Hle. qprop.
  rewrite Ha in Es. rewrite Hb in Ee. cbn [Date_valueOf] in Es, Ee.
  unfold of_Z in Es, Ee. cbn [sub] in Es, Ee.
  rewrite calcTaskRadians_toRadians in Es, Ee.
  assert (Hs0 : 0 <= inject_Z ta - s) by lra.
  destruct (start_percent_range Hd Hs0) as [S0 S100].
  destruct (end_percent_range (inject_Z tb - s) Hd) as [E100 E0].
  rewrite Es, Ee. split; [| split; [| split]].
  - apply (@le_trans _ (toRadians (Fin 0))); [reflexivity |].
    now apply toRadians_mono.
  - apply (@le_trans _ (toRadians (Fin 100))); [| reflexivity].
    now apply toRadians_mono.
  - apply (@le_trans _ (toRadians (Fin 100))); [| reflexivity].
    now apply toRadians_mono.
  - intro Hab. rewrite Zle_Qle in Hab. split.
    + apply toRadians_mono, percent_ordered; [exact Hd | lra].
    + apply (@le_trans _ (toRadians (Fin 0))); [reflexivity |].
      apply toRadians_mono, E0. lra.
Qed.

(** X12.  When every start and end entry is a [Date] object holding a valid
    date, the angles of a task lie within one turn: its start angle is
    between 0 and 2 PI, its end angle is at most 2 PI, and when the task
    does not end before it starts its end angle is at least its start
    angle, hence at least 0. *)
Theorem task_angles_within_turn (now : nat -> Z) (gantt g : IGantt)
    (names : list string) (starts ends : list any)
    (getSelectionId : IGanttTask -> nat -> result SelectionId)
    (i : nat) (t : IGanttTask) (ta tb : Z) :
  buildGantTasks now gantt names starts ends getSelectionId = Ok g ->
  forallb isDate starts = true ->
  forallb isDate ends = true ->
  nth_error g.(tasks) i = Some t ->
  asDate (nth_error starts i) = Some ta ->
  asDate (nth_error ends i) = Some tb ->
  (Fin 0 <=? t.(startAngle))%js = true
  /\ (t.(startAngle) <=? Fin 2 * PI)%js = true
  /\ (t.(endAngle) <=? Fin 2 * PI)%js = true
  /\ ((ta <= tb)%Z ->
      (t.(startAngle) <=? t.(endAngle))%js = true
      /\ (Fin 0 <=? t.(endAngle))%js = true).
Proof.
  exact (@angles_within_turn now gantt g names starts ends getSelectionId i t ta tb).
Qed.

(** The theorem on the second task of the sample chart (days 2 to 6). *)
Lemma task_angles_within_turn_witness :
  (Fin 0 <=? (taskAt (sampleChart true) 1).(startAngle))%js = true
  /\ ((taskAt (sampleChart true) 1).(startAngle) <=? Fin 2 * PI)%js = true
  /\ ((taskAt (sampleChart true) 1).(endAngle) <=? Fin 2 * PI)%js = true
  /\ ((2 * day <= 6 * day)%Z ->
      ((taskAt (sampleChart true) 1).(startAngle)
       <=? (taskAt (sampleChart true) 1).(endAngle))%js = true
      /\ (Fin 0 <=? (taskAt (sampleChart true) 1).(endAngle))%js = true).
Proof.
  apply (@task_angles_within_turn (clockAt (5 * day)) (emptyGantt true)
           (sampleChart true) sampleNames sampleStarts sampleEnds noSelection
           1 (taskAt (sampleChart true) 1) (2 * day) (6 * day));
    reflexivity.
Defined.

(** X13.  Over a finite span, a task that starts no earlier than the
    overall start plus the overall duration has start angle 0, because the
    start-angle mapping falls back to 0 once the offset from the overall
    start reaches the duration; when it does not end before it starts its
    end angle is 2 PI, so that it is drawn as a full ring.  (The overall
    start plus the duration is the latest end, unless that end precedes
    the earliest start.) *)
Theorem task_at_overall_end_full_ring (now : nat -> Z) (gantt g : IGantt)
    (names : list string) (starts ends : list any)
    (getSelectionId : IGanttTask -> nat -> result SelectionId)
    (s d : Q) (i : nat) (t : IGanttTask) (ta tb : Z) :
  buildGantTasks now gantt names starts ends getSelectionId = Ok g ->
  timeSpan starts ends = Ok (Fin s, Fin d) ->
  nth_error g.(tasks) i = Some t ->
  asDate (nth_error starts i) = Some ta ->
  asDate (nth_error ends i) = Some tb ->
  s + d <= inject_Z ta ->
  (t.(startAngle) == Fin 0)%js
  /\ ((ta <= tb)%Z -> (t.(endAngle) == Fin 2 * PI)%js).
Proof.
  intros H Hspan Hi Ha Hb Hend.
  destruct (buildGantTasks_angles _ _ _ _ _ _ i H Hspan Hi) as [-> ->].
  rewrite Ha, Hb. cbn [Date_valueOf]. unfold of_Z. cbn [sub].
  rewrite !calcTaskRadians_toRadians. split.
  - rewrite calcPercent_over by lra. reflexivity.
  - intro Hab. rewrite Zle_Qle in Hab.
    rewrite calcPercent_over by lra. reflexivity.
Qed.

(** The theorem on a milestone on the last of 10 days. *)
Lemma task_at_overall_end_full_ring_witness :
  ((taskAt milestoneChart 1).(startAngle) == Fin 0)%js
  /\ ((10 * day <= 10 * day)%Z ->
      ((taskAt milestoneChart 1).(endAngle) == Fin 2 * PI)%js).
Proof.
  apply (@task_at_overall_end_full_ring (clockAt (5 * day)) (emptyGantt true)
           milestoneChart ["Build"; "Release"]%string
           (dates [0; 10]%Z) (dates [10; 10]%Z) noSelection
           0 (Qabs (inject_Z (10 * day) - 0))
           1 (taskAt milestoneChart 1) (10 * day) (10 * day));
    try reflexivity.
  discriminate.
Defined.

(** ** Tasks that follow one another in time *)

Lemma end_before_start_percent (ev sv d : Q) :
  0 <= d -> ev <= sv -> sv < d ->
  (calcPercent (Fin ev) (Fin d) (Fin 100)
   <=? calcPercent (Fin sv) (Fin d) (Fin 0))%js = true.
Proof.
  intros Hd Hle Hlt. destruct (Qlt_le_dec 0 d) as [Hpos | Hnp].
  - rewrite !calcPercent_below by lra. simpl. qprop.
    apply percent_mono; assumption.
  - assert (Hz : d == 0) by lra.
    rewrite !calcPercent_zero_span by (trivial; lra). reflexivity.
Qed.

Lemma sequence_no_overlap (now : nat -> Z) (gantt g : IGantt)
    (names : list string) (starts ends : list any)
    (getSelectionId : IGanttTask -> nat -> result SelectionId)
    (s d : Q) (i j : nat) (ti tj : IGanttTask) (tb ta : Z) :
  buildGantTasks now gantt names starts ends getSelectionId = Ok g ->
  timeSpan starts ends = Ok (Fin s, Fin d) ->
  nth_error g.(tasks) i = Some ti ->
  nth_error g.(tasks) j = Some tj ->
  asDate (nth_error ends i) = Some tb ->
  asDate (nth_error starts j) = Some ta ->
  (tb <= ta)%Z ->
  inject_Z ta < s + d ->
  (ti.(endAngle) <=? tj.(startAngle))%js = true
  /\ overlap ti tj = false /\ overlap tj ti = false.
Proof.
  intros H Hspan Hi Hj Hb Ha Hseq Hin.
  pose proof (timeSpan_duration_nonneg _ _ Hspan) as Hd.
  destruct (buildGantTasks_angles _ _ _ _ _ _ i H Hspan Hi) as [_ Ei].
  destruct (buildGantTasks_angles _ _ _ _ _ _ j H Hspan Hj) as [Ej _].
  rewrite Hb in Ei. rewrite Ha in Ej. cbn [Date_valueOf] in Ei, Ej.
  unfold of_Z in Ei, Ej. cbn [sub] in Ei, Ej.
  rewrite calcTaskRadians_toRadians in Ei, Ej.
  rewrite Zle_Qle in Hseq.
  assert (L : (ti.(endAngle) <=? tj.(startAngle))%js = true).
  { rewrite Ei, Ej. apply toRadians_mono, end_before_start_percent; lra. }
  split; [exact L |].
  assert (C : clear_of ti tj = true).
  { unfold clear_of. rewrite L. apply orb_true_r. }
  split.
  - now rewrite overlap_clear_of, C.
  - now rewrite overlap_clear_of, clear_of_comm, C.
Qed.

(** X14.  When every start and end entry is a [Date] object holding a valid
    date and the overall duration is at most [two53] (2^53 ms, so that no
    offset is rounded), a task that ends no later than another task starts
    does not overlap it in angle, provided the other task starts before
    the overall start plus the overall duration: the two can share a
    layer. *)
Theorem tasks_in_sequence_do_not_overlap (now : nat -> Z) (gantt g : IGantt)
    (names : list string) (starts ends : list any)
    (getSelectionId : IGanttTask -> nat -> result SelectionId)
    (s d : Q) (i j : nat) (ti tj : IGanttTask) (tb ta : Z) :
  buildGantTasks now gantt names starts ends getSelectionId = Ok g ->
  forallb isDate starts = true ->
  forallb isDate ends = true ->
  timeSpan starts ends = Ok (Fin s, Fin d) ->
  d <= two53 ->
  nth_error g.(tasks) i = Some ti ->
  nth_error g.(tasks) j = Some tj ->
  asDate (nth_error ends i) = Some tb ->
  asDate (nth_error starts j) = Some ta ->
  (tb <= ta)%Z ->
  inject_Z ta < s + d ->
  (ti.(endAngle) <=? tj.(startAngle))%js = true
  /\ overlap ti tj = false /\ overlap tj ti = false.
Proof.
  intros H _ _ Hspan _.
  exact (@sequence_no_overlap now gantt g names starts ends getSelectionId
           s d i j ti tj tb ta H Hspan).
Qed.

(** The theorem on the first and third task of the sample chart: the first
    ends on day 3, the third starts on day 6 of 10. *)
Lemma tasks_in_sequence_do_not_overlap_witness :
  ((taskAt (sampleChart true) 0).(endAngle)
   <=? (taskAt (sampleChart true) 2).(startAngle))%js = true
  /\ overlap (taskAt (sampleChart true) 0) (taskAt (sampleChart true) 2)
     = false
  /\ overlap (taskAt (sampleChart true) 2) (taskAt (sampleChart true) 0)
     = false.
Proof.
  apply (@tasks_in_sequence_do_not_overlap (clockAt (5 * day))
           (emptyGantt true) (sampleChart true) sampleNames sampleStarts
           sampleEnds noSelection 0 (Qabs (inject_Z (10 * day) - 0))
           0 2 (taskAt (sampleChart true) 0) (taskAt (sampleChart true) 2)
           (3 * day) (6 * day));
    try reflexivity.
  - discriminate.
  - discriminate.
Defined.

(** X15.  With the compress flag enabled, when every start and end entry is
    a [Date] object holding a valid date and the overall duration is at
    most [two53] (2^53 ms), tasks that pairwise follow one another in time
    (of any two, one ends no later than the other starts, and the later
    one starts before the overall start plus the overall duration) all lie
    on layer 0 of a chart of one layer, whatever their order in the
    input. *)
Theorem compress_sequence_one_layer (now : nat -> Z) (gantt g : IGantt)
    (names : list string) (starts ends : list any)
    (getSelectionId : IGanttTask -> nat -> result SelectionId) (s d : Q) :
  gantt.(compress) = true ->
  buildGantTasks now gantt names starts ends getSelectionId = Ok g ->
  forallb isDate starts = true ->
  forallb isDate ends = true ->
  timeSpan starts ends = Ok (Fin s, Fin d) ->
  d <= two53 ->
  (forall i j : nat,
      (i < j < List.length names)%nat ->
      (exists tb ta : Z,
          asDate (nth_error ends i) = Some tb
          /\ asDate (nth_error starts j) = Some ta
          /\ (tb <= ta)%Z /\ inject_Z ta < s + d)
      \/ (exists tb ta : Z,
             asDate (nth_error ends j) = Some tb
             /\ asDate (nth_error starts i) = Some ta
             /\ (tb <= ta)%Z /\ inject_Z ta < s + d)) ->
  (forall (i : nat) (t : IGanttTask),
      nth_error g.(tasks) i = Some t -> t.(layer) = 0%Z)
  /\ g.(layers) = 1%Z.
Proof.
  intros Hc H _ _ Hspan _ Hseq.
  apply (@disjoint_one_layer now gantt g names starts ends getSelectionId Hc H).
  intros i j ti tj Hij Hi Hj.
  destruct (buildGantTasks_progress _ _ _ _ _ _ H Hspan) as (_ & _ & Hlen).
  assert (Lj : (j < List.length names)%nat).
  { rewrite <- Hlen. apply nth_error_Some. congruence. }
  destruct (Hseq i j (conj Hij Lj))
    as [(tb & ta & Hb & Ha & Hle & Hin) | (tb & ta & Hb & Ha & Hle & Hin)].
  - exact (proj1 (proj2 (@sequence_no_overlap now gantt g names starts ends
                           getSelectionId s d i j ti tj tb ta
                           H Hspan Hi Hj Hb Ha Hle Hin))).
  - exact (proj2 (proj2 (@sequence_no_overlap now gantt g names starts ends
                           getSelectionId s d j i tj ti tb ta
                           H Hspan Hj Hi Hb Ha Hle Hin))).
Qed.

(** The theorem on three tasks that follow one another, given out of
    order. *)
Lemma compress_sequence_one_layer_witness :
  (forall (i : nat) (t : IGanttTask),
      nth_error shuffledChart.(tasks) i = Some t -> t.(layer) = 0%Z)
  /\ shuffledChart.(layers) = 1%Z.
Proof.
  apply (@compress_sequence_one_layer (clockAt (5 * day)) (emptyGantt true)
           shuffledChart sampleNames (dates [6; 0; 3]%Z) (dates [9; 3; 6]%Z)
           noSelection 0 (Qabs (inject_Z (9 * day) - 0)));
    try reflexivity; try discriminate.
  intros i j [Hij Hj].
  destruct j as [| [| [| j]]]; destruct i as [| [| [| i]]];
    simpl in Hj; try lia.
  - right. exists (3 * day)%Z, (6 * day)%Z.
    repeat split; try reflexivity; discriminate.
  - right. exists (6 * day)%Z, (6 * day)%Z.
    repeat split; try reflexivity; discriminate.
  - left. exists (3 * day)%Z, (3 * day)%Z.
    repeat split; try reflexivity; discriminate.
Defined.

(** ** The rings of [draw] *)

Lemma half_mono (x y : Q) : x <= y -> x / 2 <= y / 2.
Proof.
  intro H. unfold Qdiv. apply Qmult_le_compat_r; [exact H | discriminate].
Qed.

(** The radii for a finite viewport and a layer count that is not
    negative, as rationals. *)
Lemma draw_radii (gantt : IGantt) (w h : Q) :
  0 <= w -> 0 <= h -> (0 <= gantt.(layers))%Z ->
  let viewport := {| height := Fin h; width := Fin w |} in
  exists r a : Q,
    0 <= r /\ 0 <= a
    /\ a * (inject_Z gantt.(layers) + 3) == r
    /\ (r == w / 2 \/ r == h / 2) /\ r <= w / 2 /\ r <= h / 2
    /\ radius viewport = Fin r
    /\ arcHeight gantt viewport = Fin a
    /\ centerRadius gantt viewport = Fin (a * 3)
    /\ progressOuterRadius gantt viewport
       = Fin (a * (3 + inject_Z gantt.(layers)))
    /\ forall d : IGanttTask,
         innerRadius gantt viewport d
         = Fin (a * 3 + inject_Z d.(layer) * a)
         /\ outerRadius gantt viewport d
            = Fin (a * (3 + 1) + inject_Z d.(layer) * a).
Proof.
  intros Hw Hh HL viewport.
  assert (Hden : 0 < inject_Z gantt.(layers) + 3).
  { rewrite Zle_Qle in HL. change (inject_Z 0) with 0 in HL. lra. }
  assert (Hr : exists r : Q,
             0 <= r /\ (r == w / 2 \/ r == h / 2) /\ r <= w / 2 /\ r <= h / 2
             /\ radius viewport = Fin r).
  { unfold radius, viewport, Math_min, lt. simpl.
    destruct (Qltb h w) eqn:E; qprop.
    - exists (h / 2).
      split; [apply Qle_shift_div_l; [reflexivity | lra] |].
      split; [right; reflexivity |].
      split; [apply half_mono; lra |].
      split; [apply half_mono; lra | reflexivity].
    - exists (w / 2).
      split; [apply Qle_shift_div_l; [reflexivity | lra] |].
      split; [left; reflexivity |].
      split; [apply half_mono; lra |].
      split; [apply half_mono; lra | reflexivity]. }
  destruct Hr as (r & Hr0 & Hror & Hrw & Hrh & Er).
  exists r, (r / (inject_Z gantt.(layers) + 3)).
  assert (Ea : arcHeight gantt viewport
               = Fin (r / (inject_Z gantt.(layers) + 3))).
  { unfold arcHeight. rewrite Er. unfold of_Z, CenterSize. cbn [add div].
    assert (Z : Qeq_bool (inject_Z gantt.(layers) + 3) 0 = false)
      by (qprop; lra).
    now rewrite Z. }
  assert (Ha0 : 0 <= r / (inject_Z gantt.(layers) + 3)).
  { apply Qle_shift_div_l; [exact Hden | lra]. }
  repeat split; trivial.
  - field. lra.
  - unfold centerRadius. now rewrite Ea.
  - unfold progressOuterRadius. now rewrite Ea.
  - unfold innerRadius, centerRadius. now rewrite Ea.
  - unfold outerRadius. now rewrite Ea.
Qed.

Lemma ring_ordered (gantt : IGantt) (w h : Q) (d : IGanttTask) :
  0 <= w -> 0 <= h -> (0 <= gantt.(layers))%Z -> (0 <= d.(layer))%Z ->
  let viewport := {| height := Fin h; width := Fin w |} in
  (Fin 0 <=? centerRadius gantt viewport)%js = true
  /\ (centerRadius gantt viewport <=? innerRadius gantt viewport d)%js = true
  /\ (innerRadius gantt viewport d <=? outerRadius gantt viewport d)%js = true
  /\ (progressInnerRadius gantt viewport
      <=? progressOuterRadius gantt viewport)%js = true.
Proof.
  intros Hw Hh HL Hl0 viewport.
  destruct (draw_radii gantt Hw Hh HL)
    as (r & a & Hr0 & Ha0 & _ & _ & _ & _ & _ & _ & Ec & Ep & Hd).
  fold viewport in Ec, Ep, Hd.
  destruct (Hd d) as [Ei Eo].
  unfold progressInnerRadius. rewrite Ec, Ep, Ei, Eo. simpl.
  rewrite Zle_Qle in Hl0, HL.
  change (inject_Z 0) with 0 in Hl0, HL.
  pose proof (Qmult_le_0_compat _ _ Hl0 Ha0) as P1.
  pose proof (Qmult_le_0_compat _ _ Ha0 HL) as P2.
  split; [| split; [| split]]; qprop; lra.
Qed.



(** * The sample data *)

(** ** Names *)

Lemma to_uint_not_nil (n : nat) : Nat.to_uint n <> Decimal.Nil.
Proof.
  intro E.
  pose proof (Unsigned.of_to n) as H. rewrite E in H. simpl in H. subst n.
  discriminate E.
Qed.

Lemma taskName_inj (i j : nat) : taskName i = taskName j -> i = j.
Proof.
  unfold taskName. simpl. intro H. injection H as H.
  apply Unsigned.to_uint_inj.
  pose proof (NilZero.usu _ (to_uint_not_nil i)) as Hi.
  pose proof (NilZero.usu _ (to_uint_not_nil j)) as Hj.
  rewrite H in Hi. rewrite Hi in Hj. now injection Hj.
Qed.

Lemma NoDup_map_injective {A B : Type} (f : A -> B) (l : list A) :
  (forall x y, f x = f y -> x = y) -> NoDup l -> NoDup (map f l).
Proof.
  intros Hf H. induction H as [| x l Hx Hl IH]; simpl; constructor.
  - intro Hin. apply in_map_iff in Hin. destruct Hin as (y & Hy & Hin).
    apply Hf in Hy. now subst y.
  - exact IH.
Qed.

(** X18.  [generateTasks(count)] returns [count] names, 'Task 0',
    'Task 1' and so on in order, no two of which are equal. *)
Theorem generateTasks_distinct (count : nat) :
  List.length (generateTasks count) = count
  /\ NoDup (generateTasks count)
  /\ forall i : nat,
       (i < count)%nat -> nth_error (generateTasks count) i = Some (taskName i).
Proof.
  unfold generateTasks. split; [| split].
  - now rewrite length_map, length_seq.
  - apply NoDup_map_injective; [exact taskName_inj | apply seq_NoDup].
  - intros i Hi. rewrite nth_error_map, nth_error_seq.
    destruct (Nat.ltb_spec i count) as [_ | Hge]; [reflexivity | lia].
Qed.

(** ** Dates made by [new Date] *)

Lemma truncate_between (q : Q) (A B : Z) :
  inject_Z A <= q -> q <= inject_Z B ->
  (A <= Z.quot (Qnum q) (Zpos (Qden q)) <= B)%Z.
Proof.
  destruct q as [n d]. unfold Qle. simpl. rewrite !Z.mul_1_r. intros HA HB.
  split.
  - rewrite <- (Z.quot_mul A (Zpos d)) by discriminate.
    apply Z.quot_le_mono; lia.
  - rewrite <- (Z.quot_mul B (Zpos d)) by discriminate.
    apply Z.quot_le_mono; lia.
Qed.

Lemma truncate_near (q : Q) :
  q - 1 < inject_Z (Z.quot (Qnum q) (Zpos (Qden q)))
  /\ inject_Z (Z.quot (Qnum q) (Zpos (Qden q))) < q + 1.
Proof.
  destruct q as [n d]. unfold Qlt, Qminus, Qplus, Qopp. simpl.
  pose proof (Z.quot_rem' n (Zpos d)) as E.
  pose proof (Z.rem_bound_abs n (Zpos d) ltac:(discriminate)) as R.
  rewrite !Z.mul_1_r. rewrite !Pos.mul_1_r.
  split; nia.
Qed.

(** [new Date(ms)] for a time between two integer times within the range
    of dates: a valid date between the two. *)
Lemma newDate_between (q : Q) (A B : Z) :
  (-8640000000000000 <= A)%Z -> (B <= 8640000000000000)%Z ->
  inject_Z A <= q -> q <= inject_Z B ->
  exists t : Z,
    newDate (Fin q) = ADate (Some t)
    /\ (A <= t <= B)%Z /\ q - 1 < inject_Z t /\ inject_Z t < q + 1.
Proof.
  intros HA HB Hl Hu.
  exists (Z.quot (Qnum q) (Zpos (Qden q))).
  split; [| split; [now apply truncate_between | apply truncate_near]].
  unfold newDate, TimeClip.
  assert (E : Qle_bool (Qabs q) 8640000000000000 = true).
  { qprop. apply Qabs_Qle_condition.
    rewrite Zle_Qle in HA, HB.
    change (inject_Z (-8640000000000000)) with (-(8640000000000000)) in HA.
    change (inject_Z 8640000000000000) with 8640000000000000 in HB.
    lra. }
  now rewrite E.
Qed.

(** ** Assignment by index *)

Lemma assign_length (arr : list any) (i : nat) (v : any) :
  (i <= List.length arr)%nat ->
  List.length (assign arr i v) = Nat.max (List.length arr) (S i).
Proof.
  intro H. unfold assign.
  rewrite length_app, length_firstn. cbn [List.length].
  rewrite length_skipn. lia.
Qed.

Lemma assign_same (arr : list any) (i : nat) (v : any) :
  (i <= List.length arr)%nat -> nth_error (assign arr i v) i = Some v.
Proof.
  intro H. unfold assign.
  rewrite nth_error_app2 by (rewrite length_firstn; lia).
  rewrite length_firstn.
  replace (i - Nat.min i (List.length arr))%nat with 0%nat by lia.
  reflexivity.
Qed.

Lemma assign_before (arr : list any) (i j : nat) (v : any) :
  (j < i)%nat -> (i <= List.length arr)%nat ->
  nth_error (assign arr i v) j = nth_error arr j.
Proof.
  intros Hj H. unfold assign.
  rewrite nth_error_app1 by (rewrite length_firstn; lia).
  rewrite nth_error_firstn.
  destruct (Nat.ltb_spec j i) as [_ | Hge]; [reflexivity | lia].
Qed.

(** The two arrays after [forEach] has run from index [i]: the entries
    below [i] are kept, every name from [i] on has received its two dates,
    and an array that was not longer than the names now has their length. *)
Lemma randomizeFrom_spec (getRandomValue : nat -> number -> number -> number)
    (now : Z) (names : list string) :
  forall (i : nat) (starts ends starts' ends' : list any),
    (i <= List.length starts)%nat -> (i <= List.length ends)%nat ->
    randomizeFrom getRandomValue now names i starts ends = (starts', ends') ->
    List.length starts'
    = Nat.max (List.length starts) (i + List.length names)
    /\ List.length ends' = Nat.max (List.length ends) (i + List.length names)
    /\ (forall j, (j < i)%nat ->
          nth_error starts' j = nth_error starts j
          /\ nth_error ends' j = nth_error ends j)
    /\ (forall k, (k < List.length names)%nat ->
          nth_error starts' (i + k)
          = Some (newDate (taskStartMs getRandomValue now (i + k)))
          /\ nth_error ends' (i + k)
             = Some (newDate (taskEndMs getRandomValue now (i + k)))).
Proof.
  induction names as [| name_ names IH];
    intros i starts ends starts' ends' Ls Le H.
  - injection H as <- <-. simpl. repeat split; lia.
  - simpl in H. apply IH in H.
    + destruct H as (L1 & L2 & Hkeep & Hnew).
      rewrite assign_length in L1, L2 by assumption.
      cbn [List.length]. repeat split; try lia.
      * destruct (Hkeep j ltac:(lia)) as [-> _].
        now apply assign_before.
      * destruct (Hkeep j ltac:(lia)) as [_ ->].
        now apply assign_before.
      * destruct k as [| k].
        -- rewrite Nat.add_0_r. destruct (Hkeep i ltac:(lia)) as [-> _].
           now apply assign_same.
        -- rewrite <- Nat.add_succ_comm.
           apply (Hnew k). simpl in H. lia.
      * destruct k as [| k].
        -- rewrite Nat.add_0_r. destruct (Hkeep i ltac:(lia)) as [_ ->].
           now apply assign_same.
        -- rewrite <- Nat.add_succ_comm.
           apply (Hnew k). simpl in H. lia.
    + rewrite assign_length by assumption. lia.
    + rewrite assign_length by assumption. lia.
Qed.

(** ** The dates of the sample data *)

Lemma inject_Z_sub (a b : Z) : inject_Z (a - b) == inject_Z a - inject_Z b.
Proof.
  unfold Z.sub. rewrite inject_Z_plus, inject_Z_opp. reflexivity.
Qed.

Lemma sample_times (getRandomValue : nat -> number -> number -> number)
    (now : Z) (i : nat) :
  inRange getRandomValue ->
  exists qs qe : Q,
    taskStartMs getRandomValue now i = Fin qs
    /\ taskEndMs getRandomValue now i = Fin qe
    /\ inject_Z now - 27 * 86400000 <= qs
    /\ qs <= inject_Z now + 27 * 86400000
    /\ 86400000 <= qe - qs /\ qe - qs <= 28 * 86400000.
Proof.
  intro H.
  destruct (H 0%nat) as (r0 & E0 & B0).
  destruct (H (2 * i + 1)%nat) as (r1 & E1 & B1).
  destruct (H (2 * i + 2)%nat) as (r2 & E2 & B2).
  unfold taskEndMs, taskStartMs, startDateMs. rewrite E0, E1, E2.
  unfold of_Z, oneDayMs. cbn [add sub mul].
  eexists. eexists. split; [reflexivity |]. split; [reflexivity |].
  repeat split; lra.
Qed.

Lemma sample_dates (getRandomValue : nat -> number -> number -> number)
    (now : Z) (i : nat) :
  inRange getRandomValue ->
  (0 <= now <= 8639995161600000)%Z ->
  exists ta tb : Z,
    newDate (taskStartMs getRandomValue now i) = ADate (Some ta)
    /\ newDate (taskEndMs getRandomValue now i) = ADate (Some tb)
    /\ (now - 27 * day <= ta <= now + 27 * day)%Z
    /\ (day - 1 <= tb - ta <= 28 * day + 1)%Z.
Proof.
  intros H Hnow.
  destruct (sample_times now i H) as (qs & qe & -> & -> & S1 & S2 & D1 & D2).
  destruct (@newDate_between qs (now - 27 * day) (now + 27 * day))
    as (ta & Ea & Ba & Na1 & Na2).
  { unfold day. lia. }
  { unfold day. lia. }
  { unfold day. rewrite inject_Z_sub, inject_Z_mult. exact S1. }
  { unfold day. rewrite inject_Z_plus, inject_Z_mult. exact S2. }
  destruct (@newDate_between qe (now - 26 * day) (now + 55 * day))
    as (tb & Eb & Bb & Nb1 & Nb2).
  { unfold day. lia. }
  { unfold day. lia. }
  { unfold day. rewrite inject_Z_sub, inject_Z_mult.
    change (inject_Z 26) with 26. change (inject_Z 86400000) with 86400000.
    lra. }
  { unfold day. rewrite inject_Z_plus, inject_Z_mult.
    change (inject_Z 55) with 55. change (inject_Z 86400000) with 86400000.
    lra. }
  exists ta, tb. repeat split; trivial; try lia.
  - assert (L : inject_Z (day - 2) < inject_Z (tb - ta)).
    { rewrite !inject_Z_sub. unfold day.
      change (inject_Z 86400000) with 86400000. change (inject_Z 2) with 2.
      lra. }
    rewrite <- Zlt_Qlt in L. lia.
  - assert (L : inject_Z (tb - ta) < inject_Z (28 * day + 2)).
    { rewrite inject_Z_plus, inject_Z_mult, inject_Z_sub. unfold day.
      change (inject_Z 86400000) with 86400000. change (inject_Z 2) with 2.
      change (inject_Z 28) with 28. lra. }
    rewrite <- Zlt_Qlt in L. lia.
Qed.

Lemma randomize_spec (getRandomValue : nat -> number -> number -> number)
    (now : Z) (sampleData : SampleData) :
  inRange getRandomValue ->
  (0 <= now <= 8639995161600000)%Z ->
  (List.length sampleData.(startDates)
   <= List.length sampleData.(taskNames))%nat ->
  (List.length sampleData.(endDates)
   <= List.length sampleData.(taskNames))%nat ->
  let result := randomize getRandomValue now sampleData in
  result.(taskNames) = sampleData.(taskNames)
  /\ List.length result.(startDates) = List.length sampleData.(taskNames)
  /\ List.length result.(endDates) = List.length sampleData.(taskNames)
  /\ forall i : nat,
       (i < List.length sampleData.(taskNames))%nat ->
       exists ta tb : Z,
         nth_error result.(startDates) i = Some (ADate (Some ta))
         /\ nth_error result.(endDates) i = Some (ADate (Some tb))
         /\ (now - 27 * day <= ta <= now + 27 * day)%Z
         /\ (ta < tb)%Z
         /\ (day - 1 <= tb - ta <= 28 * day + 1)%Z.
Proof.
  intros H Hnow Ls Le result. unfold result, randomize.
  destruct (randomizeFrom getRandomValue now sampleData.(taskNames) 0
              sampleData.(startDates) sampleData.(endDates))
    as [starts' ends'] eqn:E.
  apply randomizeFrom_spec in E; [| lia | lia].
  destruct E as (L1 & L2 & _ & Hnew). cbn [taskNames startDates endDates].
  split; [reflexivity |]. split; [lia |]. split; [lia |].
  intros i Hi. destruct (Hnew i Hi) as [Es Ee]. simpl in Es, Ee.
  destruct (@sample_dates _ now i H Hnow) as (ta & tb & Ea & Eb & Ba & Bd).
  exists ta, tb. rewrite Es, Ee, Ea, Eb.
  repeat split; trivial; unfold day in *; lia.
Qed.

(** X19.  Given random values from 1 to 28 and a clock within the range of
    dates, [randomize] keeps the names and leaves one start date and one
    end date per name, all valid: each task starts within 27 days of the
    clock, before or after it, and ends after it starts, between one day
    and 28 days later (to the millisecond lost or won by [new Date]). *)
Theorem randomize_dates (getRandomValue : nat -> number -> number -> number)
    (now : Z) (sampleData : SampleData) :
  inRange getRandomValue ->
  (0 <= now <= 8639995161600000)%Z ->
  (List.length sampleData.(startDates)
   <= List.length sampleData.(taskNames))%nat ->
  (List.length sampleData.(endDates)
   <= List.length sampleData.(taskNames))%nat ->
  let result := randomize getRandomValue now sampleData in
  result.(taskNames) = sampleData.(taskNames)
  /\ List.length result.(startDates) = List.length sampleData.(taskNames)
  /\ List.length result.(endDates) = List.length sampleData.(taskNames)
  /\ forall i : nat,
       (i < List.length sampleData.(taskNames))%nat ->
       exists ta tb : Z,
         nth_error result.(startDates) i = Some (ADate (Some ta))
         /\ nth_error result.(endDates) i = Some (ADate (Some tb))
         /\ (now - 27 * day <= ta <= now + 27 * day)%Z
         /\ (ta < tb)%Z
         /\ (day - 1 <= tb - ta <= 28 * day + 1)%Z.
Proof.
  exact (@randomize_spec getRandomValue now sampleData).
Qed.

Lemma turnValues_inRange : inRange turnValues.
Proof.
  intro k. unfold turnValues. eexists. split; [reflexivity |].
  assert (H : (k mod 28 < 28)%nat) by (apply Nat.mod_upper_bound; discriminate).
  split.
  - change 1 with (inject_Z 1). rewrite <- Zle_Qle. lia.
  - change 28 with (inject_Z 28). rewrite <- Zle_Qle. lia.
Qed.

(** The theorem on the sample data as constructed, with random values that
    run through 1 to 28 and the clock at 20000 days. *)
Lemma randomize_dates_witness :
  (ProjectData turnValues sampleNow).(taskNames) = generateTasks 15
  /\ List.length (ProjectData turnValues sampleNow).(startDates)
     = List.length (generateTasks 15)
  /\ List.length (ProjectData turnValues sampleNow).(endDates)
     = List.length (generateTasks 15)
  /\ forall i : nat,
       (i < List.length (generateTasks 15))%nat ->
       exists ta tb : Z,
         nth_error (ProjectData turnValues sampleNow).(startDates) i
         = Some (ADate (Some ta))
         /\ nth_error (ProjectData turnValues sampleNow).(endDates) i
            = Some (ADate (Some tb))
         /\ (sampleNow - 27 * day <= ta <= sampleNow + 27 * day)%Z
         /\ (ta < tb)%Z
         /\ (day - 1 <= tb - ta <= 28 * day + 1)%Z.
Proof.
  apply (@randomize_dates turnValues sampleNow
           {| taskNames := generateTasks 15;
              startDates := [];
              endDates := [] |}).
  - exact turnValues_inRange.
  - unfold sampleNow, day. lia.
  - simpl. lia.
  - simpl. lia.
Defined.

(** ** The chart of the sample data *)

Lemma all_dates (l : list any) (n : nat) :
  List.length l = n ->
  (forall i, (i < n)%nat -> exists t, nth_error l i = Some (ADate (Some t))) ->
  forallb isDate l = true.
Proof.
  intros Hlen H. apply forallb_forall. intros v Hin.
  destruct (In_nth_error_lt _ _ Hin) as (i & Hi & Hv).
  rewrite Hlen in Hi. destruct (H i Hi) as [t Ht].
  rewrite Ht in Hv. now injection Hv as <-.
Qed.

Lemma chart_of_sample (getRandomValue : nat -> number -> number -> number)
    (now : Z) (sampleData : SampleData)
    (clock : nat -> Z) (gantt : IGantt) (f : nat -> SelectionId) :
  inRange getRandomValue ->
  (0 <= now <= 8639995161600000)%Z ->
  (List.length sampleData.(startDates)
   <= List.length sampleData.(taskNames))%nat ->
  (List.length sampleData.(endDates)
   <= List.length sampleData.(taskNames))%nat ->
  sampleData.(taskNames) <> [] ->
  let result := randomize getRandomValue now sampleData in
  exists g : IGantt,
    buildGantTasks clock gantt result.(taskNames) result.(startDates)
      result.(endDates) (fun _ k => Ok (f k)) = Ok g
    /\ List.length g.(tasks) = List.length sampleData.(taskNames)
    /\ forall (i : nat) (t : IGanttTask),
         nth_error g.(tasks) i = Some t ->
         (Fin 0 <=? t.(startAngle))%js = true
         /\ (t.(startAngle) <=? t.(endAngle))%js = true
         /\ (t.(endAngle) <=? Fin 2 * PI)%js = true
         /\ exists z : Z, t.(progress) = of_Z z /\ (0 <= z <= 100)%Z.
Proof.
  intros H Hnow Ls Le Hn result.
  destruct (randomize_spec sampleData H Hnow Ls Le) as (En & L1 & L2 & Hd).
  fold result in En, L1, L2, Hd.
  assert (Ds : forallb isDate result.(startDates) = true).
  { apply (@all_dates _ _ L1). intros i Hi.
    destruct (Hd i Hi) as (ta & tb & Ea & _). now exists ta. }
  assert (De : forallb isDate result.(endDates) = true).
  { apply (@all_dates _ _ L2). intros i Hi.
    destruct (Hd i Hi) as (ta & tb & _ & Eb & _). now exists tb. }
  assert (Hlen : (0 < List.length sampleData.(taskNames))%nat).
  { destruct sampleData.(taskNames); [contradiction | simpl; lia]. }
  assert (Ns : result.(startDates) <> []).
  { intro E. rewrite E in L1. simpl in L1. lia. }
  assert (Ne : result.(endDates) <> []).
  { intro E. rewrite E in L2. simpl in L2. lia. }
  destruct (@buildGantTasks_returns clock gantt result.(taskNames)
              result.(startDates) result.(endDates) f Ns Ne) as [g Hg].
  exists g. split; [exact Hg |].
  destruct (buildGantTasks_ok _ _ _ _ _ _ Hg)
    as (start & duration & rows & _ & Hm & _).
  pose proof (mapTasks_length _ _ _ _ _ _ _ _ _ _ Hm) as Hcount.
  rewrite En in Hcount. split; [exact Hcount |].
  intros i t Hi.
  assert (Li : (i < List.length sampleData.(taskNames))%nat).
  { rewrite <- Hcount. apply nth_error_Some. congruence. }
  destruct (Hd i Li) as (ta & tb & Ea & Eb & _ & Hlt & _).
  assert (Aa : asDate (nth_error result.(startDates) i) = Some ta)
    by now rewrite Ea.
  assert (Ab : asDate (nth_error result.(endDates) i) = Some tb)
    by now rewrite Eb.
  destruct (@angles_within_turn _ _ _ _ _ _ _ i t ta tb Hg Ds De Hi Aa Ab)
    as (A0 & _ & A2 & Aord).
  destruct (Aord ltac:(lia)) as [Ao _].
  destruct (@progress_range _ _ _ _ _ _ _ i t ta tb Hg Hi Aa Ab)
    as (Pr & _).
  auto.
Qed.

(** X20.  The sample data always give a chart: for random values from 1 to
    28, a clock within the range of dates and at least one name,
    [buildGantTasks] returns on the names and dates left by [randomize],
    with one task per name, each with a start angle of at least 0, an end
    angle of at least the start angle and at most 2 PI, and a progress
    that is a whole number from 0 to 100. *)
Theorem sample_data_chart (getRandomValue : nat -> number -> number -> number)
    (now : Z) (sampleData : SampleData)
    (clock : nat -> Z) (gantt : IGantt) (f : nat -> SelectionId) :
  inRange getRandomValue ->
  (0 <= now <= 8639995161600000)%Z ->
  (List.length sampleData.(startDates)
   <= List.length sampleData.(taskNames))%nat ->
  (List.length sampleData.(endDates)
   <= List.length sampleData.(taskNames))%nat ->
  sampleData.(taskNames) <> [] ->
  let result := randomize getRandomValue now sampleData in
  exists g : IGantt,
    buildGantTasks clock gantt result.(taskNames) result.(startDates)
      result.(endDates) (fun _ k => Ok (f k)) = Ok g
    /\ List.length g.(tasks) = List.length sampleData.(taskNames)
    /\ forall (i : nat) (t : IGanttTask),
         nth_error g.(tasks) i = Some t ->
         (Fin 0 <=? t.(startAngle))%js = true
         /\ (t.(startAngle) <=? t.(endAngle))%js = true
         /\ (t.(endAngle) <=? Fin 2 * PI)%js = true
         /\ exists z : Z, t.(progress) = of_Z z /\ (0 <= z <= 100)%Z.
Proof.
  exact (@chart_of_sample getRandomValue now sampleData clock gantt f).
Qed.

(** The theorem on the sample data as constructed, charted at the time
    they were made. *)
Lemma sample_data_chart_witness :
  exists g : IGantt,
    buildGantTasks (clockAt sampleNow) (emptyGantt true)
      (ProjectData turnValues sampleNow).(taskNames)
      (ProjectData turnValues sampleNow).(startDates)
      (ProjectData turnValues sampleNow).(endDates)
      (fun _ k => Ok (createWithId (Some k))) = Ok g
    /\ List.length g.(tasks) = List.length (generateTasks 15)
    /\ forall (i : nat) (t : IGanttTask),
         nth_error g.(tasks) i = Some t ->
         (Fin 0 <=? t.(startAngle))%js = true
         /\ (t.(startAngle) <=? t.(endAngle))%js = true
         /\ (t.(endAngle) <=? Fin 2 * PI)%js = true
         /\ exists z : Z, t.(progress) = of_Z z /\ (0 <= z <= 100)%Z.
Proof.
  apply (@sample_data_chart turnValues sampleNow
           {| taskNames := generateTasks 15;
              startDates := [];
              endDates := [] |}
           (clockAt sampleNow) (emptyGantt true)
           (fun k => createWithId (Some k))).
  - exact turnValues_inRange.
  - unfold sampleNow, day. lia.
  - simpl. lia.
  - simpl. lia.
  - discriminate.
Defined.

(** * The label of a chart in progress *)

(** X21.  For a chart of at least one task whose overall start is a finite
    number and whose overall duration is zero or at least [least_span]
    (2^-1000), the label is one of three: 'Not Started', the progress
    being 0; 'Completed', the progress being 100; or the progress followed
    by '%', the progress being then a whole number from 1 to 99.  The label
    never reads '0%' or '100%', nor a fraction or a negative number of
    percent. *)
Theorem chart_label_cases (now : nat -> Z) (gantt g : IGantt)
    (names : list string) (starts ends : list any)
    (getSelectionId : IGanttTask -> nat -> result SelectionId)
    (s d : Q) (toString : number -> string) :
  buildGantTasks now gantt names starts ends getSelectionId = Ok g ->
  timeSpan starts ends = Ok (Fin s, Fin d) ->
  d == 0 \/ least_span <= d ->
  names <> [] ->
  exists z : Z,
    g.(gprogress) = of_Z z
    /\ ((z = 0%Z /\ totalProgress toString g = "Not Started"%string)
        \/ (z = 100%Z /\ totalProgress toString g = "Completed"%string)
        \/ ((1 <= z <= 99)%Z
            /\ totalProgress toString g
               = (toString (of_Z z) ++ "%")%string)).
Proof.
  intros H Hspan _ Hn.
  destruct (buildGantTasks_progress _ _ _ _ _ _ H Hspan) as (Hp & _ & Hlen).
  destruct (elapsed_since (now (List.length names)) s)
    as (e & He & He0 & _ & _).
  rewrite He in Hp.
  destruct (progress_of_elapsed d He0) as ((z & Ez & Hz) & _ & _).
  rewrite Ez in Hp.
  assert (Hcount : Nat.eqb (List.length g.(tasks)) 0 = false).
  { rewrite Hlen. destruct names; [contradiction | reflexivity]. }
  exists z. split; [exact Hp |].
  unfold totalProgress, getTotalProgressLabel. rewrite Hcount, Hp.
  destruct (Z.eq_dec z 0) as [-> | N0]; [left; split; reflexivity |].
  destruct (Z.eq_dec z 100) as [-> | N100];
    [right; left; split; reflexivity |].
  right. right. split; [lia |].
  assert (A : (of_Z z <=? Fin 0)%js = false).
  { simpl. qprop. change 0 with (inject_Z 0). rewrite <- Zlt_Qlt. lia. }
  assert (B : (of_Z z >=? Fin 100)%js = false).
  { unfold ge. simpl. qprop. change 100 with (inject_Z 100).
    rewrite <- Zlt_Qlt. lia. }
  now rewrite A, B.
Qed.

(** The theorem on the sample chart, read at day 5 of its 10 days. *)
Lemma chart_label_cases_witness :
  exists z : Z,
    (sampleChart true).(gprogress) = of_Z z
    /\ ((z = 0%Z
         /\ totalProgress (fun _ => "50"%string) (sampleChart true)
            = "Not Started"%string)
        \/ (z = 100%Z
            /\ totalProgress (fun _ => "50"%string) (sampleChart true)
               = "Completed"%string)
        \/ ((1 <= z <= 99)%Z
            /\ totalProgress (fun _ => "50"%string) (sampleChart true)
               = ((fun _ => "50"%string) (of_Z z) ++ "%")%string)).
Proof.
  apply (@chart_label_cases (clockAt (5 * day)) (emptyGantt true)
           (sampleChart true) sampleNames sampleStarts sampleEnds noSelection
           0 (Qabs (inject_Z (10 * day) - 0)) (fun _ => "50"%string)).
  - reflexivity.
  - reflexivity.
  - right. intro H. vm_compute in H. discriminate H.
  - discriminate.
Defined.
